(** * invoice-gen: a shallow embedding of the invoice lifecycle client

    The development follows the TypeScript sources:
    - [src/lib/solpay-client.ts]          -> [Module Client]
    - [src/app/api/create-invoice/route.ts] -> [Module Route]
    - [src/app/page.tsx]                  -> [Module Form]
    - [src/app/status/page.tsx]           -> [Module StatusPage]
    - the invoice display page ([InvoicePage], polling, explorer link)
                                          -> [Module InvoicePage]

    Values that the sources type as [any] (parsed JSON bodies) are kept as
    dynamically typed JavaScript values ([JS.jsval]); exceptions are results
    of an error monad; network calls and navigations are recorded in a trace
    of events, the network itself being an oracle from requests to responses;
    React state and the browser's interval timers are explicit state. *)

From Stdlib Require Import String Ascii List ZArith Bool Lia DecimalString.
From Stdlib Require QArith Qround.
Import ListNotations.
Open Scope string_scope.
Set Warnings "-register-all".

(* ================================================================== *)
(** ** Exceptions *)

(** A computation that may throw.  Everything the code throws is an [Error]
    object, of which only [message] is ever read. *)
Inductive result (A : Type) : Type :=
| Ok (a : A)
| Throw (message : string).
Arguments Ok {A} a.
Arguments Throw {A} message.

Definition bind {A B : Type} (r : result A) (k : A -> result B) : result B :=
  match r with
  | Ok a => k a
  | Throw m => Throw m
  end.

Notation "'let*' x ':=' r 'in' k" := (bind r (fun x => k))
  (at level 10, x name, r at level 100, k at level 200).

(* ================================================================== *)
(** ** Strings *)

(** Decimal rendering of an integer, as in a template literal. *)
Definition show_Z (n : Z) : string := NilZero.string_of_int (Z.to_int n).

(** [String.prototype.startsWith] *)
Definition startsWith (s p : string) : bool := String.prefix p s.

(** [String.prototype.includes]: [sub] occurs somewhere in [s]. *)
Fixpoint includes (s sub : string) : bool :=
  String.prefix sub s ||
  match s with
  | EmptyString => false
  | String _ s' => includes s' sub
  end.

(** [Array.prototype.join] on already rendered elements. *)
Fixpoint join (sep : string) (l : list string) : string :=
  match l with
  | [] => EmptyString
  | [x] => x
  | x :: rest => x ++ sep ++ join sep rest
  end.

(* ================================================================== *)
(** ** JavaScript values *)

Module JS.

(** The values a parsed JSON body, or a field read from one, can be.
    Numbers on the wire are integer micro-units and HTTP-level integers, so
    [JNum] carries a [Z].  An object lists its own properties in order, each
    key once. *)
Inductive jsval : Type :=
| JUndefined
| JNull
| JBool (b : bool)
| JNum (n : Z)
| JStr (s : string)
| JArr (elems : list jsval)
| JObj (fields : list (string * jsval)).

(** ToBoolean *)
Definition truthy (v : jsval) : bool :=
  match v with
  | JUndefined | JNull => false
  | JBool b => b
  | JNum n => negb (n =? 0)%Z
  | JStr s => negb (s =? EmptyString)
  | JArr _ | JObj _ => true
  end.

(** [a || b] *)
Definition or (a b : jsval) : jsval := if truthy a then a else b.

(** ToString, as applied by template literals and by [new Error(v)].  A
    number is printed in digits, which is what JavaScript prints for the
    integers a double holds exactly (magnitude up to 2^53), and not for
    larger ones (2^69 is printed 590295810358705700000, 10^21 is printed
    1e+21); an object is printed [[object Object]], which is what JavaScript
    prints for a parsed JSON object without a [toString] key of its own.
    The properties C1-C10 and X1-X29 below state its result for strings and
    for [undefined] only. *)
Fixpoint toString (v : jsval) : string :=
  match v with
  | JUndefined => "undefined"
  | JNull => "null"
  | JBool true => "true"
  | JBool false => "false"
  | JNum n => show_Z n
  | JStr s => s
  | JArr l =>
      join "," (map (fun x => match x with
                              | JUndefined | JNull => EmptyString
                              | _ => toString x
                              end) l)
  | JObj _ => "[object Object]"
  end.

(** [a === b] where [b] is a primitive literal of the program text (a
    string here): equal only to the same primitive. *)
Definition strictEqStr (v : jsval) (s : string) : bool :=
  match v with
  | JStr s' => s' =? s
  | _ => false
  end.

Fixpoint lookup (k : string) (fields : list (string * jsval)) : jsval :=
  match fields with
  | [] => JUndefined
  | (k', v) :: rest => if k' =? k then v else lookup k rest
  end.

(** [v.k] for the property names the program reads ([id], [status],
    [amount], [error], ...), none of which is a built-in property of a
    string, number, boolean or array. *)
Definition get (v : jsval) (k : string) : result jsval :=
  match v with
  | JUndefined =>
      Throw ("Cannot read properties of undefined (reading '" ++ k ++ "')")
  | JNull =>
      Throw ("Cannot read properties of null (reading '" ++ k ++ "')")
  | JObj fields => Ok (lookup k fields)
  | _ => Ok JUndefined
  end.

(** [v?.k] *)
Definition getOpt (v : jsval) (k : string) : jsval :=
  match v with
  | JObj fields => lookup k fields
  | _ => JUndefined
  end.

(** [const { k } = v]: like [v.k], with the destructuring error text. *)
Definition destructure (v : jsval) (k : string) : result jsval :=
  match v with
  | JUndefined =>
      Throw ("Cannot destructure property '" ++ k ++ "' of 'body' as it is undefined.")
  | JNull =>
      Throw ("Cannot destructure property '" ++ k ++ "' of 'body' as it is null.")
  | JObj fields => Ok (lookup k fields)
  | _ => Ok JUndefined
  end.

(** Assignment [o.k = v] on an object: replaces in place, or appends. *)
Fixpoint setField (k : string) (v : jsval) (fields : list (string * jsval))
  : list (string * jsval) :=
  match fields with
  | [] => [(k, v)]
  | (k', v') :: rest =>
      if k' =? k then (k, v) :: rest else (k', v') :: setField k v rest
  end.

Fixpoint indexed {A : Type} (i : nat) (l : list A) : list (string * A) :=
  match l with
  | [] => []
  | x :: rest => (show_Z (Z.of_nat i), x) :: indexed (S i) rest
  end.

Fixpoint chars (s : string) : list jsval :=
  match s with
  | EmptyString => []
  | String c s' => JStr (String c EmptyString) :: chars s'
  end.

(** The own enumerable properties copied by an object spread [{...v}]. *)
Definition spread (v : jsval) : list (string * jsval) :=
  match v with
  | JObj fields => fields
  | JArr l => indexed 0 l
  | JStr s => indexed 0 (chars s)
  | _ => []
  end.

(** [Object.is(a, b)] where [b] comes from a later [JSON.parse] than [a]:
    primitives are compared by value, and two objects or arrays from
    different parses are never the same object. *)
Definition sameValue (a b : jsval) : bool :=
  match a, b with
  | JUndefined, JUndefined => true
  | JNull, JNull => true
  | JBool x, JBool y => Bool.eqb x y
  | JNum x, JNum y => (x =? y)%Z
  | JStr x, JStr y => x =? y
  | _, _ => false
  end.

(** The assignment [v.k = w] in strict mode (modules are strict).  An array
    that receives a named property is kept as the object of its own
    properties: the program only ever reads named properties from it. *)
Definition assign (v : jsval) (k : string) (w : jsval) : result jsval :=
  match v with
  | JObj fields => Ok (JObj (setField k w fields))
  | JArr l => Ok (JObj (setField k w (indexed 0 l)))
  | JUndefined =>
      Throw ("Cannot set properties of undefined (setting '" ++ k ++ "')")
  | JNull =>
      Throw ("Cannot set properties of null (setting '" ++ k ++ "')")
  | JBool _ =>
      Throw ("Cannot create property '" ++ k ++ "' on boolean '"
               ++ toString v ++ "'")
  | JNum _ =>
      Throw ("Cannot create property '" ++ k ++ "' on number '"
               ++ toString v ++ "'")
  | JStr _ =>
      Throw ("Cannot create property '" ++ k ++ "' on string '"
               ++ toString v ++ "'")
  end.

(** [v?.includes(sub)], as a condition: [String.prototype.includes] on a
    string, [Array.prototype.includes] on an array, [undefined] (falsy) when
    the chain is cut short; any other value has no such method, and the
    error names the callee as the program text has it ([callee]). *)
Definition includesOpt (callee : string) (v : jsval) (sub : string)
  : result bool :=
  match v with
  | JUndefined | JNull => Ok false
  | JStr s => Ok (includes s sub)
  | JArr l => Ok (existsb (fun x => strictEqStr x sub) l)
  | _ => Throw (callee ++ " is not a function")
  end.

End JS.
Import JS.

(** An optional string of the environment or of a form field used under
    [s || d]: absent and empty both select the default. *)
Definition strOr (o : option string) (d : string) : string :=
  match o with
  | Some s => if s =? EmptyString then d else s
  | None => d
  end.

(* ================================================================== *)
(** ** HTTP as seen through [fetch], and the trace of effects *)

Module Http.

(** A request; [B] is the type of the value handed to [JSON.stringify]. *)
Record Request (B : Type) : Type := mkRequest {
  url : string;
  method : string;
  headers : list (string * string);
  body : option B;
  (** the [cache] option of [fetch] *)
  cache : option string
}.
Arguments mkRequest {B} url method headers body cache.
Arguments url {B} r.
Arguments method {B} r.
Arguments headers {B} r.
Arguments body {B} r.
Arguments cache {B} r.

Record Response : Type := mkResponse {
  status : Z;
  statusText : string;
  (** the outcome of [await response.json()]: the parsed body, or the
      error of a body that is not JSON *)
  json : result jsval
}.

(** [response.ok]: the status is in the range 200-299. *)
Definition ok (r : Response) : bool :=
  ((200 <=? status r) && (status r <=? 299))%Z.

(** [await response.json().catch(() => d)] *)
Definition json_catch (r : Response) (d : jsval) : jsval :=
  match json r with
  | Ok v => v
  | Throw _ => d
  end.

(** The network: [fetch] either rejects or resolves with a response. *)
Definition Fetch (B : Type) : Type := Request B -> result Response.

End Http.

(** What a handler does to the outside world, in order. *)
Inductive Event (B : Type) : Type :=
| CallFetch (req : Http.Request B)
| RouterPush (path : string).
Arguments CallFetch {B} req.
Arguments RouterPush {B} path.

Definition isFetch {B : Type} (e : Event B) : bool :=
  match e with
  | CallFetch _ => true
  | RouterPush _ => false
  end.

(** The number of network calls in a trace. *)
Definition networkCalls {B : Type} (t : list (Event B)) : nat :=
  List.length (filter isFetch t).

(** An effectful computation: the events it caused, and how it ended. *)
Definition io (B A : Type) : Type := (list (Event B) * result A)%type.

Definition ret {B A : Type} (a : A) : io B A := ([], Ok a).
Definition throw {B A : Type} (m : string) : io B A := ([], Throw m).
Definition lift {B A : Type} (r : result A) : io B A := ([], r).

Definition iobind {B A C : Type} (m : io B A) (k : A -> io B C) : io B C :=
  match m with
  | (t, Ok a) => let (t', r) := k a in ((t ++ t')%list, r)
  | (t, Throw msg) => (t, Throw msg)
  end.

Notation "x <- m ;; k" := (iobind m (fun x => k))
  (at level 61, m at next level, right associativity).

(** [await fetch(req)] *)
Definition doFetch {B : Type} (fetch : Http.Fetch B) (req : Http.Request B)
  : io B Http.Response :=
  ([CallFetch req], fetch req).

(** [router.push(path)] *)
Definition push {B : Type} (path : string) : io B unit :=
  ([RouterPush path], Ok tt).

(** [process.env], restricted to the variables the program reads. *)
Record Env : Type := mkEnv {
  NEXT_PUBLIC_SOLPAY_API_BASE : option string;
  NEXT_PUBLIC_SOLPAY_API_BASE_MAINNET : option string;
  NEXT_PUBLIC_MERCHANT_WALLET : option string;
  NEXT_PUBLIC_NETWORK : option string;
  NEXT_PUBLIC_FACILITATOR_ID : option string;
  NODE_ENV : option string
}.

(** [process.env.X] as a JavaScript value. *)
Definition envVal (o : option string) : jsval :=
  match o with
  | Some s => JStr s
  | None => JUndefined
  end.

(* ================================================================== *)
(** ** src/lib/solpay-client.ts *)

Module Client.

Record SolPayConfig : Type := mkConfig {
  apiBase : string;
  merchantWallet : string;
  network : jsval;
  facilitatorId : string;
  debug : bool
}.

Record PaymentParams : Type := mkParams {
  p_amount : jsval;
  p_asset : jsval;
  p_customerEmail : jsval;
  p_metadata : jsval
}.

Record Amount : Type := mkAmount {
  requested : jsval;
  total : jsval;
  fees : jsval;
  net : jsval
}.

Record Receipt : Type := mkReceipt {
  r_url : jsval;
  r_hash : jsval;
  r_memo : jsval;
  r_signature : jsval
}.

Record PaymentResult : Type := mkResult {
  intentId : jsval;
  paymentUrl : jsval;
  status : jsval;
  amount : Amount;
  receipt : option Receipt;
  settlement : jsval;
  res_fees : jsval;
  x402 : jsval
}.

(** The request [createPaymentIntent] sends. *)
Definition createRequest (config : SolPayConfig) (params : PaymentParams)
  : Http.Request jsval :=
  let url := apiBase config ++ "/api/v1/payment_intents" in
  let body :=
    JObj [ ("amount", p_amount params);
           ("currency", p_asset params);
           ("merchant_wallet", JStr (merchantWallet config));
           ("customer_email", p_customerEmail params);
           ("metadata",
            JObj (setField "sdk" (JStr "invoice-generator")
                    (spread (p_metadata params))));
           ("x402_context",
            JObj [ ("facilitator_id", JStr (facilitatorId config));
                   ("network", network config);
                   ("resource",
                    JStr (apiBase config ++ "/api/v1/payment_intents")) ]) ] in
  Http.mkRequest url "POST"
    [ ("Content-Type", "application/json");
      ("x-merchant-wallet", merchantWallet config) ]
    (Some body) None.

(** The message of the error thrown for a response that is not ok. *)
Definition httpError (response : Http.Response) : result string :=
  let errorData :=
    Http.json_catch response (JObj [("error", JStr "Unknown error")]) in
  let* e := get errorData "error" in
  Ok (toString
        (or e (JStr ("HTTP " ++ show_Z (Http.status response) ++ ": "
                       ++ Http.statusText response)))).

(** The normalisation of a parsed intent: the [return {...}] of
    [createPaymentIntent]. *)
Definition normalize (config : SolPayConfig) (params : PaymentParams)
    (intent : jsval) : result PaymentResult :=
  let* id := get intent "id" in
  let* payment_url := get intent "payment_url" in
  let* st := get intent "status" in
  let* amt := get intent "amount" in
  let* amount_fees := get intent "amount_fees" in
  let* amount_merchant := get intent "amount_merchant" in
  let* rcpt := get intent "receipt" in
  let* rcpt' :=
    if truthy rcpt then
      let* u := get rcpt "url" in
      let* h := get rcpt "sha256_hash" in
      let* m := get rcpt "memo" in
      let* s := get rcpt "transaction_signature" in
      Ok (Some (mkReceipt u h m s))
    else Ok None in
  let* settl := get intent "settlement" in
  let* fs := get intent "fees" in
  let* x := get intent "x402_context" in
  Ok {| intentId := id;
        paymentUrl :=
          or payment_url (JStr (apiBase config ++ "/pay/" ++ toString id));
        status := st;
        amount := {| requested := p_amount params;
                     total := or amt (p_amount params);
                     fees := or amount_fees (JNum 0);
                     net := or amount_merchant (p_amount params) |};
        receipt := rcpt';
        settlement := settl;
        res_fees := fs;
        x402 := x |}.

Definition createPaymentIntent (config : SolPayConfig)
    (fetch : Http.Fetch jsval) (params : PaymentParams)
  : io jsval PaymentResult :=
  response <- doFetch fetch (createRequest config params) ;;
  if negb (Http.ok response) then
    msg <- lift (httpError response) ;; throw msg
  else
    intent <- lift (Http.json response) ;;
    lift (normalize config params intent).

Definition getRequest (config : SolPayConfig) (intentId : string)
  : Http.Request jsval :=
  Http.mkRequest (apiBase config ++ "/api/v1/payment_intents/" ++ intentId)
    "GET" [ ("Content-Type", "application/json") ] None (Some "no-store").

Definition getPaymentIntent (config : SolPayConfig)
    (fetch : Http.Fetch jsval) (intentId : string) : io jsval jsval :=
  response <- doFetch fetch (getRequest config intentId) ;;
  if negb (Http.ok response) then
    msg <- lift (httpError response) ;; throw msg
  else lift (Http.json response).

(** [getDefaultClient(network)]; the client object is its configuration. *)
Definition getDefaultClient (env : Env) (network : jsval)
  : result SolPayConfig :=
  let selectedNetwork :=
    or (or network (envVal (NEXT_PUBLIC_NETWORK env))) (JStr "solana:devnet") in
  let apiBase :=
    if strictEqStr selectedNetwork "solana:mainnet"
    then strOr (NEXT_PUBLIC_SOLPAY_API_BASE_MAINNET env) "https://www.solpay.cash"
    else strOr (NEXT_PUBLIC_SOLPAY_API_BASE env) "https://dev.solpay.cash" in
  let merchantWallet := strOr (NEXT_PUBLIC_MERCHANT_WALLET env) EmptyString in
  if merchantWallet =? EmptyString then
    Throw "NEXT_PUBLIC_MERCHANT_WALLET environment variable is not set. Please add your Solana wallet address to .env.local"
  else
    Ok {| apiBase := apiBase;
          merchantWallet := merchantWallet;
          network := selectedNetwork;
          facilitatorId :=
            strOr (NEXT_PUBLIC_FACILITATOR_ID env) "facilitator.payai.network";
          debug := match NODE_ENV env with
                   | Some s => s =? "development"
                   | None => false
                   end |}.

End Client.

(* ================================================================== *)
(** ** src/app/api/create-invoice/route.ts *)

Module Route.

Inductive Body : Type :=
| ErrorBody (error : string)
| ResultBody (result : Client.PaymentResult).

(** [NextResponse.json(body, { status })] *)
Record Response : Type := mkResponse {
  status : Z;
  body : Body
}.

(** [list.includes(v)] for a list of string literals. *)
Definition arrayIncludes (l : list string) (v : jsval) : bool :=
  existsb (strictEqStr v) l.

Definition networks : list string := ["solana:devnet"; "solana:mainnet"].

(** The body of the [try] block; [request_json] is the outcome of
    [await request.json()]. *)
Definition tryBlock (env : Env) (fetch : Http.Fetch jsval)
    (request_json : result jsval) : io jsval Response :=
  body <- lift request_json ;;
  amount <- lift (destructure body "amount") ;;
  asset <- lift (destructure body "asset") ;;
  network <- lift (destructure body "network") ;;
  customerEmail <- lift (destructure body "customerEmail") ;;
  metadata <- lift (destructure body "metadata") ;;
  if negb (truthy amount) || negb (truthy asset) then
    ret (mkResponse 400 (ErrorBody "Amount and asset are required"))
  else if truthy network && negb (arrayIncludes networks network) then
    ret (mkResponse 400
           (ErrorBody "Invalid network. Must be solana:devnet or solana:mainnet"))
  else
    client <- lift (Client.getDefaultClient env network) ;;
    result <- Client.createPaymentIntent client fetch
                (Client.mkParams amount asset customerEmail metadata) ;;
    ret (mkResponse 200 (ResultBody result)).

(** The [catch] block: [error.message || 'Failed to create invoice']. *)
Definition catchBlock (message : string) : Response :=
  mkResponse 500
    (ErrorBody (if message =? EmptyString then "Failed to create invoice"
                else message)).

(** [POST]: the response, together with the network calls made. *)
Definition POST (env : Env) (fetch : Http.Fetch jsval)
    (request_json : result jsval) : list (Event jsval) * Response :=
  match tryBlock env fetch request_json with
  | (t, Ok response) => (t, response)
  | (t, Throw message) => (t, catchBlock message)
  end.

End Route.

(* ================================================================== *)
(** ** src/app/page.tsx *)

(** The arithmetic of JavaScript numbers as far as the invoice form uses it.
    The form computes with IEEE 754 doubles; the development is parametric
    in the number type and relies on a single law of its order, which
    doubles satisfy (also at NaN, where both comparisons are false). *)
Class JsNumber (num : Type) : Type := {
  (** an integer literal of the program text *)
  ofZ : Z -> num;
  (** [a + b] *)
  add : num -> num -> num;
  (** [a * b] *)
  mul : num -> num -> num;
  (** [a <= b] *)
  leb : num -> num -> bool;
  (** [a < b] *)
  ltb : num -> num -> bool;
  (** [Math.round] *)
  round : num -> num;
  ltb_not_leb : forall a b, ltb a b = true -> leb b a = false
}.

Module Form.

Inductive Network : Type := Devnet | Mainnet.

Definition networkName (n : Network) : string :=
  match n with
  | Devnet => "solana:devnet"
  | Mainnet => "solana:mainnet"
  end.

Section WithNumbers.

Context {num : Type} `{JsNumber num}.

Record LineItem : Type := mkLineItem {
  id : string;
  description : string;
  quantity : num;
  price : num
}.

Record State : Type := mkState {
  lineItems : list LineItem;
  customerEmail : string;
  notes : string;
  network : Network;
  loading : bool;
  error : string
}.

Definition setError (e : string) (st : State) : State :=
  mkState (lineItems st) (customerEmail st) (notes st) (network st)
    (loading st) e.

Definition setLoading (b : bool) (st : State) : State :=
  mkState (lineItems st) (customerEmail st) (notes st) (network st)
    b (error st).

Definition setLineItems (l : list LineItem) (st : State) : State :=
  mkState l (customerEmail st) (notes st) (network st) (loading st) (error st).

(** [addLineItem]; [now] is [Date.now()]. *)
Definition addLineItem (now : Z) (st : State) : State :=
  setLineItems
    (lineItems st ++ [mkLineItem (show_Z now) EmptyString (ofZ 1) (ofZ 0)])%list
    st.

Definition removeLineItem (i : string) (st : State) : State :=
  setLineItems (filter (fun item => negb (id item =? i)) (lineItems st)) st.

(** The [field] and [value] of a call of [updateLineItem]: a key of
    [LineItem] with a value of the type of that key, as the form's inputs
    pass them. *)
Inductive FieldValue : Type :=
| IdValue (value : string)
| DescriptionValue (value : string)
| QuantityValue (value : num)
| PriceValue (value : num).

(** [{ ...item, [field]: value }] *)
Definition withField (item : LineItem) (fv : FieldValue) : LineItem :=
  match fv with
  | IdValue v => mkLineItem v (description item) (quantity item) (price item)
  | DescriptionValue v => mkLineItem (id item) v (quantity item) (price item)
  | QuantityValue v => mkLineItem (id item) (description item) v (price item)
  | PriceValue v => mkLineItem (id item) (description item) (quantity item) v
  end.

Definition updateLineItem (i : string) (fv : FieldValue) (st : State) : State :=
  setLineItems
    (map (fun item => if id item =? i then withField item fv else item)
       (lineItems st))
    st.

(** [!item.description] *)
Definition noDescription (item : LineItem) : bool :=
  description item =? EmptyString.

(** [lineItems.reduce((sum, item) => sum + (item.quantity * item.price), 0)] *)
Definition calculateSubtotal (items : list LineItem) : num :=
  fold_left (fun sum item => add sum (mul (quantity item) (price item)))
    items (ofZ 0).

Record Metadata : Type := mkMetadata {
  invoice_number : string;
  line_items : list LineItem;
  m_notes : option string;
  created_at : string
}.

(** The object handed to [JSON.stringify] on submission. *)
Record InvoiceBody : Type := mkBody {
  amount : num;
  asset : string;
  b_network : string;
  b_customerEmail : option string;
  metadata : Metadata
}.

(** [s || undefined] *)
Definition orUndefined (s : string) : option string :=
  if s =? EmptyString then None else Some s.

Definition submitRequest (now : Z) (iso : string) (st : State)
    (amountInMicroUnits : num) : Http.Request InvoiceBody :=
  Http.mkRequest "/api/create-invoice" "POST"
    [ ("Content-Type", "application/json") ]
    (Some {| amount := amountInMicroUnits;
             asset := "USDC";
             b_network := networkName (network st);
             b_customerEmail := orUndefined (customerEmail st);
             metadata :=
               {| invoice_number := "INV-" ++ show_Z now;
                  line_items :=
                    filter (fun item => negb (noDescription item))
                      (lineItems st);
                  m_notes := orUndefined (notes st);
                  created_at := iso |} |})
    None.

(** The [try] block of [handleSubmit].  [now] is [Date.now()] and [iso] is
    [new Date().toISOString()]. *)
Definition tryBlock (now : Z) (iso : string) (fetch : Http.Fetch InvoiceBody)
    (st : State) : io InvoiceBody unit :=
  if (length (lineItems st) =? 0)%nat || forallb noDescription (lineItems st)
  then throw "Please add at least one line item"
  else
    let subtotal := calculateSubtotal (lineItems st) in
    if leb subtotal (ofZ 0) then throw "Invoice total must be greater than 0"
    else
      let amountInMicroUnits := round (mul subtotal (ofZ 1000000)) in
      response <- doFetch fetch (submitRequest now iso st amountInMicroUnits) ;;
      if negb (Http.ok response) then
        errorData <- lift (Http.json response) ;;
        e <- lift (get errorData "error") ;;
        throw (toString (or e (JStr "Failed to create invoice")))
      else
        data <- lift (Http.json response) ;;
        intentId <- lift (get data "intentId") ;;
        push ("/invoice/" ++ toString intentId).

(** [handleSubmit]: the events caused and the state left behind. *)
Definition handleSubmit (now : Z) (iso : string)
    (fetch : Http.Fetch InvoiceBody) (st : State)
  : list (Event InvoiceBody) * State :=
  let st1 := setLoading true (setError EmptyString st) in
  match tryBlock now iso fetch st1 with
  | (t, Ok _) => (t, st1)
  | (t, Throw message) => (t, setLoading false (setError message st1))
  end.

(** The amount a submission puts on the wire, if it gets that far. *)
Definition sentAmount (t : list (Event InvoiceBody)) : option num :=
  match t with
  | CallFetch req :: _ =>
      match Http.body req with
      | Some b => Some (amount b)
      | None => None
      end
  | _ => None
  end.

End WithNumbers.

Arguments LineItem num : clear implicits.
Arguments State num : clear implicits.
Arguments InvoiceBody num : clear implicits.
Arguments Metadata num : clear implicits.
Arguments FieldValue num : clear implicits.

End Form.

(** The API base both client pages read from the environment:
    [process.env.NEXT_PUBLIC_SOLPAY_API_BASE || 'https://dev.solpay.cash']. *)
Definition pageApiBase (env : Env) : string :=
  strOr (NEXT_PUBLIC_SOLPAY_API_BASE env) "https://dev.solpay.cash".

(** [fetch(`${apiBase}/api/v1/payment_intents/${intentId}`,
           { cache: 'no-store' })], as both client pages issue it. *)
Definition intentRequest (env : Env) (intentId : string)
  : Http.Request jsval :=
  Http.mkRequest (pageApiBase env ++ "/api/v1/payment_intents/" ++ intentId)
    "GET" [] None (Some "no-store").

(* ================================================================== *)
(** ** src/app/status/page.tsx *)

Module StatusPage.

Record State : Type := mkState {
  intentId : string;
  loading : bool;
  error : string
}.

Definition setError (e : string) (st : State) : State :=
  mkState (intentId st) (loading st) e.

Definition setLoading (b : bool) (st : State) : State :=
  mkState (intentId st) b (error st).

Definition dquote : string := String (ascii_of_nat 34) EmptyString.

Definition invalidId : string :=
  "Invalid payment intent ID. It should start with " ++ dquote ++ "pi_" ++ dquote.

Definition notFound : string :=
  "Invoice not found. Please check the payment intent ID.".

Definition tryBlock (env : Env) (fetch : Http.Fetch jsval) (st : State)
  : io jsval unit :=
  if negb (startsWith (intentId st) "pi_") then throw invalidId
  else
    response <- doFetch fetch (intentRequest env (intentId st)) ;;
    if negb (Http.ok response) then throw notFound
    else push ("/invoice/" ++ intentId st).

Definition handleSubmit (env : Env) (fetch : Http.Fetch jsval) (st : State)
  : list (Event jsval) * State :=
  let st1 := setLoading true (setError EmptyString st) in
  match tryBlock env fetch st1 with
  | (t, Ok _) => (t, st1)
  | (t, Throw message) => (t, setLoading false (setError message st1))
  end.

End StatusPage.

(* ================================================================== *)
(** ** The invoice display page ([InvoicePage]) *)

Module InvoicePage.

(** The component's React state, and the runtime around it: whether the
    component is mounted, the intervals live in the browser (handle and
    period in milliseconds), the cleanup function the polling effect
    returned last (it clears the handle it holds), and the number of
    [fetchInvoice] calls awaiting their [fetch]. *)
Record State : Type := mkState {
  invoice : option jsval;
  qrCodeUrl : string;
  loading : bool;
  error : string;
  mounted : bool;
  timers : list (nat * Z);
  nextHandle : nat;
  cleanup : option nat;
  inflight : nat
}.

Definition setInvoice (v : option jsval) (st : State) : State :=
  mkState v (qrCodeUrl st) (loading st) (error st) (mounted st) (timers st)
    (nextHandle st) (cleanup st) (inflight st).

Definition setQrCodeUrl (u : string) (st : State) : State :=
  mkState (invoice st) u (loading st) (error st) (mounted st) (timers st)
    (nextHandle st) (cleanup st) (inflight st).

Definition setLoading (b : bool) (st : State) : State :=
  mkState (invoice st) (qrCodeUrl st) b (error st) (mounted st) (timers st)
    (nextHandle st) (cleanup st) (inflight st).

Definition setError (e : string) (st : State) : State :=
  mkState (invoice st) (qrCodeUrl st) (loading st) e (mounted st) (timers st)
    (nextHandle st) (cleanup st) (inflight st).

Definition setMounted (b : bool) (st : State) : State :=
  mkState (invoice st) (qrCodeUrl st) (loading st) (error st) b (timers st)
    (nextHandle st) (cleanup st) (inflight st).

Definition setInflight (n : nat) (st : State) : State :=
  mkState (invoice st) (qrCodeUrl st) (loading st) (error st) (mounted st)
    (timers st) (nextHandle st) (cleanup st) n.

(** [setInterval(..., 5000)]: a fresh handle becomes live; the effect
    returns the cleanup that clears it. *)
Definition setInterval (st : State) : State :=
  mkState (invoice st) (qrCodeUrl st) (loading st) (error st) (mounted st)
    ((nextHandle st, 5000%Z) :: timers st) (S (nextHandle st))
    (Some (nextHandle st))
    (inflight st).

(** [clearInterval(h)] *)
Definition clearInterval (h : nat) (st : State) : State :=
  mkState (invoice st) (qrCodeUrl st) (loading st) (error st) (mounted st)
    (filter (fun timer => negb (fst timer =? h)%nat) (timers st))
    (nextHandle st)
    (cleanup st) (inflight st).

Definition setCleanup (c : option nat) (st : State) : State :=
  mkState (invoice st) (qrCodeUrl st) (loading st) (error st) (mounted st)
    (timers st) (nextHandle st) c (inflight st).

(** [invoice?.status] *)
Definition statusOf (inv : option jsval) : jsval :=
  match inv with
  | Some v => getOpt v "status"
  | None => JUndefined
  end.

(** The body of the polling effect. *)
Definition pollingEffect (st : State) : State :=
  if strictEqStr (statusOf (invoice st)) "pending"
  then setInterval st
  else setCleanup None st.

(** Running the cleanup the polling effect returned last, if it returned
    one. *)
Definition runCleanup (st : State) : State :=
  match cleanup st with
  | Some h => setCleanup None (clearInterval h st)
  | None => st
  end.

(** What React does with the polling effect after a render: when its
    dependency [invoice?.status] differs from the one of the previous
    render, the old cleanup runs and the effect runs again. *)
Definition commit (previousStatus : jsval) (st : State) : State :=
  if sameValue previousStatus (statusOf (invoice st)) then st
  else pollingEffect (runCleanup st).

(** *** The shape [InvoiceData] declares

    The JSX of the invoice view is typed against the interface
    [InvoiceData]: it calls [.slice] on the receipt's signature, [.includes]
    on the network, [.map] on the line items, and puts fields as children
    into elements.  On a value of the declared shape none of this throws;
    on other values the render can throw, and a component whose render
    throws is torn down. *)

Definition isString (v : jsval) : bool :=
  match v with
  | JStr _ => true
  | _ => false
  end.

Definition isNumber (v : jsval) : bool :=
  match v with
  | JNum _ => true
  | _ => false
  end.

(** A property declared [key?: T]. *)
Definition optional (p : jsval -> bool) (v : jsval) : bool :=
  match v with
  | JUndefined => true
  | _ => p v
  end.

(** [{ description: string; quantity: number; price: number }] *)
Definition isLineItem (v : jsval) : bool :=
  match v with
  | JObj f =>
      isString (lookup "description" f) && isNumber (lookup "quantity" f)
      && isNumber (lookup "price" f)
  | _ => false
  end.

Definition isLineItems (v : jsval) : bool :=
  match v with
  | JArr l => forallb isLineItem l
  | _ => false
  end.

(** The type of [metadata]. *)
Definition isMetadata (v : jsval) : bool :=
  match v with
  | JObj f =>
      optional isString (lookup "invoice_number" f)
      && optional isLineItems (lookup "line_items" f)
      && optional isString (lookup "notes" f)
      && optional isString (lookup "created_at" f)
  | _ => false
  end.

(** The type of [receipt]. *)
Definition isReceipt (v : jsval) : bool :=
  match v with
  | JObj f =>
      isString (lookup "url" f) && isString (lookup "sha256_hash" f)
      && isString (lookup "memo" f)
      && isString (lookup "transaction_signature" f)
  | _ => false
  end.

(** The type of [x402_context]. *)
Definition isContext (v : jsval) : bool :=
  match v with
  | JObj f => isString (lookup "network" f)
  | _ => false
  end.

(** [interface InvoiceData] *)
Definition isInvoiceData (v : jsval) : bool :=
  match v with
  | JObj f =>
      isString (lookup "id" f) && isString (lookup "status" f)
      && isNumber (lookup "amount" f) && isNumber (lookup "amount_fees" f)
      && isNumber (lookup "amount_merchant" f)
      && isString (lookup "currency" f)
      && optional isString (lookup "customer_email" f)
      && isString (lookup "payment_url" f)
      && optional isMetadata (lookup "metadata" f)
      && optional isReceipt (lookup "receipt" f)
      && optional isContext (lookup "x402_context" f)
  | _ => false
  end.

Section Page.

Variable env : Env.
(** [params.id] *)
Variable intentId : string.

Definition fallbackUrl : string := pageApiBase env ++ "/pay/" ++ intentId.

(** [if (!data.payment_url) data.payment_url = `${apiBase}/pay/${intentId}`] *)
Definition addFallback (data : jsval) : result jsval :=
  let* payment_url := get data "payment_url" in
  if negb (truthy payment_url)
  then assign data "payment_url" (JStr fallbackUrl)
  else Ok data.

(** [fetchInvoice] from the point where [fetch] has settled up to
    [setInvoice]: the data to store, or the error caught. *)
Definition fetched (r : result Http.Response) : result jsval :=
  let* response := r in
  if negb (Http.ok response) then
    let errorData := Http.json_catch response (JObj []) in
    let* e := get errorData "error" in
    Throw (toString
             (or e (JStr ("Failed to load invoice ("
                            ++ show_Z (Http.status response) ++ ")"))))
  else
    let* data := Http.json response in
    addFallback data.

(** The state updates of [fetchInvoice] once [fetch] has settled; [qr] is
    the outcome of [QRCode.toDataURL]. *)
Definition afterFetch (r : result Http.Response) (qr : result string)
    (st : State) : State :=
  match fetched r with
  | Ok data =>
      let st1 := setLoading false (setInvoice (Some data) st) in
      if truthy (getOpt data "payment_url") then
        match qr with
        | Ok qrCode => setQrCodeUrl qrCode st1
        | Throw _ => st1
        end
      else st1
  | Throw message => setLoading false (setError message st)
  end.

(** The first render and its effects: [fetchInvoice()] when [intentId] is
    not empty, and the polling effect. *)
Definition mount : list (Event jsval) * State :=
  let st0 := mkState None EmptyString true EmptyString true [] 0 None 0 in
  let (t, st1) :=
    if negb (intentId =? EmptyString)
    then ([CallFetch (intentRequest env intentId)], setInflight 1 st0)
    else ([], st0) in
  (t, pollingEffect st1).

(** What can happen to a page. *)
Inductive Input : Type :=
| Tick (h : nat)
    (** the interval with handle [h] fires *)
| Settle (r : result Http.Response) (qr : result string)
    (** the [fetch] of a [fetchInvoice] in flight settles with [r] *)
| Unmount.

(** One input handled to completion, effects included; [None] when the
    input cannot occur (a tick of an interval that is not live, a response
    with no fetch in flight, a second teardown).  A tick calls
    [fetchInvoice] whatever the state of the component; the state updates
    of a component that is no longer mounted are dropped by React.  The
    step follows [fetchInvoice] and the effects; the render between them is
    taken to succeed, as it does for the values [isInvoiceData] accepts (a
    render that throws tears the component down, which is [Unmount]). *)
Definition step (st : State) (i : Input)
  : option (list (Event jsval) * State) :=
  match i with
  | Tick h =>
      if existsb (fun timer => (fst timer =? h)%nat) (timers st)
      then Some ([CallFetch (intentRequest env intentId)],
                 setInflight (S (inflight st)) st)
      else None
  | Settle r qr =>
      match inflight st with
      | O => None
      | S n =>
          let st0 := setInflight n st in
          if mounted st then
            match fetched r with
            | Ok _ =>
                Some ([], commit (statusOf (invoice st)) (afterFetch r qr st0))
            | Throw _ =>
                (* the invoice, and with it the dependency of the polling
                   effect, is the very same value as before *)
                Some ([], afterFetch r qr st0)
            end
          else Some ([], st0)
      end
  | Unmount =>
      if mounted st
      then Some ([], setMounted false (runCleanup st))
      else None
  end.

(** A page driven by a sequence of inputs from its first render on. *)
Fixpoint runFrom (st : State) (inputs : list Input)
  : option (list (Event jsval) * State) :=
  match inputs with
  | [] => Some ([], st)
  | i :: rest =>
      match step st i with
      | Some (t, st') =>
          match runFrom st' rest with
          | Some (t', st'') => Some ((t ++ t')%list, st'')
          | None => None
          end
      | None => None
      end
  end.

Definition run (inputs : list Input) : option (list (Event jsval) * State) :=
  let (t, st) := mount in
  match runFrom st inputs with
  | Some (t', st') => Some ((t ++ t')%list, st')
  | None => None
  end.

(** The input is a response that stores an intent whose status is the
    string "pending". *)
Definition reportsPending (i : Input) : bool :=
  match i with
  | Settle r _ =>
      match fetched r with
      | Ok data => strictEqStr (getOpt data "status") "pending"
      | Throw _ => false
      end
  | _ => false
  end.

(** The input stores nothing, or a value of the shape [InvoiceData]
    declares. *)
Definition storesInvoiceData (i : Input) : bool :=
  match i with
  | Settle r _ =>
      match fetched r with
      | Ok data => isInvoiceData data
      | Throw _ => true
      end
  | _ => true
  end.

End Page.

(** The runtime agrees with the component: the live intervals are the one
    the last cleanup holds, if it holds one, and it holds one exactly when
    the component is mounted and the status on display is "pending". *)
Definition consistent (st : State) : Prop :=
  timers st = match cleanup st with
              | Some h => [(h, 5000%Z)]
              | None => []
              end
  /\ (cleanup st <> None <->
      mounted st = true /\ statusOf (invoice st) = JStr "pending").

(** [isPaid] *)
Definition isPaid (inv : jsval) : bool :=
  strictEqStr (getOpt inv "status") "succeeded"
  || strictEqStr (getOpt inv "status") "completed".

(** The network of the intent on display: [invoice?.x402_context?.network]. *)
Definition networkOf (inv : option jsval) : jsval :=
  match inv with
  | Some v => getOpt (getOpt v "x402_context") "network"
  | None => JUndefined
  end.

(** The cluster [getExplorerUrl] selects. *)
Definition explorerCluster (inv : option jsval) : result string :=
  let* devnet :=
    includesOpt "invoice?.x402_context?.network?.includes" (networkOf inv)
      "devnet" in
  Ok (if devnet then "devnet" else "mainnet-beta").

Definition getExplorerUrl (inv : option jsval) (signature : string)
  : result string :=
  let* network := explorerCluster inv in
  Ok ("https://explorer.solana.com/tx/" ++ signature ++ "?cluster=" ++ network).

(** The network badge next to the status badge. *)
Definition networkBadge (inv : option jsval) : result string :=
  let* mainnet :=
    includesOpt "invoice.x402_context?.network?.includes" (networkOf inv)
      "mainnet" in
  Ok (if mainnet then "Mainnet" else "Devnet").

(** Which screen the component selects, with the derived values: the
    loading screen, the error screen, or the invoice with its paid flag and,
    while it is not paid, the payment link [invoice.payment_url].  The
    invoice screen is shown when its JSX evaluates, as it does for the
    values [isInvoiceData] accepts. *)
Inductive View : Type :=
| LoadingView
| ErrorView (message : string)
| InvoiceView (paid : bool) (paymentLink : option jsval).

Definition render (st : State) : View :=
  if loading st then LoadingView
  else
    match invoice st with
    | None => ErrorView (error st)
    | Some inv =>
        if negb (error st =? EmptyString) then ErrorView (error st)
        else InvoiceView (isPaid inv)
               (if isPaid inv then None else Some (getOpt inv "payment_url"))
    end.

End InvoicePage.

(* ================================================================== *)
(** ** Exact arithmetic as an instance of the form's numbers *)

(** The rationals, with [Math.round q] as the integer [floor (q + 1/2)]:
    the arithmetic the form's doubles approximate. *)
Module Exact.

Import QArith_base.

Definition Qltb (a b : Q) : bool := negb (Qle_bool b a).

Definition Qround (q : Q) : Q := inject_Z (Qround.Qfloor (Qplus q (Qmake 1 2))).

#[export] Instance Q_JsNumber : JsNumber Q := {|
  ofZ := inject_Z;
  add := Qplus;
  mul := Qmult;
  leb := Qle_bool;
  ltb := Qltb;
  round := Qround;
  ltb_not_leb := fun a b (h : Qltb a b = true) => proj1 (negb_true_iff _) h
|}.

End Exact.

(* ================================================================== *)
(** ** Sample data *)

Module Sample.

Definition env : Env :=
  mkEnv None None (Some "7xKXtg2CW87d97TXJSDpbD5jBkheTqA83TZRuJosgAsU")
    None None None.

(** An upstream that answers every request with [response]. *)
Definition always (B : Type) (response : Http.Response) : Http.Fetch B :=
  fun _ => Ok response.

Definition okResponse (v : jsval) : Http.Response :=
  Http.mkResponse 200 "OK" (Ok v).

Definition intent (id status : string) : jsval :=
  JObj [ ("id", JStr id); ("status", JStr status);
         ("amount", JNum 1000000); ("amount_fees", JNum 10000);
         ("amount_merchant", JNum 990000); ("currency", JStr "USDC");
         ("payment_url", JStr ("https://dev.solpay.cash/pay/" ++ id));
         ("x402_context", JObj [("network", JStr "solana:devnet")]) ].

(** An intent as the upstream may send it without the optional parts. *)
Definition bareIntent (id status : string) : jsval :=
  JObj [ ("id", JStr id); ("status", JStr status);
         ("amount", JNum 1000000); ("amount_merchant", JNum 990000);
         ("currency", JStr "USDC") ].

(** A paid intent with its receipt, and no [x402_context]. *)
Definition paidIntent : jsval :=
  JObj [ ("id", JStr "pi_1"); ("status", JStr "succeeded");
         ("amount", JNum 1000000); ("amount_fees", JNum 10000);
         ("amount_merchant", JNum 990000); ("currency", JStr "USDC");
         ("payment_url", JStr "https://dev.solpay.cash/pay/pi_1");
         ("receipt",
          JObj [ ("url", JStr "https://dev.solpay.cash/r/1");
                 ("sha256_hash", JStr "ab12");
                 ("memo", JStr "invoice");
                 ("transaction_signature", JStr "5sig") ]) ].

Definition config : Client.SolPayConfig :=
  Client.mkConfig "https://dev.solpay.cash"
    "7xKXtg2CW87d97TXJSDpbD5jBkheTqA83TZRuJosgAsU" (JStr "solana:devnet")
    "facilitator.payai.network" false.

(** An intent created on mainnet, as the upstream sends it without a
    [payment_url]. *)
Definition mainnetIntent : jsval :=
  JObj [ ("id", JStr "pi_9"); ("status", JStr "pending");
         ("amount", JNum 1000000); ("amount_fees", JNum 10000);
         ("amount_merchant", JNum 990000); ("currency", JStr "USDC");
         ("x402_context", JObj [("network", JStr "solana:mainnet")]) ].

Definition params : Client.PaymentParams :=
  Client.mkParams (JNum 1000000) (JStr "USDC") JUndefined JUndefined.

Definition qr : result string := Ok "data:image/png;base64,AAAA".

(** Parameters whose metadata brings an [sdk] key of its own. *)
Definition taggedParams : Client.PaymentParams :=
  Client.mkParams (JNum 1000000) (JStr "USDC") (JStr "ada@example.com")
    (JObj [ ("invoice_number", JStr "INV-1"); ("sdk", JStr "other") ]).

(** A request body as the form sends it, less the metadata. *)
Definition validBody : jsval :=
  JObj [("amount", JNum 1000000); ("asset", JStr "USDC");
        ("network", JStr "solana:devnet")].

(** An upstream refusal with a message. *)
Definition refusal : Http.Response :=
  Http.mkResponse 422 "Unprocessable Entity"
    (Ok (JObj [("error", JStr "Amount too small")])).

(** The upstream's answer for an intent it does not have. *)
Definition missing : Http.Response :=
  Http.mkResponse 404 "Not Found"
    (Ok (JObj [("error", JStr "Payment intent not found")])).

(** An answer that is not JSON. *)
Definition gatewayError : Http.Response :=
  Http.mkResponse 502 "Bad Gateway" (Throw "Unexpected token < in JSON").

(** An upstream failure that says nothing. *)
Definition outage : Http.Response :=
  Http.mkResponse 503 "Service Unavailable" (Ok (JObj [])).

Definition widget : Form.LineItem QArith_base.Q :=
  Form.mkLineItem "1" "Widget" (QArith_base.inject_Z 2)
    (QArith_base.Qmake 1999 100).

(** An item of 5 that has no description. *)
Definition unnamed : Form.LineItem QArith_base.Q :=
  Form.mkLineItem "2" EmptyString (QArith_base.inject_Z 1)
    (QArith_base.inject_Z 5).

(** A described item that costs nothing. *)
Definition gift : Form.LineItem QArith_base.Q :=
  Form.mkLineItem "1" "Gift" (QArith_base.inject_Z 1) (QArith_base.inject_Z 0).

Definition blank : Form.LineItem QArith_base.Q :=
  Form.mkLineItem "1" EmptyString (QArith_base.inject_Z 1)
    (QArith_base.inject_Z 0).

Definition form (items : list (Form.LineItem QArith_base.Q))
  : Form.State QArith_base.Q :=
  Form.mkState items EmptyString EmptyString Form.Devnet false EmptyString.

End Sample.

(* ================================================================== *)
(** * Properties *)

(** ** Strings *)

Lemma prefix_app (p s : string) :
  String.prefix p s = true <-> exists post, s = p ++ post.
Proof.
  revert s; induction p as [|a p IH]; intros s.
  - split; [intros _; exists s; reflexivity | intros _; now destruct s].
  - destruct s as [|b s]; simpl.
    + split; [discriminate | intros [post E]; discriminate].
    + destruct (ascii_dec a b) as [->|ne].
      * rewrite IH. split; intros [post E]; exists post.
        -- now rewrite E.
        -- now injection E.
      * split; [discriminate | intros [post E]; injection E; congruence].
Qed.

(** [includes] decides the occurrence of a substring. *)
Lemma includes_app (s sub : string) :
  includes s sub = true <-> exists pre post, s = pre ++ sub ++ post.
Proof.
  induction s as [|c s IH]; cbn [includes]; rewrite orb_true_iff.
  - split.
    + intros [P|F]; [|discriminate].
      apply prefix_app in P as [post E]. now exists EmptyString, post.
    + intros [pre [post E]]. left. apply prefix_app. exists post.
      destruct pre; [exact E | discriminate].
  - rewrite IH. split.
    + intros [P|[pre [post E]]].
      * apply prefix_app in P as [post E]. now exists EmptyString, post.
      * exists (String c pre), post. simpl. now rewrite E.
    + intros [pre [post E]]. destruct pre as [|c' pre]; simpl in E.
      * left. apply prefix_app. now exists post.
      * right. injection E as _ E. now exists pre, post.
Qed.

(** ** JavaScript values *)

Lemma lookup_setField_same k v fields :
  lookup k (setField k v fields) = v.
Proof.
  induction fields as [|[k' v'] rest IH]; simpl.
  - now rewrite String.eqb_refl.
  - destruct (k' =? k) eqn:E; simpl.
    + now rewrite String.eqb_refl.
    + now rewrite E.
Qed.

Lemma lookup_setField_other k k' v fields :
  k' <> k -> lookup k (setField k' v fields) = lookup k fields.
Proof.
  intros ne. apply String.eqb_neq in ne.
  induction fields as [|[k0 v0] rest IH]; simpl.
  - now rewrite ne.
  - destruct (k0 =? k') eqn:E; simpl.
    + apply String.eqb_eq in E; subst k0. now rewrite ne.
    + now rewrite IH.
Qed.

(** Two values React takes for the same dependency are the same value. *)
Lemma sameValue_eq a b : sameValue a b = true -> a = b.
Proof.
  destruct a, b; simpl; try discriminate; auto.
  - intros E. apply Bool.eqb_prop in E. now subst.
  - intros E. apply Z.eqb_eq in E. now subst.
  - intros E. apply String.eqb_eq in E. now subst.
Qed.

Lemma strictEqStr_true v s : strictEqStr v s = true <-> v = JStr s.
Proof.
  destruct v; simpl; try (split; [discriminate | intros E; discriminate]).
  rewrite String.eqb_eq. split; [now intros -> | now intros [= ->]].
Qed.

Lemma get_getOpt v k w : get v k = Ok w -> getOpt v k = w.
Proof. destruct v; simpl; intros E; now inversion E. Qed.

(* ================================================================== *)
(** ** The explorer link *)

Section Explorer.

Import InvoicePage.

(** For a network string, [getExplorerUrl] looks for "devnet" and nothing
    else. *)
Lemma explorerCluster_string inv n :
  networkOf inv = JStr n ->
  explorerCluster inv =
  Ok (if includes n "devnet" then "devnet" else "mainnet-beta").
Proof. unfold explorerCluster. now intros ->. Qed.

(** The network badge of the same page looks for "mainnet" instead. *)
Lemma networkBadge_string inv n :
  networkOf inv = JStr n ->
  networkBadge inv = Ok (if includes n "mainnet" then "Mainnet" else "Devnet").
Proof. unfold networkBadge. now intros ->. Qed.

(** Without a network the explorer link goes to mainnet-beta. *)
Lemma explorerCluster_absent inv signature :
  networkOf inv = JUndefined ->
  getExplorerUrl inv signature =
  Ok ("https://explorer.solana.com/tx/" ++ signature ++ "?cluster=mainnet-beta").
Proof. unfold getExplorerUrl, explorerCluster. now intros ->. Qed.

(** C3. The explorer link of a paid intent that carries no network, and of
    intents whose network string is empty or names neither cluster, selects
    the cluster mainnet-beta, while the network badge of the same page shows
    Devnet for each of them: the link does not follow the rule "mainnet-beta
    exactly when the network contains mainnet, devnet otherwise". *)
Theorem C3_explorer_cluster_without_devnet :
  networkOf (Some Sample.paidIntent) = JUndefined
  /\ getExplorerUrl (Some Sample.paidIntent) "5sig"
     = Ok "https://explorer.solana.com/tx/5sig?cluster=mainnet-beta"
  /\ networkBadge (Some Sample.paidIntent) = Ok "Devnet"
  /\ (let inv := Some (JObj [("x402_context",
                               JObj [("network", JStr EmptyString)])]) in
      includes EmptyString "mainnet" = false
      /\ explorerCluster inv = Ok "mainnet-beta"
      /\ networkBadge inv = Ok "Devnet")
  /\ (let inv := Some (JObj [("x402_context",
                               JObj [("network", JStr "solana:testnet")])]) in
      includes "solana:testnet" "mainnet" = false
      /\ explorerCluster inv = Ok "mainnet-beta"
      /\ networkBadge inv = Ok "Devnet").
Proof. repeat split. Qed.

End Explorer.

(* ================================================================== *)
(** ** The API client *)

Section ClientProperties.

Import Client.

Lemma getDefaultClient_sample :
  getDefaultClient Sample.env JUndefined = Ok Sample.config.
Proof. reflexivity. Qed.

(** A truthy value has every property the program asks for. *)
Lemma get_truthy v k : truthy v = true -> get v k = Ok (getOpt v k).
Proof. destruct v; simpl; try discriminate; reflexivity. Qed.

(** What [normalize] returns when it returns. *)
Lemma normalize_ok config params intent r :
  normalize config params intent = Ok r ->
  intentId r = getOpt intent "id"
  /\ status r = getOpt intent "status"
  /\ paymentUrl r =
     or (getOpt intent "payment_url")
        (JStr (apiBase config ++ "/pay/" ++ toString (getOpt intent "id")))
  /\ requested (amount r) = p_amount params
  /\ total (amount r) = or (getOpt intent "amount") (p_amount params)
  /\ fees (amount r) = or (getOpt intent "amount_fees") (JNum 0)
  /\ net (amount r) = or (getOpt intent "amount_merchant") (p_amount params).
Proof.
  unfold normalize.
  destruct (get intent "id") as [id|] eqn:Eid; [|discriminate].
  assert (G : forall k, get intent k = Ok (getOpt intent k))
    by (destruct intent; simpl in *; try discriminate; reflexivity).
  rewrite !G. cbn [bind].
  destruct (truthy (getOpt intent "receipt")) eqn:T.
  - rewrite !(get_truthy _ _ T). cbn [bind].
    intros [= <-]. cbn. rewrite G in Eid. injection Eid as <-. repeat split.
  - cbn [bind]. intros [= <-]. cbn. rewrite G in Eid. injection Eid as <-.
    repeat split.
Qed.

(** A call of [createPaymentIntent] that returns made exactly one request,
    got an ok response, and returns the normalisation of its body. *)
Lemma createPaymentIntent_ok config fetch params t r :
  createPaymentIntent config fetch params = (t, Ok r) ->
  exists response intent,
    fetch (createRequest config params) = Ok response
    /\ Http.ok response = true
    /\ Http.json response = Ok intent
    /\ normalize config params intent = Ok r
    /\ t = [CallFetch (createRequest config params)].
Proof.
  unfold createPaymentIntent, doFetch, iobind, lift, throw.
  destruct (fetch (createRequest config params)) as [response|m] eqn:F;
    [|discriminate].
  destruct (Http.ok response) eqn:O; cbn [negb].
  - destruct (Http.json response) as [intent|m] eqn:J; [|discriminate].
    destruct (normalize config params intent) as [r'|m] eqn:N; [|discriminate].
    intros [= <- <-]. now exists response, intent.
  - destruct (httpError response); discriminate.
Qed.

End ClientProperties.

Section AmountBreakdown.

Import Client.

(** C4 (as amended). For every call of [createPaymentIntent] that returns,
    on input amount [a] and with [intent] the body of the response:
    [requested] is [a]; [total] and [net] are the server's [amount] and
    [amount_merchant] when those are truthy (present and not zero) and [a]
    otherwise, in particular when they are absent; [fees] is the server's
    [amount_fees] when truthy and 0 otherwise, in particular when absent. *)
Theorem C4_amount_breakdown config fetch params t r :
  createPaymentIntent config fetch params = (t, Ok r) ->
  exists response intent,
    fetch (createRequest config params) = Ok response
    /\ Http.json response = Ok intent
    /\ let a := p_amount params in
       let server k := getOpt intent k in
       requested (amount r) = a
       /\ (truthy (server "amount") = true ->
           total (amount r) = server "amount")
       /\ (truthy (server "amount") = false -> total (amount r) = a)
       /\ (server "amount" = JUndefined -> total (amount r) = a)
       /\ (truthy (server "amount_fees") = true ->
           fees (amount r) = server "amount_fees")
       /\ (truthy (server "amount_fees") = false -> fees (amount r) = JNum 0)
       /\ (server "amount_fees" = JUndefined -> fees (amount r) = JNum 0)
       /\ (truthy (server "amount_merchant") = true ->
           net (amount r) = server "amount_merchant")
       /\ (truthy (server "amount_merchant") = false -> net (amount r) = a)
       /\ (server "amount_merchant" = JUndefined -> net (amount r) = a).
Proof.
  intros E.
  destruct (createPaymentIntent_ok _ _ _ _ _ E)
    as (response & intent & F & _ & J & N & _).
  exists response, intent. split; [exact F|]. split; [exact J|].
  destruct (normalize_ok _ _ _ _ N) as (_ & _ & _ & Rq & Tt & Fe & Ne).
  cbn zeta. rewrite Rq, Tt, Fe, Ne. unfold or.
  repeat split; intros T; try rewrite T; reflexivity.
Qed.

(** The theorem at a response that carries all three amounts. *)
Lemma C4_amount_breakdown_witness :
  exists r,
    createPaymentIntent Sample.config
      (Sample.always jsval (Sample.okResponse (Sample.intent "pi_1" "pending")))
      Sample.params
    = ([CallFetch (createRequest Sample.config Sample.params)], Ok r)
    /\ requested (amount r) = JNum 1000000
    /\ total (amount r) = JNum 1000000
    /\ fees (amount r) = JNum 10000
    /\ net (amount r) = JNum 990000.
Proof.
  eexists. split; [reflexivity|].
  destruct (C4_amount_breakdown Sample.config
              (Sample.always jsval
                 (Sample.okResponse (Sample.intent "pi_1" "pending")))
              Sample.params _ _ eq_refl)
    as (response & intent & F & J & Rq & Tt & _ & _ & Fe & _ & _ & Ne & _).
  injection F as <-. injection J as <-.
  split; [exact Rq|]. split; [exact (Tt eq_refl)|].
  split; [exact (Fe eq_refl) | exact (Ne eq_refl)].
Defined.

(** C4 as stated fails: a response without [amount_fees] makes [fees] 0,
    not the input amount. *)
Lemma C4_counterexample :
  exists t r,
    createPaymentIntent Sample.config
      (Sample.always jsval
         (Sample.okResponse (Sample.bareIntent "pi_1" "pending")))
      Sample.params = (t, Ok r)
    /\ getOpt (Sample.bareIntent "pi_1" "pending") "amount_fees" = JUndefined
    /\ p_amount Sample.params = JNum 1000000
    /\ fees (amount r) = JNum 0
    /\ fees (amount r) <> p_amount Sample.params.
Proof.
  eexists. eexists. split; [reflexivity|]. cbn. repeat split. discriminate.
Qed.

End AmountBreakdown.

(* ================================================================== *)
(** ** The proxy endpoint *)

Lemma iobind_lift_ok {B A C : Type} (a : A) (k : A -> io B C) :
  iobind (lift (Ok a)) k = k a.
Proof. unfold iobind, lift. now destruct (k a). Qed.

Lemma iobind_lift_throw {B A C : Type} (m : string) (k : A -> io B C) :
  iobind (lift (Throw m)) k = ([], Throw m).
Proof. reflexivity. Qed.

(** Whatever follows a [fetch], the call comes first in the trace. *)
Lemma iobind_doFetch {B C : Type} (fetch : Http.Fetch B) (req : Http.Request B)
    (k : Http.Response -> io B C) :
  exists rest, fst (iobind (doFetch fetch req) k) = CallFetch req :: rest.
Proof.
  unfold iobind, doFetch. destruct (fetch req) as [response|m].
  - destruct (k response) as [t r]. now exists t.
  - now exists [].
Qed.

Section ProxyEndpoint.

Import Route.

Variable env : Env.
Variable fetch : Http.Fetch jsval.

(** The delegation to the API client once validation has passed. *)
Lemma delegate_status network params :
  let r :=
    iobind (lift (Client.getDefaultClient env network)) (fun client =>
    iobind (Client.createPaymentIntent client fetch params) (fun result =>
    ret (mkResponse 200 (ResultBody result)))) in
  match r with
  | (_, Ok response) => status response = 200%Z
  | (_, Throw _) => True
  end.
Proof.
  cbn zeta. destruct (Client.getDefaultClient env network) as [client|m].
  - rewrite iobind_lift_ok. unfold iobind.
    destruct (Client.createPaymentIntent client fetch params) as [t [r|m]];
      cbn; exact I || reflexivity.
  - exact I.
Qed.

(** [tryBlock] on a body that can be destructured. *)
Lemma tryBlock_body b :
  b <> JNull -> b <> JUndefined ->
  tryBlock env fetch (Ok b) =
  let amount := getOpt b "amount" in
  let asset := getOpt b "asset" in
  let network := getOpt b "network" in
  if negb (truthy amount) || negb (truthy asset) then
    ret (mkResponse 400 (ErrorBody "Amount and asset are required"))
  else if truthy network && negb (arrayIncludes networks network) then
    ret (mkResponse 400
           (ErrorBody "Invalid network. Must be solana:devnet or solana:mainnet"))
  else
    iobind (lift (Client.getDefaultClient env network)) (fun client =>
    iobind (Client.createPaymentIntent client fetch
              (Client.mkParams amount asset (getOpt b "customerEmail")
                 (getOpt b "metadata"))) (fun result =>
    ret (mkResponse 200 (ResultBody result)))).
Proof.
  intros nn nu. unfold tryBlock. rewrite iobind_lift_ok.
  assert (D : forall k, destructure b k = Ok (getOpt b k))
    by (destruct b; try congruence; reflexivity).
  rewrite !D, !iobind_lift_ok. reflexivity.
Qed.

Lemma arrayIncludes_networks v :
  arrayIncludes networks v = false <->
  v <> JStr "solana:devnet" /\ v <> JStr "solana:mainnet".
Proof.
  unfold arrayIncludes, networks. cbn [existsb].
  rewrite orb_false_r, orb_false_iff.
  split; intros [A B]; split.
  - intros E. apply strictEqStr_true in E. congruence.
  - intros E. apply strictEqStr_true in E. congruence.
  - destruct (strictEqStr v "solana:devnet") eqn:E; [|reflexivity].
    apply strictEqStr_true in E. contradiction.
  - destruct (strictEqStr v "solana:mainnet") eqn:E; [|reflexivity].
    apply strictEqStr_true in E. contradiction.
Qed.

(** The only network call a client makes is its request. *)
Lemma createPaymentIntent_trace client params :
  fst (Client.createPaymentIntent client fetch params)
  = [CallFetch (Client.createRequest client params)].
Proof.
  unfold Client.createPaymentIntent, doFetch, iobind.
  destruct (fetch (Client.createRequest client params)) as [response|m];
    [|reflexivity].
  destruct (Http.ok response); cbn [negb].
  - unfold lift. destruct (Http.json response) as [intent|m]; [|reflexivity].
    now destruct (Client.normalize client params intent).
  - unfold lift, throw. now destruct (Client.httpError response).
Qed.

(** A falsy [network] selects the client that no [network] selects. *)
Lemma getDefaultClient_falsy network :
  truthy network = false ->
  Client.getDefaultClient env network = Client.getDefaultClient env JUndefined.
Proof.
  intros T. unfold Client.getDefaultClient. unfold or at 2 4.
  now rewrite T.
Qed.

(** C7 (as amended). For a request whose body parses to a JSON value other
    than [null], the endpoint answers 400 with an error message, and
    without any network call, exactly when [amount] or [asset] is missing or
    falsy ("Amount and asset are required"), or [network] is truthy and is
    neither "solana:devnet" nor "solana:mainnet" ("Invalid network. Must be
    solana:devnet or solana:mainnet").  With truthy [amount] and [asset] and
    a [network] that is missing or falsy, the request goes to the client of
    the default network ([NEXT_PUBLIC_NETWORK], else "solana:devnet"): when
    the merchant wallet is configured that client's request is the only
    network call and its result is answered 200, and when it is not, or the
    client throws, the error is answered 500.  Whatever is thrown (while
    parsing, destructuring or delegating) becomes a 500 response whose body
    holds the message, or "Failed to create invoice" when that is empty. *)
Theorem C7_proxy_validation :
  (forall b, b <> JNull -> b <> JUndefined ->
     let amount := getOpt b "amount" in
     let asset := getOpt b "asset" in
     let network := getOpt b "network" in
     (status (snd (POST env fetch (Ok b))) = 400%Z <->
        truthy amount = false \/ truthy asset = false
        \/ (truthy network = true
            /\ network <> JStr "solana:devnet"
            /\ network <> JStr "solana:mainnet"))
     /\ (status (snd (POST env fetch (Ok b))) = 400%Z ->
         fst (POST env fetch (Ok b)) = []
         /\ exists message,
              body (snd (POST env fetch (Ok b))) = ErrorBody message)
     /\ (truthy amount = false \/ truthy asset = false ->
         POST env fetch (Ok b)
         = ([], mkResponse 400 (ErrorBody "Amount and asset are required")))
     /\ (truthy amount = true -> truthy asset = true ->
         truthy network = true ->
         network <> JStr "solana:devnet" ->
         network <> JStr "solana:mainnet" ->
         POST env fetch (Ok b)
         = ([], mkResponse 400
                  (ErrorBody
                     "Invalid network. Must be solana:devnet or solana:mainnet")))
     /\ (truthy amount = true -> truthy asset = true ->
         truthy network = false ->
         let params :=
           Client.mkParams amount asset (getOpt b "customerEmail")
             (getOpt b "metadata") in
         Client.getDefaultClient env network
         = Client.getDefaultClient env JUndefined
         /\ POST env fetch (Ok b)
            = match Client.getDefaultClient env JUndefined with
              | Ok client =>
                  match Client.createPaymentIntent client fetch params with
                  | (t, Ok result) => (t, mkResponse 200 (ResultBody result))
                  | (t, Throw message) => (t, catchBlock message)
                  end
              | Throw message => ([], catchBlock message)
              end
         /\ forall client,
              Client.getDefaultClient env JUndefined = Ok client ->
              Client.network client
              = or (envVal (NEXT_PUBLIC_NETWORK env)) (JStr "solana:devnet")
              /\ fst (POST env fetch (Ok b))
                 = [CallFetch (Client.createRequest client params)]))
  /\ (forall request_json t message,
        tryBlock env fetch request_json = (t, Throw message) ->
        POST env fetch request_json
        = (t, mkResponse 500
                (ErrorBody (if message =? EmptyString
                            then "Failed to create invoice" else message)))).
Proof.
  split.
  - intros b nn nu amount asset network. unfold POST.
    rewrite (tryBlock_body b nn nu). fold amount asset network. cbn zeta.
    pose proof (delegate_status network
                  (Client.mkParams amount asset (getOpt b "customerEmail")
                     (getOpt b "metadata"))) as D.
    cbn zeta in D.
    destruct (truthy amount) eqn:Ta; cbn [negb orb].
    2:{ cbn. split; [tauto|]. split.
        { intros _. split; [reflexivity | eexists; reflexivity]. }
        split; [reflexivity|]. split; discriminate. }
    destruct (truthy asset) eqn:Ts; cbn [negb orb].
    2:{ cbn. split; [tauto|]. split.
        { intros _. split; [reflexivity | eexists; reflexivity]. }
        split; [reflexivity|]. split; discriminate. }
    destruct (truthy network) eqn:Tn; cbn [andb].
    + destruct (arrayIncludes networks network) eqn:I; cbn [negb].
      * assert (N : ~ (network <> JStr "solana:devnet"
                       /\ network <> JStr "solana:mainnet")).
        { intros C. apply arrayIncludes_networks in C. congruence. }
        match goal with
        | |- context [let (_, _) := ?x in _] => destruct x as [t [r|m]]
        end; cbn.
        -- rewrite D. split; [split|split; [|split; [|split]]].
           ++ discriminate.
           ++ intros [F|[F|[_ C]]]; [discriminate..|tauto].
           ++ discriminate.
           ++ intros [F|F]; discriminate.
           ++ intros _ _ _ n1 n2. tauto.
           ++ discriminate.
        -- split; [split|split; [|split; [|split]]].
           ++ discriminate.
           ++ intros [F|[F|[_ C]]]; [discriminate..|tauto].
           ++ discriminate.
           ++ intros [F|F]; discriminate.
           ++ intros _ _ _ n1 n2. tauto.
           ++ discriminate.
      * apply arrayIncludes_networks in I. cbn.
        split; [tauto|]. split.
        { intros _. split; [reflexivity | eexists; reflexivity]. }
        split; [intros [F|F]; discriminate|].
        split; [reflexivity | discriminate].
    + assert (S400 : forall x : list (Event jsval) * result Response,
                match x with
                | (_, Ok response) => status response = 200%Z
                | (_, Throw _) => True
                end ->
                status (snd (let (t, r) := x in
                             match r with
                             | Ok response => (t, response)
                             | Throw message => (t, catchBlock message)
                             end)) <> 400%Z).
      { intros [t [r|m]] Hx; cbn; [rewrite Hx|]; discriminate. }
      split; [|split; [|split; [|split]]].
      * split.
        -- intros E. exfalso. revert E. apply S400. exact D.
        -- intros [F|[F|[F _]]]; discriminate.
      * intros E. exfalso. revert E. apply S400. exact D.
      * intros [F|F]; discriminate.
      * discriminate.
      * intros _ _ _. cbn zeta.
        rewrite (getDefaultClient_falsy network Tn).
        split; [reflexivity|].
        destruct (Client.getDefaultClient env JUndefined) as [client|m] eqn:G.
        -- rewrite iobind_lift_ok.
           pose proof (createPaymentIntent_trace client
                         (Client.mkParams amount asset
                            (getOpt b "customerEmail") (getOpt b "metadata")))
             as T.
           unfold iobind, ret.
           destruct (Client.createPaymentIntent client fetch
                       (Client.mkParams amount asset
                          (getOpt b "customerEmail") (getOpt b "metadata")))
             as [t [r|m]]; cbn in T |- *; subst t;
             (split; [reflexivity|]); intros client' [= <-];
             (split; [|reflexivity]);
             revert G; unfold Client.getDefaultClient;
             (destruct (strOr (NEXT_PUBLIC_MERCHANT_WALLET env) EmptyString
                        =? EmptyString); [discriminate|]);
             intros [= <-]; reflexivity.
        -- cbn. split; [reflexivity | discriminate].
  - intros request_json t message E. unfold POST. rewrite E. reflexivity.
Qed.

End ProxyEndpoint.

Section ProxyExamples.

Import Route.

(** The theorem at four requests: one without a [network] field and one
    whose [network] is the empty string, which are both forwarded to the
    devnet client; one without an [amount], which is refused; and one whose
    body is not JSON. *)
Lemma C7_proxy_validation_witness :
  let upstream :=
    Sample.always jsval (Sample.okResponse (Sample.intent "pi_1" "pending")) in
  let b := JObj [("amount", JNum 1000000); ("asset", JStr "USDC")] in
  let b' := JObj [("amount", JNum 1000000); ("asset", JStr "USDC");
                  ("network", JStr EmptyString)] in
  (fst (POST Sample.env upstream (Ok b))
   = [CallFetch (Client.createRequest Sample.config Sample.params)]
   /\ Client.network Sample.config = JStr "solana:devnet")
  /\ (fst (POST Sample.env upstream (Ok b'))
      = [CallFetch (Client.createRequest Sample.config Sample.params)]
      /\ Client.getDefaultClient Sample.env (JStr EmptyString)
         = Ok Sample.config)
  /\ POST Sample.env upstream (Ok (JObj [("asset", JStr "USDC")]))
     = ([], mkResponse 400 (ErrorBody "Amount and asset are required"))
  /\ snd (POST Sample.env upstream (Throw "Unexpected end of JSON input"))
     = mkResponse 500 (ErrorBody "Unexpected end of JSON input").
Proof.
  intros upstream b b'.
  destruct (C7_proxy_validation Sample.env upstream) as [V T].
  split; [|split; [|split]].
  - destruct (V b ltac:(discriminate) ltac:(discriminate))
      as (_ & _ & _ & _ & F).
    destruct (F eq_refl eq_refl eq_refl) as (_ & _ & C).
    destruct (C Sample.config eq_refl) as (N & E).
    split; [exact E | exact N].
  - destruct (V b' ltac:(discriminate) ltac:(discriminate))
      as (_ & _ & _ & _ & F).
    destruct (F eq_refl eq_refl eq_refl) as (G & _ & C).
    destruct (C Sample.config eq_refl) as (_ & E).
    split; [exact E | exact G].
  - destruct (V (JObj [("asset", JStr "USDC")])
                ltac:(discriminate) ltac:(discriminate)) as (_ & _ & A & _).
    apply A. left. reflexivity.
  - rewrite (T (Throw "Unexpected end of JSON input") []
               "Unexpected end of JSON input" eq_refl).
    reflexivity.
Defined.

(** C7 as stated fails: a [network] that is present but falsy, here the
    empty string, is not one of the two networks, and yet the request
    passes validation and is answered 200. *)
Lemma C7_counterexample :
  let upstream :=
    Sample.always jsval (Sample.okResponse (Sample.intent "pi_1" "pending")) in
  let b := JObj [("amount", JNum 1000000); ("asset", JStr "USDC");
                 ("network", JStr EmptyString)] in
  truthy (getOpt b "amount") = true
  /\ truthy (getOpt b "asset") = true
  /\ getOpt b "network" = JStr EmptyString
  /\ arrayIncludes networks (getOpt b "network") = false
  /\ status (snd (POST Sample.env upstream (Ok b))) = 200%Z
  /\ status (snd (POST Sample.env upstream (Ok b))) <> 400%Z
  /\ networkCalls (fst (POST Sample.env upstream (Ok b))) = 1.
Proof. cbn. repeat split. discriminate. Qed.

(** A body that is the JSON value [null] has no [amount] either, and is
    answered 500: the destructuring throws. *)
Example POST_null_body :
  snd (POST Sample.env
         (Sample.always jsval (Sample.okResponse (Sample.intent "pi_1" "pending")))
         (Ok JNull))
  = mkResponse 500
      (ErrorBody "Cannot destructure property 'amount' of 'body' as it is null.").
Proof. reflexivity. Qed.

End ProxyExamples.

(* ================================================================== *)
(** ** The invoice form *)

Section FormProperties.

Import Form.

Context {num : Type} `{JsNumber num}.

Lemma described_item (items : list (LineItem num)) :
  existsb (fun item => negb (noDescription item)) items = true ->
  ((length items =? 0)%nat || forallb noDescription items) = false.
Proof.
  induction items as [|item rest IH]; cbn; [discriminate|].
  destruct (noDescription item); cbn; [|reflexivity].
  intros E. specialize (IH E). destruct rest; [discriminate IH | exact IH].
Qed.

Lemma no_described_item (items : list (LineItem num)) :
  items = [] \/ Forall (fun item => description item = EmptyString) items ->
  ((length items =? 0)%nat || forallb noDescription items) = true.
Proof.
  intros [->|A]; [reflexivity|].
  apply orb_true_iff. right. apply forallb_forall. intros item I.
  rewrite Forall_forall in A. unfold noDescription. rewrite (A item I).
  reflexivity.
Qed.

(** The events of a submission are those of its [try] block. *)
Lemma handleSubmit_trace now iso (fetch : Http.Fetch (InvoiceBody num))
    (st : State num) :
  fst (handleSubmit now iso fetch st)
  = fst (tryBlock now iso fetch (setLoading true (setError EmptyString st))).
Proof.
  unfold handleSubmit.
  now destruct (tryBlock now iso fetch _) as [t [u|m]].
Qed.

(** C5. For every list of line items with at least one non-empty
    description and a subtotal greater than 0, the submission passes both
    checks: its first effect is the POST to [/api/create-invoice], and the
    amount in that request is [Math.round(subtotal * 1000000)]. *)
Theorem C5_submission_amount now iso (fetch : Http.Fetch (InvoiceBody num))
    (st : State num) :
  existsb (fun item => negb (noDescription item)) (lineItems st) = true ->
  ltb (ofZ 0) (calculateSubtotal (lineItems st)) = true ->
  let amountInMicroUnits :=
    round (mul (calculateSubtotal (lineItems st)) (ofZ 1000000)) in
  let request := submitRequest now iso st amountInMicroUnits in
  (exists rest, fst (handleSubmit now iso fetch st) = CallFetch request :: rest)
  /\ Http.url request = "/api/create-invoice"
  /\ Http.method request = "POST"
  /\ sentAmount (fst (handleSubmit now iso fetch st)) = Some amountInMicroUnits.
Proof.
  intros D P amountInMicroUnits request.
  assert (E : exists rest,
             fst (handleSubmit now iso fetch st) = CallFetch request :: rest).
  { rewrite handleSubmit_trace.
    unfold tryBlock. cbn [lineItems setLoading setError].
    rewrite (described_item _ D), (ltb_not_leb _ _ P).
    change (submitRequest now iso _ _) with request.
    apply iobind_doFetch. }
  split; [exact E|]. split; [reflexivity|]. split; [reflexivity|].
  destruct E as [rest ->]. reflexivity.
Qed.

(** C6. For every list of line items that is empty or has only empty
    descriptions, the submission ends with the error "Please add at least
    one line item" and without any effect, hence without a network call;
    the subtotal plays no part, so the check on descriptions comes before
    the check on the total. *)
Theorem C6_no_described_item now iso (fetch : Http.Fetch (InvoiceBody num))
    (st : State num) :
  lineItems st = []
  \/ Forall (fun item => description item = EmptyString) (lineItems st) ->
  fst (handleSubmit now iso fetch st) = []
  /\ networkCalls (fst (handleSubmit now iso fetch st)) = 0
  /\ error (snd (handleSubmit now iso fetch st))
     = "Please add at least one line item"
  /\ error (snd (handleSubmit now iso fetch st))
     <> "Invoice total must be greater than 0"
  /\ loading (snd (handleSubmit now iso fetch st)) = false.
Proof.
  intros E. unfold handleSubmit, tryBlock. cbn [lineItems setLoading setError].
  rewrite (no_described_item _ E). cbn. repeat split. discriminate.
Qed.

End FormProperties.

Section FormExamples.

Import Form Exact.

(** Two widgets at 19.99 are sent as 39980000 micro-units. *)
Lemma C5_submission_amount_witness :
  sentAmount
    (fst (handleSubmit 1700000000000 "2023-11-14T22:13:20.000Z"
            (Sample.always _ (Sample.okResponse (Sample.intent "pi_1" "pending")))
            (Sample.form [Sample.widget])))
  = Some (round (mul (calculateSubtotal [Sample.widget]) (ofZ 1000000)))
  /\ round (mul (calculateSubtotal [Sample.widget]) (ofZ 1000000))
     = QArith_base.inject_Z 39980000.
Proof.
  split; [|reflexivity].
  exact (proj2 (proj2 (proj2
    (C5_submission_amount 1700000000000 "2023-11-14T22:13:20.000Z"
       (Sample.always _ (Sample.okResponse (Sample.intent "pi_1" "pending")))
       (Sample.form [Sample.widget]) eq_refl eq_refl)))).
Defined.

(** The form as it is first shown (one blank item of price 0), and the form
    with every item removed. *)
Lemma C6_no_described_item_witness :
  error (snd (handleSubmit 1700000000000 "2023-11-14T22:13:20.000Z"
                (Sample.always _ (Sample.okResponse (Sample.intent "pi_1" "pending")))
                (Sample.form [Sample.blank])))
  = "Please add at least one line item"
  /\ leb (calculateSubtotal [Sample.blank]) (ofZ 0) = true
  /\ fst (handleSubmit 1700000000000 "2023-11-14T22:13:20.000Z"
            (Sample.always _ (Sample.okResponse (Sample.intent "pi_1" "pending")))
            (Sample.form []))
     = [].
Proof.
  split; [|split; [reflexivity|]].
  - refine (proj1 (proj2 (proj2
      (C6_no_described_item 1700000000000 "2023-11-14T22:13:20.000Z"
         (Sample.always _ (Sample.okResponse (Sample.intent "pi_1" "pending")))
         (Sample.form [Sample.blank]) _)))).
    right. repeat constructor.
  - refine (proj1
      (C6_no_described_item 1700000000000 "2023-11-14T22:13:20.000Z"
         (Sample.always _ (Sample.okResponse (Sample.intent "pi_1" "pending")))
         (Sample.form []) _)).
    left. reflexivity.
Defined.

End FormExamples.

(* ================================================================== *)
(** ** Status lookup *)

Lemma ok_2xx (response : Http.Response) :
  Http.ok response = true <->
  (200 <= Http.status response <= 299)%Z.
Proof. unfold Http.ok. rewrite andb_true_iff, !Z.leb_le. tauto. Qed.

Section StatusLookup.

Import StatusPage.

Variable env : Env.
Variable fetch : Http.Fetch jsval.

(** C8. An identifier that does not start with "pi_" fails at once with the
    error [Invalid payment intent ID. It should start with "pi_"] and no
    effect at all, hence no network call.  For an identifier with the prefix
    the first effect is a GET of
    [{apiBase}/api/v1/payment_intents/{id}] with [cache: 'no-store'], where
    [apiBase] is [NEXT_PUBLIC_SOLPAY_API_BASE] or, when that is unset or
    empty, [https://dev.solpay.cash]; a response outside 200-299 ends with
    the error [Invoice not found. Please check the payment intent ID.] and
    nothing more; a response within 200-299 is followed by the navigation to
    [/invoice/{id}]. *)
Theorem C8_status_lookup (st : State) :
  (startsWith (intentId st) "pi_" = false ->
   handleSubmit env fetch st
   = ([], mkState (intentId st) false
            ("Invalid payment intent ID. It should start with "
             ++ String (ascii_of_nat 34)
                  ("pi_" ++ String (ascii_of_nat 34) EmptyString)))
   /\ networkCalls (fst (handleSubmit env fetch st)) = 0)
  /\ (startsWith (intentId st) "pi_" = true ->
      let request := intentRequest env (intentId st) in
      request
      = Http.mkRequest
          (strOr (NEXT_PUBLIC_SOLPAY_API_BASE env) "https://dev.solpay.cash"
           ++ "/api/v1/payment_intents/" ++ intentId st)
          "GET" [] None (Some "no-store")
      /\ Http.method request = "GET"
      /\ Http.cache request = Some "no-store"
      /\ (exists rest,
            fst (handleSubmit env fetch st) = CallFetch request :: rest)
      /\ (forall response,
            fetch request = Ok response ->
            ~ (200 <= Http.status response <= 299)%Z ->
            handleSubmit env fetch st
            = ([CallFetch request],
               mkState (intentId st) false
                 "Invoice not found. Please check the payment intent ID."))
      /\ (forall response,
            fetch request = Ok response ->
            (200 <= Http.status response <= 299)%Z ->
            handleSubmit env fetch st
            = ([CallFetch request; RouterPush ("/invoice/" ++ intentId st)],
               mkState (intentId st) true EmptyString))).
Proof.
  unfold handleSubmit, tryBlock. cbn [intentId setLoading setError].
  split; intros P; rewrite P; cbn [negb].
  - split; reflexivity.
  - cbn zeta. split; [reflexivity|]. split; [reflexivity|].
    split; [reflexivity|].
    unfold iobind, doFetch, throw, push. split; [|split].
    + destruct (fetch (intentRequest env (intentId st))) as [response|m];
        [|now exists []].
      destruct (Http.ok response); cbn; eexists; reflexivity.
    + intros response -> N.
      destruct (Http.ok response) eqn:O; [|reflexivity].
      apply ok_2xx in O. contradiction.
    + intros response -> O. apply ok_2xx in O. rewrite O. reflexivity.
Qed.

End StatusLookup.

Section StatusLookupExamples.

Import StatusPage.

(** The theorem at the identifier "abc123", and at "pi_123" against an
    upstream that answers 404 and one that answers 200. *)
Lemma C8_status_lookup_witness :
  handleSubmit Sample.env
    (Sample.always jsval (Sample.okResponse (Sample.intent "pi_123" "pending")))
    (mkState "abc123" false EmptyString)
  = ([], mkState "abc123" false
           ("Invalid payment intent ID. It should start with "
            ++ String (ascii_of_nat 34)
                 ("pi_" ++ String (ascii_of_nat 34) EmptyString)))
  /\ handleSubmit Sample.env
       (Sample.always jsval (Http.mkResponse 404 "Not Found"
                            (Throw "Unexpected end of JSON input")))
       (mkState "pi_123" false EmptyString)
     = ([CallFetch
           (Http.mkRequest
              "https://dev.solpay.cash/api/v1/payment_intents/pi_123"
              "GET" [] None (Some "no-store"))],
        mkState "pi_123" false
          "Invoice not found. Please check the payment intent ID.")
  /\ handleSubmit Sample.env
       (Sample.always jsval (Sample.okResponse (Sample.intent "pi_123" "pending")))
       (mkState "pi_123" false EmptyString)
     = ([CallFetch
           (Http.mkRequest
              "https://dev.solpay.cash/api/v1/payment_intents/pi_123"
              "GET" [] None (Some "no-store"));
         RouterPush "/invoice/pi_123"],
        mkState "pi_123" true EmptyString).
Proof.
  split; [|split].
  - exact (proj1 (proj1 (C8_status_lookup Sample.env _
                           (mkState "abc123" false EmptyString)) eq_refl)).
  - destruct (proj2 (C8_status_lookup Sample.env
                       (Sample.always jsval (Http.mkResponse 404 "Not Found"
                            (Throw "Unexpected end of JSON input")))
                       (mkState "pi_123" false EmptyString)) eq_refl)
      as (_ & _ & _ & _ & N & _).
    apply (N _ eq_refl). cbn. lia.
  - destruct (proj2 (C8_status_lookup Sample.env
                       (Sample.always jsval
                          (Sample.okResponse (Sample.intent "pi_123" "pending")))
                       (mkState "pi_123" false EmptyString)) eq_refl)
      as (_ & _ & _ & _ & _ & O).
    apply (O _ eq_refl). cbn. lia.
Defined.

End StatusLookupExamples.

(* ================================================================== *)
(** ** The display page: state, effects and timers *)

Section Display.

Import InvoicePage.

Variable env : Env.
Variable intentId : string.

(** [fetchInvoice] touches the React state only. *)
Lemma afterFetch_runtime r qr st :
  mounted (afterFetch env intentId r qr st) = mounted st
  /\ timers (afterFetch env intentId r qr st) = timers st
  /\ cleanup (afterFetch env intentId r qr st) = cleanup st
  /\ inflight (afterFetch env intentId r qr st) = inflight st.
Proof.
  unfold afterFetch. destruct (fetched env intentId r) as [data|m].
  - destruct (truthy (getOpt data "payment_url")), qr; repeat split.
  - repeat split.
Qed.

Lemma afterFetch_invoice r qr st :
  invoice (afterFetch env intentId r qr st)
  = match fetched env intentId r with
    | Ok data => Some data
    | Throw _ => invoice st
    end.
Proof.
  unfold afterFetch. destruct (fetched env intentId r) as [data|m].
  - now destruct (truthy (getOpt data "payment_url")), qr.
  - reflexivity.
Qed.

Lemma afterFetch_error r qr st :
  error (afterFetch env intentId r qr st)
  = match fetched env intentId r with
    | Ok _ => error st
    | Throw message => message
    end.
Proof.
  unfold afterFetch. destruct (fetched env intentId r) as [data|m].
  - now destruct (truthy (getOpt data "payment_url")), qr.
  - reflexivity.
Qed.

(** The effects leave the React state alone. *)
Lemma commit_react previous st :
  invoice (commit previous st) = invoice st
  /\ error (commit previous st) = error st
  /\ loading (commit previous st) = loading st
  /\ mounted (commit previous st) = mounted st
  /\ inflight (commit previous st) = inflight st.
Proof.
  unfold commit, pollingEffect, runCleanup.
  destruct (sameValue previous (statusOf (invoice st))); [repeat split|].
  destruct (cleanup st); cbn;
    destruct (strictEqStr (statusOf (invoice st)) "pending"); repeat split.
Qed.

(** Committing a render re-establishes the agreement, provided the cleanup
    at hand belongs to the status of the previous render. *)
Lemma commit_consistent previous st :
  mounted st = true ->
  timers st = match cleanup st with Some h => [(h, 5000%Z)] | None => [] end ->
  (cleanup st <> None <-> previous = JStr "pending") ->
  consistent (commit previous st).
Proof.
  intros M T C. unfold commit.
  destruct (sameValue previous (statusOf (invoice st))) eqn:S.
  - apply sameValue_eq in S. subst previous. split; [exact T|].
    rewrite C. tauto.
  - assert (R : timers (runCleanup st) = []
                /\ cleanup (runCleanup st) = None
                /\ invoice (runCleanup st) = invoice st
                /\ mounted (runCleanup st) = true).
    { unfold runCleanup. destruct (cleanup st) as [h|] eqn:K; cbn.
      - rewrite T. cbn. rewrite Nat.eqb_refl. cbn. now rewrite M.
      - now rewrite T, M, K. }
    destruct R as (Rt & Rc & Ri & Rm). unfold pollingEffect. rewrite Ri.
    destruct (strictEqStr (statusOf (invoice st)) "pending") eqn:P.
    + apply strictEqStr_true in P. split; cbn.
      * now rewrite Rt.
      * rewrite Ri, Rm. split; [tauto | discriminate].
    + split; cbn.
      * exact Rt.
      * rewrite Ri, Rm. split; [congruence|].
        intros [_ E]. apply strictEqStr_true in E. congruence.
Qed.

Lemma consistent_mount : consistent (snd (mount env intentId)).
Proof.
  unfold mount. destruct (negb (intentId =? EmptyString)); cbn.
  - split; [reflexivity|]. cbn. split; [congruence | intros [_ E]; discriminate].
  - split; [reflexivity|]. cbn. split; [congruence | intros [_ E]; discriminate].
Qed.

Lemma consistent_step st i t st' :
  consistent st -> step env intentId st i = Some (t, st') -> consistent st'.
Proof.
  intros [T C]. destruct i as [h|r qr|]; cbn [step].
  - destruct (existsb (fun timer => (fst timer =? h)%nat) (timers st));
      [|discriminate].
    intros [= <- <-]. exact (conj T C).
  - destruct (inflight st) as [|n]; [discriminate|].
    destruct (afterFetch_runtime r qr (setInflight n st)) as (Am & At & Ac & _).
    destruct (mounted st) eqn:M;
      [destruct (fetched env intentId r) as [data|m] eqn:F|];
      intros [= <- <-].
    + apply commit_consistent.
      * now rewrite Am.
      * now rewrite At, Ac.
      * rewrite Ac. cbn. rewrite C. intuition auto.
    + split; [now rewrite At, Ac|]. rewrite Ac, Am, afterFetch_invoice, F.
      cbn. rewrite C. intuition auto.
    + split; [exact T|]. cbn. rewrite M. exact C.
  - destruct (mounted st) eqn:M; [|discriminate]. intros [= <- <-].
    unfold runCleanup. destruct (cleanup st) as [h|] eqn:K; split; cbn.
    + rewrite T. cbn. now rewrite Nat.eqb_refl.
    + split; [congruence | intros [E _]; discriminate].
    + now rewrite K.
    + rewrite K. split; [congruence | intros [E _]; discriminate].
Qed.

Lemma consistent_runFrom inputs : forall st t st',
  consistent st -> runFrom env intentId st inputs = Some (t, st') ->
  consistent st'.
Proof.
  induction inputs as [|i rest IH]; intros st t st' K; cbn [runFrom].
  - now intros [= _ <-].
  - destruct (step env intentId st i) as [[t1 st1]|] eqn:S; [|discriminate].
    destruct (runFrom env intentId st1 rest) as [[t2 st2]|] eqn:R;
      [|discriminate].
    intros [= _ <-]. exact (IH _ _ _ (consistent_step _ _ _ _ K S) R).
Qed.

(** Every state a page can reach is consistent. *)
Lemma consistent_run inputs t st :
  run env intentId inputs = Some (t, st) -> consistent st.
Proof.
  unfold run. pose proof consistent_mount as K.
  destruct (mount env intentId) as [t0 st0].
  destruct (runFrom env intentId st0 inputs) as [[t1 st1]|] eqn:R;
    [|discriminate].
  intros [= _ <-]. exact (consistent_runFrom _ _ _ _ K R).
Qed.

(** In a consistent state a timer is live exactly when the component is
    mounted and shows the status "pending"; and never more than one is. *)
Lemma consistent_timers st :
  consistent st ->
  (timers st <> [] <->
   mounted st = true /\ statusOf (invoice st) = JStr "pending")
  /\ (length (timers st) <= 1)%nat.
Proof.
  intros [T C]. rewrite <- C, T.
  destruct (cleanup st); cbn; split; try lia; split; congruence.
Qed.

(** A tick can fire only for a live timer. *)
Lemma tick_enabled st h :
  step env intentId st (Tick h) <> None <-> In h (map fst (timers st)).
Proof.
  cbn [step].
  destruct (existsb (fun timer => (fst timer =? h)%nat) (timers st)) eqn:E.
  - split; [|discriminate]. intros _.
    apply existsb_exists in E as (x & I & X). apply Nat.eqb_eq in X.
    apply in_map_iff. now exists x.
  - split; [congruence|]. intros I. exfalso.
    apply in_map_iff in I as (x & X & I).
    assert (Y : existsb (fun timer => (fst timer =? h)%nat) (timers st) = true)
      by (apply existsb_exists; exists x; split;
          [exact I | now apply Nat.eqb_eq]).
    congruence.
Qed.

Lemma tick_disabled st h : timers st = [] -> step env intentId st (Tick h) = None.
Proof. intros T. cbn [step]. now rewrite T. Qed.

End Display.

Section Polling.

Import InvoicePage.

Variable env : Env.
Variable intentId : string.

(** What [fetchInvoice] stores for an ok response whose body is an object:
    the object itself, with the fallback [payment_url] if it has none. *)
Lemma fetched_object response fields :
  Http.ok response = true ->
  Http.json response = Ok (JObj fields) ->
  fetched env intentId (Ok response)
  = Ok (JObj (if truthy (lookup "payment_url" fields) then fields
              else setField "payment_url" (JStr (fallbackUrl env intentId))
                     fields)).
Proof.
  intros O B. unfold fetched. cbn [bind]. rewrite O, B.
  cbn [negb bind]. unfold addFallback. cbn [get bind].
  now destruct (truthy (lookup "payment_url" fields)).
Qed.

Lemma stored_field fields k :
  k <> "payment_url" ->
  getOpt (JObj (if truthy (lookup "payment_url" fields) then fields
                else setField "payment_url" (JStr (fallbackUrl env intentId))
                       fields)) k
  = lookup k fields.
Proof.
  intros ne. destruct (truthy (lookup "payment_url" fields)); cbn [getOpt].
  - reflexivity.
  - apply lookup_setField_other. congruence.
Qed.

Lemma stored_payment_url fields :
  getOpt (JObj (if truthy (lookup "payment_url" fields) then fields
                else setField "payment_url" (JStr (fallbackUrl env intentId))
                       fields)) "payment_url"
  = if truthy (lookup "payment_url" fields) then lookup "payment_url" fields
    else JStr (fallbackUrl env intentId).
Proof.
  destruct (truthy (lookup "payment_url" fields)); cbn [getOpt].
  - reflexivity.
  - apply lookup_setField_same.
Qed.

(** A mounted page with a fetch in flight, receiving an ok response whose
    body is an object. *)
Lemma settle_stores st response fields qr :
  mounted st = true -> inflight st <> 0 ->
  Http.ok response = true ->
  Http.json response = Ok (JObj fields) ->
  exists st' inv,
    step env intentId st (Settle (Ok response) qr) = Some ([], st')
    /\ invoice st' = Some inv
    /\ (forall k, k <> "payment_url" -> getOpt inv k = lookup k fields)
    /\ getOpt inv "payment_url"
       = (if truthy (lookup "payment_url" fields)
          then lookup "payment_url" fields
          else JStr (fallbackUrl env intentId))
    /\ mounted st' = true
    /\ loading st' = false
    /\ error st' = error st.
Proof.
  intros M I O B. destruct (inflight st) as [|n] eqn:E; [congruence|].
  eexists. eexists. cbn [step]. rewrite E, M, (fetched_object _ _ O B).
  split; [reflexivity|].
  destruct (commit_react (statusOf (invoice st))
              (afterFetch env intentId (Ok response) qr (setInflight n st)))
    as (Ci & Ce & Cl & Cm & _).
  destruct (afterFetch_runtime env intentId (Ok response) qr (setInflight n st))
    as (Am & _).
  rewrite Ci, Ce, Cl, Cm, Am, afterFetch_invoice, afterFetch_error.
  rewrite (fetched_object _ _ O B).
  split; [reflexivity|]. split; [apply stored_field|].
  split; [apply stored_payment_url|]. split; [exact M|]. split; [|reflexivity].
  unfold afterFetch. rewrite (fetched_object _ _ O B).
  match goal with
  | |- context [truthy ?v] => destruct (truthy v)
  end; [destruct qr|]; reflexivity.
Qed.

Lemma isPaid_status inv s :
  getOpt inv "status" = JStr s ->
  isPaid inv = ((s =? "succeeded") || (s =? "completed")).
Proof. unfold isPaid. now intros ->. Qed.

(** C1 (as amended). On a mounted page with a fetch in flight, for every
    status string [s] an ok response carries: the intent is stored; if [s]
    is "succeeded" or "completed" then [isPaid] is true; for any other
    string [isPaid] is false; afterwards a poll timer can be live only if
    [s] is "pending"; and when [s] is "pending" a poll timer is live,
    provided the page has rendered all along: every value stored so far,
    and the one stored now, has the shape [InvoiceData] declares. *)
Theorem C1_isPaid_and_polling inputs t st response fields s qr :
  run env intentId inputs = Some (t, st) ->
  mounted st = true -> inflight st <> 0 ->
  Http.ok response = true ->
  Http.json response = Ok (JObj fields) ->
  lookup "status" fields = JStr s ->
  exists st' inv,
    step env intentId st (Settle (Ok response) qr) = Some ([], st')
    /\ invoice st' = Some inv
    /\ (s = "succeeded" \/ s = "completed" -> isPaid inv = true)
    /\ (s <> "succeeded" -> s <> "completed" -> isPaid inv = false)
    /\ (timers st' <> [] -> s = "pending")
    /\ (s = "pending" ->
        forallb (storesInvoiceData env intentId) inputs = true ->
        isInvoiceData inv = true ->
        timers st' <> []).
Proof.
  intros R M I O B S.
  destruct (settle_stores st response fields qr M I O B)
    as (st' & inv & St & Inv & F & _ & M' & _).
  exists st', inv. split; [exact St|]. split; [exact Inv|].
  assert (Es : getOpt inv "status" = JStr s)
    by (rewrite F; [exact S | discriminate]).
  rewrite (isPaid_status _ _ Es).
  pose proof (consistent_step _ _ _ _ _ _ (consistent_run _ _ _ _ _ R) St) as K.
  destruct (consistent_timers _ K) as [Ti _].
  assert (P : timers st' <> [] <-> s = "pending").
  { rewrite Ti. unfold statusOf. rewrite Inv, Es, M'.
    split; [intros [_ [= ->]]; reflexivity | intros ->; now split]. }
  split; [|split; [|split]].
  - intros [-> | ->]; reflexivity.
  - intros n1 n2. apply String.eqb_neq in n1, n2. now rewrite n1, n2.
  - apply P.
  - intros E _ _. now apply P.
Qed.

End Polling.

Section PollingExamples.

Import InvoicePage.

(** The theorem on a page that polls: its first fetch returned a pending
    intent, the timer has ticked, and the poll returns a pending intent
    again: not paid, and a timer is live. *)
Lemma C1_isPaid_and_polling_witness :
  let pending := Ok (Sample.okResponse (Sample.intent "pi_1" "pending")) in
  exists t st st' inv,
    run Sample.env "pi_1" [Settle pending Sample.qr; Tick 0] = Some (t, st)
    /\ step Sample.env "pi_1" st (Settle pending Sample.qr) = Some ([], st')
    /\ invoice st' = Some inv
    /\ isInvoiceData inv = true
    /\ isPaid inv = false
    /\ timers st' <> [].
Proof.
  intros pending.
  match eval vm_compute in
        (run Sample.env "pi_1" [Settle pending Sample.qr; Tick 0]) with
  | Some (?t, ?st) => exists t, st
  end.
  assert (R : run Sample.env "pi_1" [Settle pending Sample.qr; Tick 0]
              = Some _) by (vm_compute; reflexivity).
  destruct (C1_isPaid_and_polling Sample.env "pi_1" _ _ _
              (Sample.okResponse (Sample.intent "pi_1" "pending"))
              _ "pending" Sample.qr
              R eq_refl ltac:(discriminate) eq_refl eq_refl eq_refl)
    as (st' & inv & St & Inv & _ & P & _ & Ti).
  exists st', inv. split; [exact R|]. split; [exact St|]. split; [exact Inv|].
  assert (W : isInvoiceData inv = true).
  { vm_compute in St. injection St as <-.
    vm_compute in Inv. injection Inv as <-. reflexivity. }
  split; [exact W|]. split; [apply P; discriminate|].
  apply Ti; [reflexivity | vm_compute; reflexivity | exact W].
Defined.

(** C1 as stated fails: the status "failed" is neither "succeeded" nor
    "completed", [isPaid] is false, and yet no poll timer is live after the
    fetch, so that no tick can follow. *)
Lemma C1_counterexample :
  exists t st inv,
    run Sample.env "pi_1"
      [Settle (Ok (Sample.okResponse (Sample.intent "pi_1" "failed")))
         Sample.qr]
    = Some (t, st)
    /\ mounted st = true
    /\ invoice st = Some inv
    /\ getOpt inv "status" = JStr "failed"
    /\ isPaid inv = false
    /\ timers st = []
    /\ forall h, step Sample.env "pi_1" st (Tick h) = None.
Proof.
  eexists. eexists. eexists. split; [reflexivity|]. cbn. repeat split.
Qed.

End PollingExamples.

Section Timer.

Import InvoicePage.

Variable env : Env.
Variable intentId : string.

(** Once the component is unmounted nothing happens any more. *)
Lemma unmounted_runFrom more : forall st t st',
  consistent st -> mounted st = false ->
  runFrom env intentId st more = Some (t, st') ->
  t = [] /\ timers st' = [] /\ mounted st' = false.
Proof.
  induction more as [|i rest IH]; intros st t st' K M; cbn [runFrom].
  - intros [= <- <-]. split; [reflexivity|]. split; [|exact M].
    destruct (timers st) as [|h0 l0] eqn:E; [reflexivity|].
    destruct (proj1 (proj1 (consistent_timers _ K))) as [M' _];
      [now rewrite E | congruence].
  - destruct (step env intentId st i) as [[t1 st1]|] eqn:S; [|discriminate].
    destruct (runFrom env intentId st1 rest) as [[t2 st2]|] eqn:R;
      [|discriminate].
    intros [= <- <-].
    assert (X : t1 = [] /\ mounted st1 = false).
    { destruct i as [h|r qr|]; cbn [step] in S.
      - assert (T : timers st = []).
        { destruct (timers st) as [|h0 l0] eqn:E; [reflexivity|].
          destruct (proj1 (proj1 (consistent_timers _ K))) as [M' _];
            [now rewrite E | congruence]. }
        rewrite T in S. discriminate.
      - destruct (inflight st); [discriminate|]. rewrite M in S.
        injection S as <- <-. now split.
      - rewrite M in S. discriminate. }
    destruct X as [-> M1].
    exact (IH _ _ _ (consistent_step _ _ _ _ _ _ K S) M1 R).
Qed.

(** With no timer live, and as long as no response (of a fetch still in
    flight) stores a pending intent, nothing is fetched and no timer
    starts. *)
Lemma quiet_runFrom more : forall st t st',
  consistent st -> timers st = [] ->
  forallb (fun i => negb (reportsPending env intentId i)) more = true ->
  runFrom env intentId st more = Some (t, st') ->
  t = [] /\ timers st' = [].
Proof.
  induction more as [|i rest IH]; intros st t st' K T Q; cbn [runFrom].
  - now intros [= <- <-].
  - cbn [forallb] in Q. apply andb_true_iff in Q as [Qi Qr].
    destruct (step env intentId st i) as [[t1 st1]|] eqn:S; [|discriminate].
    destruct (runFrom env intentId st1 rest) as [[t2 st2]|] eqn:R;
      [|discriminate].
    intros [= <- <-].
    pose proof (consistent_step _ _ _ _ _ _ K S) as K1.
    assert (X : t1 = [] /\ timers st1 = []).
    { destruct i as [h|r qr|].
      - rewrite (tick_disabled _ _ _ _ T) in S. discriminate.
      - split.
        + cbn [step] in S. destruct (inflight st); [discriminate|].
          destruct (mounted st); [destruct (fetched env intentId r)|];
            now injection S as <- _.
        + destruct (timers st1) as [|h0 l0] eqn:E; [reflexivity|]. exfalso.
          destruct (proj1 (proj1 (consistent_timers _ K1))) as [M1 P1];
            [now rewrite E|].
          cbn [step] in S. destruct (inflight st) as [|n]; [discriminate|].
          destruct (afterFetch_runtime env intentId r qr (setInflight n st))
            as (Am & _).
          pose proof (afterFetch_invoice env intentId r qr (setInflight n st))
            as Ai.
          destruct (mounted st) eqn:M.
          * cbn [reportsPending] in Qi.
            destruct (fetched env intentId r) as [data|m] eqn:F;
              injection S as _ <-.
            -- destruct (commit_react (statusOf (invoice st))
                           (afterFetch env intentId r qr (setInflight n st)))
                 as (Ci & _).
               rewrite Ci, Ai in P1. cbn in P1. rewrite P1 in Qi.
               discriminate.
            -- rewrite Ai in P1. cbn in P1.
               destruct (proj2 (proj1 (consistent_timers _ K)));
                 [now split | exact T].
          * injection S as _ <-. cbn in M1. congruence.
      - cbn [step] in S. destruct (mounted st); [|discriminate].
        injection S as <- <-. split; [reflexivity|].
        destruct (timers (setMounted false (runCleanup st))) as [|h0 l0] eqn:E;
          [reflexivity|]. exfalso.
        destruct (proj1 (proj1 (consistent_timers _ K1))) as [M1 _];
          [now rewrite E | discriminate M1]. }
    destruct X as [-> T1].
    exact (IH _ _ _ K1 T1 Qr R).
Qed.

End Timer.

Section PollTimer.

Import InvoicePage.

Variable env : Env.
Variable intentId : string.

(** C2 (as amended). In every state a page can reach: a timer is live
    exactly when the component is mounted and the last stored status is the
    string "pending"; there is at most one, its period is 5000 ms, and a
    tick fires only for it and re-runs the fetch.  When an ok response
    stores a status other than "pending" (such as "succeeded") the timer is
    cancelled, and nothing is fetched and no timer starts for as long as no
    response of a fetch still in flight stores a pending intent.  When the
    view is torn down the timer is cancelled for good.  A fetch that fails
    sets the error and leaves the timer as it is. *)
Theorem C2_poll_timer inputs t st :
  run env intentId inputs = Some (t, st) ->
  (timers st <> [] <->
   mounted st = true /\ statusOf (invoice st) = JStr "pending")
  /\ (length (timers st) <= 1)%nat
  /\ (forall timer, In timer (timers st) -> snd timer = 5000%Z)
  /\ (forall h, step env intentId st (Tick h) <> None <->
                In h (map fst (timers st)))
  /\ (forall h t' st',
        step env intentId st (Tick h) = Some (t', st') ->
        t' = [CallFetch (intentRequest env intentId)]
        /\ timers st' = timers st)
  /\ (forall response fields s qr t' st',
        mounted st = true ->
        Http.ok response = true ->
        Http.json response = Ok (JObj fields) ->
        lookup "status" fields = JStr s ->
        s <> "pending" ->
        step env intentId st (Settle (Ok response) qr) = Some (t', st') ->
        timers st' = []
        /\ (forall h, step env intentId st' (Tick h) = None)
        /\ forall more t'' st'',
             forallb (fun i => negb (reportsPending env intentId i)) more
             = true ->
             runFrom env intentId st' more = Some (t'', st'') ->
             t'' = [] /\ timers st'' = [])
  /\ (forall t' st',
        step env intentId st Unmount = Some (t', st') ->
        timers st' = []
        /\ (forall h, step env intentId st' (Tick h) = None)
        /\ forall more t'' st'',
             runFrom env intentId st' more = Some (t'', st'') ->
             t'' = [] /\ timers st'' = [])
  /\ (forall r qr message t' st',
        mounted st = true ->
        fetched env intentId r = Throw message ->
        step env intentId st (Settle r qr) = Some (t', st') ->
        error st' = message /\ timers st' = timers st).
Proof.
  intros R. pose proof (consistent_run _ _ _ _ _ R) as K.
  destruct (consistent_timers _ K) as [Ti Le].
  split; [exact Ti|]. split; [exact Le|].
  split.
  { intros timer I. destruct K as [T _]. rewrite T in I.
    destruct (cleanup st); cbn in I; [|contradiction].
    destruct I as [<-|[]]. reflexivity. }
  split; [apply tick_enabled|].
  split.
  { intros h t' st'. cbn [step].
    destruct (existsb _ (timers st)); [|discriminate].
    now intros [= <- <-]. }
  split; [|split].
  - intros response fields s qr t' st' M O B S ne St.
    assert (I : inflight st <> 0)
      by (cbn [step] in St; destruct (inflight st); congruence).
    destruct (settle_stores env intentId st response fields qr M I O B)
      as (st1 & inv & St1 & Inv & F & _ & M1 & _).
    rewrite St in St1. injection St1 as -> <-.
    pose proof (consistent_step _ _ _ _ _ _ K St) as K1.
    assert (T1 : timers st' = []).
    { destruct (timers st') as [|h0 l0] eqn:E; [reflexivity|]. exfalso.
      destruct (proj1 (proj1 (consistent_timers _ K1))) as [_ P];
        [now rewrite E|].
      unfold statusOf in P. rewrite Inv, F, S in P by discriminate.
      congruence. }
    split; [exact T1|]. split; [intros h; now apply tick_disabled|].
    intros more t'' st'' Q R'. exact (quiet_runFrom _ _ _ _ _ _ K1 T1 Q R').
  - intros t' st' St.
    pose proof (consistent_step _ _ _ _ _ _ K St) as K1.
    assert (M1 : mounted st' = false).
    { cbn [step] in St. destruct (mounted st); [|discriminate].
      now injection St as _ <-. }
    destruct (unmounted_runFrom env intentId [] st' [] st' K1 M1 eq_refl)
      as (_ & T1 & _).
    split; [exact T1|]. split; [intros h; now apply tick_disabled|].
    intros more t'' st'' R'.
    destruct (unmounted_runFrom env intentId more st' t'' st'' K1 M1 R')
      as (E & T2 & _).
    now split.
  - intros r qr message t' st' M F St. cbn [step] in St.
    destruct (inflight st) as [|n]; [discriminate|]. rewrite M, F in St.
    injection St as _ <-.
    rewrite afterFetch_error, F.
    destruct (afterFetch_runtime env intentId r qr (setInflight n st))
      as (_ & At & _).
    now rewrite At.
Qed.

End PollTimer.

Section PollTimerExamples.

Import InvoicePage.

(** The theorem on the page that has stored a pending intent and ticked
    once: one timer of 5000 ms is live, and it is cancelled when the next
    response says "succeeded" and when the view is torn down. *)
Lemma C2_poll_timer_witness :
  let pending := Ok (Sample.okResponse (Sample.intent "pi_1" "pending")) in
  let succeeded := Ok (Sample.okResponse (Sample.intent "pi_1" "succeeded")) in
  exists t st,
    run Sample.env "pi_1" [Settle pending Sample.qr; Tick 0] = Some (t, st)
    /\ timers st = [(0, 5000%Z)]
    /\ (timers st <> [] <->
        mounted st = true /\ statusOf (invoice st) = JStr "pending")
    /\ (forall t' st',
          step Sample.env "pi_1" st (Settle succeeded Sample.qr)
          = Some (t', st') ->
          timers st' = [])
    /\ (forall t' st',
          step Sample.env "pi_1" st Unmount = Some (t', st') ->
          timers st' = []).
Proof.
  intros pending succeeded.
  match eval vm_compute in
        (run Sample.env "pi_1" [Settle pending Sample.qr; Tick 0]) with
  | Some (?t, ?st) => exists t, st
  end.
  assert (R : run Sample.env "pi_1" [Settle pending Sample.qr; Tick 0]
              = Some _) by (vm_compute; reflexivity).
  split; [exact R|]. split; [reflexivity|].
  destruct (C2_poll_timer Sample.env "pi_1" _ _ _ R)
    as (Ti & _ & _ & _ & _ & Away & Un & _).
  split; [exact Ti|]. split.
  - intros t' st' St.
    exact (proj1 (Away (Sample.okResponse (Sample.intent "pi_1" "succeeded"))
                    _ "succeeded" Sample.qr t' st' eq_refl eq_refl eq_refl
                    eq_refl ltac:(discriminate) St)).
  - intros t' st' St. exact (proj1 (Un t' st' St)).
Defined.

(** C2 as stated fails where it says that the timer is cancelled when the
    component errors: a poll that fails while the status is "pending" puts
    the page in its error view, and the timer stays live and its next tick
    fetches again. *)
Lemma C2_counterexample :
  match run Sample.env "pi_1"
          [Settle (Ok (Sample.okResponse (Sample.intent "pi_1" "pending")))
             Sample.qr;
           Tick 0;
           Settle (Throw "Failed to fetch") Sample.qr]
  with
  | Some (_, st) =>
      error st = "Failed to fetch"
      /\ render st = ErrorView "Failed to fetch"
      /\ mounted st = true
      /\ timers st = [(0, 5000%Z)]
      /\ option_map fst (step Sample.env "pi_1" st (Tick 0))
         = Some [CallFetch (intentRequest Sample.env "pi_1")]
  | None => False
  end.
Proof. vm_compute. repeat split. Qed.

(** Why "no further tick" needs its proviso: with two fetches in flight, one
    answered "succeeded" and the slower one "pending" afterwards, the timer
    that was cancelled is started anew. *)
Example stale_pending_response :
  option_map (fun r => timers (snd r))
    (run Sample.env "pi_1"
       [Settle (Ok (Sample.okResponse (Sample.intent "pi_1" "pending")))
          Sample.qr;
        Tick 0; Tick 0;
        Settle (Ok (Sample.okResponse (Sample.intent "pi_1" "succeeded")))
          Sample.qr])
  = Some []
  /\ option_map (fun r => timers (snd r))
       (run Sample.env "pi_1"
          [Settle (Ok (Sample.okResponse (Sample.intent "pi_1" "pending")))
             Sample.qr;
           Tick 0; Tick 0;
           Settle (Ok (Sample.okResponse (Sample.intent "pi_1" "succeeded")))
             Sample.qr;
           Settle (Ok (Sample.okResponse (Sample.intent "pi_1" "pending")))
             Sample.qr])
     = Some [(1, 5000%Z)].
Proof. split; vm_compute; reflexivity. Qed.

End PollTimerExamples.

(* ================================================================== *)
(** ** The payment URL and the API base *)

Section PaymentUrl.

Import InvoicePage.

Variable env : Env.
Variable intentId : string.

(** C9. When the body of a fetched intent has no [payment_url], or a falsy
    one, the display page stores [{apiBase}/pay/{id}], where [apiBase] is
    [NEXT_PUBLIC_SOLPAY_API_BASE] or, when that is unset or empty,
    [https://dev.solpay.cash], and [id] is the identifier of the page; and
    [createPaymentIntent] returns [{apiBase}/pay/{id}], with the client's
    API base and the [id] of the response, a string (a response without
    [id] gives [{apiBase}/pay/undefined]).  A truthy [payment_url] is used
    as it is by both.  The page shows what it stores, as the link of an
    unpaid invoice, whenever the stored value has the shape [InvoiceData]
    declares. *)
Theorem C9_fallback_payment_url :
  (forall st response fields qr,
     mounted st = true -> inflight st <> 0 ->
     Http.ok response = true ->
     Http.json response = Ok (JObj fields) ->
     let apiBase :=
       strOr (NEXT_PUBLIC_SOLPAY_API_BASE env) "https://dev.solpay.cash" in
     exists st' inv,
       step env intentId st (Settle (Ok response) qr) = Some ([], st')
       /\ invoice st' = Some inv
       /\ (truthy (lookup "payment_url" fields) = false ->
           getOpt inv "payment_url" = JStr (apiBase ++ "/pay/" ++ intentId)
           /\ (error st = EmptyString -> isInvoiceData inv = true ->
               render st'
               = InvoiceView (isPaid inv)
                   (if isPaid inv then None
                    else Some (JStr (apiBase ++ "/pay/" ++ intentId)))))
       /\ (truthy (lookup "payment_url" fields) = true ->
           getOpt inv "payment_url" = lookup "payment_url" fields
           /\ (error st = EmptyString -> isInvoiceData inv = true ->
               render st'
               = InvoiceView (isPaid inv)
                   (if isPaid inv then None
                    else Some (lookup "payment_url" fields)))))
  /\ (forall config fetch params t r,
        Client.createPaymentIntent config fetch params = (t, Ok r) ->
        exists response intent,
          fetch (Client.createRequest config params) = Ok response
          /\ Http.json response = Ok intent
          /\ (forall id,
                truthy (getOpt intent "payment_url") = false ->
                getOpt intent "id" = JStr id ->
                Client.paymentUrl r
                = JStr (Client.apiBase config ++ "/pay/" ++ id))
          /\ (truthy (getOpt intent "payment_url") = false ->
              getOpt intent "id" = JUndefined ->
              Client.paymentUrl r
              = JStr (Client.apiBase config ++ "/pay/undefined"))
          /\ (truthy (getOpt intent "payment_url") = true ->
              Client.paymentUrl r = getOpt intent "payment_url")).
Proof.
  split.
  - intros st response fields qr M I O B apiBase.
    destruct (settle_stores env intentId st response fields qr M I O B)
      as (st' & inv & St & Inv & _ & P & _ & L & E).
    exists st', inv. split; [exact St|]. split; [exact Inv|].
    assert (V : error st = EmptyString ->
                render st'
                = InvoiceView (isPaid inv)
                    (if isPaid inv then None
                     else Some (getOpt inv "payment_url"))).
    { intros Z. unfold render. rewrite L, Inv, E, Z. reflexivity. }
    split; intros T; rewrite T in P.
    + split; [exact P|]. intros Z _. rewrite (V Z), P. reflexivity.
    + split; [exact P|]. intros Z _. rewrite (V Z), P. reflexivity.
  - intros config fetch params t r C.
    destruct (createPaymentIntent_ok _ _ _ _ _ C)
      as (response & intent & F & _ & J & N & _).
    exists response, intent. split; [exact F|]. split; [exact J|].
    destruct (normalize_ok _ _ _ _ N) as (_ & _ & U & _).
    rewrite U. unfold or. split; [|split].
    + now intros id -> ->.
    + now intros -> ->.
    + now intros ->.
Qed.

End PaymentUrl.

Section PaymentUrlExamples.

Import InvoicePage.

(** The theorem on a page that receives an intent without [payment_url],
    and on a client that does. *)
Lemma C9_fallback_payment_url_witness :
  (exists st' inv,
     step Sample.env "pi_9" (snd (mount Sample.env "pi_9"))
       (Settle (Ok (Sample.okResponse Sample.mainnetIntent)) Sample.qr)
     = Some ([], st')
     /\ invoice st' = Some inv
     /\ isInvoiceData inv = true
     /\ getOpt inv "payment_url" = JStr "https://dev.solpay.cash/pay/pi_9"
     /\ render st'
        = InvoiceView false (Some (JStr "https://dev.solpay.cash/pay/pi_9")))
  /\ exists t r,
       Client.createPaymentIntent Sample.config
         (Sample.always jsval
            (Sample.okResponse (Sample.bareIntent "pi_1" "pending")))
         Sample.params = (t, Ok r)
       /\ Client.paymentUrl r = JStr "https://dev.solpay.cash/pay/pi_1".
Proof.
  destruct (C9_fallback_payment_url Sample.env "pi_9") as [D C]. split.
  - destruct (D (snd (mount Sample.env "pi_9"))
                (Sample.okResponse Sample.mainnetIntent) _ Sample.qr
                eq_refl ltac:(discriminate) eq_refl eq_refl)
      as (st' & inv & St & Inv & F & _).
    exists st', inv. split; [exact St|]. split; [exact Inv|].
    destruct (F eq_refl) as [P V].
    vm_compute in St. injection St as <-.
    vm_compute in Inv. injection Inv as <-.
    split; [reflexivity|]. split; [exact P|].
    exact (V eq_refl eq_refl).
  - eexists. eexists. split; [reflexivity|].
    destruct (C _ _ _ _ _ (eq_refl
                : Client.createPaymentIntent Sample.config
                    (Sample.always jsval
                       (Sample.okResponse (Sample.bareIntent "pi_1" "pending")))
                    Sample.params = (_, Ok _)))
      as (response & intent & F & J & U & _).
    injection F as <-. injection J as <-.
    exact (U "pi_1" eq_refl eq_refl).
Defined.

End PaymentUrlExamples.

Section ApiBase.

Import InvoicePage.

Variable env : Env.
Variable intentId : string.

Lemma step_events st i t st' :
  step env intentId st i = Some (t, st') ->
  Forall (fun e => e = CallFetch (intentRequest env intentId)) t.
Proof.
  destruct i as [h|r qr|]; cbn [step].
  - destruct (existsb _ (timers st)); [|discriminate].
    intros [= <- _]. now repeat constructor.
  - destruct (inflight st); [discriminate|].
    destruct (mounted st); [destruct (fetched env intentId r)|];
      intros [= <- _]; constructor.
  - destruct (mounted st); [|discriminate]. intros [= <- _]. constructor.
Qed.

Lemma runFrom_events inputs : forall st t st',
  runFrom env intentId st inputs = Some (t, st') ->
  Forall (fun e => e = CallFetch (intentRequest env intentId)) t.
Proof.
  induction inputs as [|i rest IH]; intros st t st'; cbn [runFrom].
  - intros [= <- _]. constructor.
  - destruct (step env intentId st i) as [[t1 st1]|] eqn:S; [|discriminate].
    destruct (runFrom env intentId st1 rest) as [[t2 st2]|] eqn:R;
      [|discriminate].
    intros [= <- _]. apply Forall_app. split.
    + exact (step_events _ _ _ _ S).
    + exact (IH _ _ _ R).
Qed.

(** Every effect of the display page is a fetch of its intent from the
    page's API base. *)
Lemma run_events inputs t st :
  run env intentId inputs = Some (t, st) ->
  Forall (fun e => e = CallFetch (intentRequest env intentId)) t.
Proof.
  unfold run, mount.
  destruct (negb (intentId =? EmptyString));
    match goal with
    | |- context [runFrom env intentId ?s inputs] =>
        destruct (runFrom env intentId s inputs) as [[t1 st1]|] eqn:R
    end; try discriminate; intros [= <- _].
  - constructor; [reflexivity | exact (runFrom_events _ _ _ _ R)].
  - exact (runFrom_events _ _ _ _ R).
Qed.

(** C10. The display page and the status lookup take their API base from
    [NEXT_PUBLIC_SOLPAY_API_BASE], with default https://dev.solpay.cash,
    whatever the network of the intent: every effect of a display page is a
    fetch of [{base}/api/v1/payment_intents/{id}] from that base, the
    fallback [payment_url] of an intent whose network is "solana:mainnet" is
    built on it, and so is the one fetch of a status lookup; whereas the
    client made for "solana:mainnet" takes its base from
    [NEXT_PUBLIC_SOLPAY_API_BASE_MAINNET], with default
    https://www.solpay.cash. *)
Theorem C10_pages_use_devnet_base :
  pageApiBase env
  = strOr (NEXT_PUBLIC_SOLPAY_API_BASE env) "https://dev.solpay.cash"
  /\ Http.url (intentRequest env intentId)
     = pageApiBase env ++ "/api/v1/payment_intents/" ++ intentId
  /\ (forall inputs t st,
        run env intentId inputs = Some (t, st) ->
        Forall (fun e => e = CallFetch (intentRequest env intentId)) t)
  /\ (forall st response fields qr,
        mounted st = true -> inflight st <> 0 ->
        Http.ok response = true ->
        Http.json response = Ok (JObj fields) ->
        lookup "x402_context" fields
        = JObj [("network", JStr "solana:mainnet")] ->
        truthy (lookup "payment_url" fields) = false ->
        exists st' inv,
          step env intentId st (Settle (Ok response) qr) = Some ([], st')
          /\ invoice st' = Some inv
          /\ networkOf (invoice st') = JStr "solana:mainnet"
          /\ getOpt inv "payment_url"
             = JStr (pageApiBase env ++ "/pay/" ++ intentId))
  /\ (forall fetch st e,
        In e (fst (StatusPage.handleSubmit env fetch st)) ->
        isFetch e = true ->
        e = CallFetch (intentRequest env (StatusPage.intentId st)))
  /\ (forall config params,
        Client.getDefaultClient env (JStr "solana:mainnet") = Ok config ->
        Client.network config = JStr "solana:mainnet"
        /\ Client.apiBase config
           = strOr (NEXT_PUBLIC_SOLPAY_API_BASE_MAINNET env)
               "https://www.solpay.cash"
        /\ Http.url (Client.createRequest config params)
           = strOr (NEXT_PUBLIC_SOLPAY_API_BASE_MAINNET env)
               "https://www.solpay.cash" ++ "/api/v1/payment_intents").
Proof.
  split; [reflexivity|]. split; [reflexivity|]. split; [exact run_events|].
  split; [|split].
  - intros st response fields qr M I O B X P.
    destruct (settle_stores env intentId st response fields qr M I O B)
      as (st' & inv & St & Inv & F & U & _).
    exists st', inv. split; [exact St|]. split; [exact Inv|]. split.
    + rewrite Inv. unfold networkOf. rewrite F, X by discriminate.
      reflexivity.
    + rewrite U, P. reflexivity.
  - intros fetch st e. unfold StatusPage.handleSubmit, StatusPage.tryBlock.
    cbn [StatusPage.intentId StatusPage.setLoading StatusPage.setError].
    destruct (startsWith (StatusPage.intentId st) "pi_"); cbn [negb].
    + unfold iobind, doFetch, throw, push.
      destruct (fetch (intentRequest env (StatusPage.intentId st)))
        as [response|m]; [destruct (Http.ok response)|]; cbn.
      * intros [<-|[<-|[]]]; [reflexivity | discriminate].
      * intros [<-|[]]. reflexivity.
      * intros [<-|[]]. reflexivity.
    + intros [].
  - intros config params. unfold Client.getDefaultClient. cbn.
    destruct (strOr (NEXT_PUBLIC_MERCHANT_WALLET env) EmptyString
              =? EmptyString); [discriminate|].
    intros [= <-]. repeat split.
Qed.

End ApiBase.

Section ApiBaseExamples.

Import InvoicePage.

(** With only the merchant wallet configured: a page showing an intent made
    on mainnet fetches it from dev.solpay.cash, the client that made it
    talks to www.solpay.cash. *)
Lemma C10_pages_use_devnet_base_witness :
  (exists t st,
     run Sample.env "pi_9"
       [Settle (Ok (Sample.okResponse Sample.mainnetIntent)) Sample.qr; Tick 0]
     = Some (t, st)
     /\ Forall (fun e => e = CallFetch (intentRequest Sample.env "pi_9")) t
     /\ Http.url (intentRequest Sample.env "pi_9")
        = "https://dev.solpay.cash/api/v1/payment_intents/pi_9")
  /\ exists config,
       Client.getDefaultClient Sample.env (JStr "solana:mainnet") = Ok config
       /\ Http.url (Client.createRequest config Sample.params)
          = "https://www.solpay.cash/api/v1/payment_intents".
Proof.
  destruct (C10_pages_use_devnet_base Sample.env "pi_9")
    as (_ & U & Ev & _ & _ & Cl).
  split.
  - match eval vm_compute in
          (run Sample.env "pi_9"
             [Settle (Ok (Sample.okResponse Sample.mainnetIntent)) Sample.qr;
              Tick 0]) with
    | Some (?t, ?st) => exists t, st
    end.
    assert (R : run Sample.env "pi_9"
                  [Settle (Ok (Sample.okResponse Sample.mainnetIntent))
                     Sample.qr; Tick 0]
                = Some _) by (vm_compute; reflexivity).
    split; [exact R|]. split; [exact (Ev _ _ _ R) | exact U].
  - eexists. split; [reflexivity|].
    exact (proj2 (proj2 (Cl _ Sample.params eq_refl))).
Defined.

End ApiBaseExamples.

(* ================================================================== *)
(** * Further properties of the code *)

(** ** The API client: configuration *)

Section ClientConfiguration.

Import Client.

Variable env : Env.

Lemma getDefaultClient_no_wallet (network : jsval) :
  NEXT_PUBLIC_MERCHANT_WALLET env = None
  \/ NEXT_PUBLIC_MERCHANT_WALLET env = Some EmptyString ->
  getDefaultClient env network
  = Throw "NEXT_PUBLIC_MERCHANT_WALLET environment variable is not set. Please add your Solana wallet address to .env.local".
Proof. unfold getDefaultClient. now intros [-> | ->]. Qed.

(** The API base of a client that is not the mainnet one. *)
Lemma getDefaultClient_devnet_base (network : jsval) (config : SolPayConfig) :
  getDefaultClient env network = Ok config ->
  Client.network config <> JStr "solana:mainnet" ->
  apiBase config
  = strOr (NEXT_PUBLIC_SOLPAY_API_BASE env) "https://dev.solpay.cash".
Proof.
  unfold getDefaultClient.
  destruct (strOr (NEXT_PUBLIC_MERCHANT_WALLET env) EmptyString =? EmptyString);
    [discriminate|].
  intros [= <-]. cbn [Client.network apiBase]. intros ne.
  destruct (strictEqStr _ "solana:mainnet") eqn:S; [|reflexivity].
  apply strictEqStr_true in S. contradiction.
Qed.

(** X1. [getDefaultClient] fails, with the message that names the variable,
    exactly when [NEXT_PUBLIC_MERCHANT_WALLET] is unset or empty, whatever
    the network asked for; otherwise the client carries that wallet. *)
Theorem X1_merchant_wallet_required (network : jsval) :
  ((exists message, getDefaultClient env network = Throw message) <->
   NEXT_PUBLIC_MERCHANT_WALLET env = None
   \/ NEXT_PUBLIC_MERCHANT_WALLET env = Some EmptyString)
  /\ (NEXT_PUBLIC_MERCHANT_WALLET env = None
      \/ NEXT_PUBLIC_MERCHANT_WALLET env = Some EmptyString ->
      getDefaultClient env network
      = Throw "NEXT_PUBLIC_MERCHANT_WALLET environment variable is not set. Please add your Solana wallet address to .env.local")
  /\ (forall wallet,
        NEXT_PUBLIC_MERCHANT_WALLET env = Some wallet ->
        wallet <> EmptyString ->
        exists config,
          getDefaultClient env network = Ok config
          /\ merchantWallet config = wallet).
Proof.
  unfold getDefaultClient.
  destruct (NEXT_PUBLIC_MERCHANT_WALLET env) as [w|] eqn:W; cbn [strOr].
  - destruct (w =? EmptyString) eqn:E.
    + apply String.eqb_eq in E. subst w. cbn. split; [|split].
      * split; [now right | intros _; eexists; reflexivity].
      * reflexivity.
      * intros wallet [= <-] ne. congruence.
    + rewrite E. split; [|split].
      * split; [intros [m D]; discriminate|].
        intros [D|[= D]]; [discriminate|]. subst w. discriminate.
      * intros [D|[= D]]; [discriminate|]. subst w. discriminate.
      * intros wallet [= <-] _. eexists. split; reflexivity.
  - cbn. split; [|split].
    + split; [now left | intros _; eexists; reflexivity].
    + reflexivity.
    + discriminate.
Qed.

(** X2. The network of the default client is the argument when that is
    truthy, else [NEXT_PUBLIC_NETWORK] when that is set and not empty, else
    "solana:devnet"; and its API base is the mainnet one exactly when that
    network is the string "solana:mainnet". *)
Theorem X2_network_selection (network : jsval) (config : SolPayConfig) :
  getDefaultClient env network = Ok config ->
  (truthy network = true -> Client.network config = network)
  /\ (truthy network = false ->
      forall s, NEXT_PUBLIC_NETWORK env = Some s -> s <> EmptyString ->
                Client.network config = JStr s)
  /\ (truthy network = false ->
      NEXT_PUBLIC_NETWORK env = None
      \/ NEXT_PUBLIC_NETWORK env = Some EmptyString ->
      Client.network config = JStr "solana:devnet")
  /\ (Client.network config = JStr "solana:mainnet" ->
      apiBase config
      = strOr (NEXT_PUBLIC_SOLPAY_API_BASE_MAINNET env) "https://www.solpay.cash")
  /\ (Client.network config <> JStr "solana:mainnet" ->
      apiBase config
      = strOr (NEXT_PUBLIC_SOLPAY_API_BASE env) "https://dev.solpay.cash").
Proof.
  unfold getDefaultClient.
  destruct (strOr (NEXT_PUBLIC_MERCHANT_WALLET env) EmptyString =? EmptyString);
    [discriminate|].
  intros [= <-]. cbn [Client.network apiBase].
  split; [|split; [|split; [|split]]].
  - intros T. unfold or at 2. rewrite T. unfold or. now rewrite T.
  - intros T s E ne. unfold or at 2. rewrite T, E. cbn.
    apply String.eqb_neq in ne. unfold or. cbn. now rewrite ne.
  - intros T [E|E]; unfold or at 2; rewrite T, E; reflexivity.
  - intros E. rewrite E. reflexivity.
  - intros ne.
    destruct (strictEqStr _ "solana:mainnet") eqn:S; [|reflexivity].
    apply strictEqStr_true in S. contradiction.
Qed.

End ClientConfiguration.

Section ClientConfigurationExamples.

Import Client.

(** With only the wallet set, the client asked for mainnet is made and
    carries the wallet. *)
Lemma X1_merchant_wallet_required_witness :
  exists config,
    getDefaultClient Sample.env (JStr "solana:mainnet") = Ok config
    /\ merchantWallet config = "7xKXtg2CW87d97TXJSDpbD5jBkheTqA83TZRuJosgAsU".
Proof.
  exact (proj2 (proj2 (X1_merchant_wallet_required Sample.env
                          (JStr "solana:mainnet")))
           _ eq_refl ltac:(discriminate)).
Defined.

(** With [NEXT_PUBLIC_NETWORK=solana:mainnet], a call without a network
    gets the mainnet client. *)
Lemma X2_network_selection_witness :
  let env := mkEnv None None (Some "wallet") (Some "solana:mainnet") None None in
  exists config,
    getDefaultClient env JUndefined = Ok config
    /\ Client.network config = JStr "solana:mainnet"
    /\ apiBase config = "https://www.solpay.cash".
Proof.
  intros env. eexists. split; [reflexivity|].
  destruct (X2_network_selection env JUndefined _ eq_refl)
    as (_ & N & _ & B & _).
  pose proof (N eq_refl "solana:mainnet" eq_refl ltac:(discriminate)) as E.
  split; [exact E | exact (B E)].
Defined.

End ClientConfigurationExamples.

(** ** The API client: requests and responses *)

Section ClientCalls.

Import Client.

Variable config : SolPayConfig.
Variable fetch : Http.Fetch jsval.


Lemma normalize_null params intent :
  intent = JNull \/ intent = JUndefined ->
  exists message, normalize config params intent = Throw message.
Proof. intros [->| ->]; eexists; reflexivity. Qed.

(** X3. Whatever the outcome, [createPaymentIntent] makes exactly one
    network call: a POST to [{apiBase}/api/v1/payment_intents] with the
    wallet in the [x-merchant-wallet] header and in the body.  The body
    carries the amount, the asset as [currency] and the client's network;
    its metadata always says [sdk: 'invoice-generator'], also when the
    caller's metadata has an [sdk] of its own, and keeps every other key of
    the caller's metadata. *)
Theorem X3_create_request (params : PaymentParams) :
  let request := createRequest config params in
  fst (createPaymentIntent config fetch params) = [CallFetch request]
  /\ networkCalls (fst (createPaymentIntent config fetch params)) = 1
  /\ Http.method request = "POST"
  /\ Http.url request = apiBase config ++ "/api/v1/payment_intents"
  /\ In ("x-merchant-wallet", merchantWallet config) (Http.headers request)
  /\ exists body,
       Http.body request = Some body
       /\ getOpt body "amount" = p_amount params
       /\ getOpt body "currency" = p_asset params
       /\ getOpt body "merchant_wallet" = JStr (merchantWallet config)
       /\ getOpt (getOpt body "x402_context") "network" = network config
       /\ getOpt (getOpt body "metadata") "sdk" = JStr "invoice-generator"
       /\ forall fields k,
            p_metadata params = JObj fields -> k <> "sdk" ->
            getOpt (getOpt body "metadata") k = lookup k fields.
Proof.
  cbn zeta. rewrite (createPaymentIntent_trace fetch).
  split; [reflexivity|]. split; [reflexivity|]. split; [reflexivity|].
  split; [reflexivity|]. split; [cbn; tauto|].
  eexists. split; [reflexivity|]. cbn [getOpt lookup String.eqb Ascii.eqb
                                       Bool.eqb].
  repeat (split; [reflexivity|]).
  split.
  - cbn. apply lookup_setField_same.
  - intros fields k E ne. cbn. rewrite E. cbn [spread].
    apply lookup_setField_other. congruence.
Qed.

(** A refusal that carries a message. *)
Lemma createPaymentIntent_refused (params : PaymentParams) response fields s :
  fetch (createRequest config params) = Ok response ->
  Http.ok response = false ->
  Http.json response = Ok (JObj fields) ->
  lookup "error" fields = JStr s -> s <> EmptyString ->
  snd (createPaymentIntent config fetch params) = Throw s.
Proof.
  intros F O J E ne. unfold createPaymentIntent, doFetch, iobind. rewrite F, O.
  cbn [negb]. unfold lift, throw, httpError, Http.json_catch. rewrite J.
  cbn. rewrite E. unfold or. cbn.
  apply String.eqb_neq in ne. now rewrite ne.
Qed.

(** X4. A response outside 200-299 never yields a result: the call throws.
    The message is "Unknown error" when the body is not JSON, the [error] of
    the body when the body is an object with a non-empty [error] string, and
    [HTTP {status}: {statusText}] when the body is an object without a
    truthy [error]. *)
Theorem X4_create_failure (params : PaymentParams) (response : Http.Response) :
  fetch (createRequest config params) = Ok response ->
  Http.ok response = false ->
  (exists message,
     snd (createPaymentIntent config fetch params) = Throw message)
  /\ (forall e, Http.json response = Throw e ->
       snd (createPaymentIntent config fetch params) = Throw "Unknown error")
  /\ (forall fields s,
        Http.json response = Ok (JObj fields) ->
        lookup "error" fields = JStr s -> s <> EmptyString ->
        snd (createPaymentIntent config fetch params) = Throw s)
  /\ (forall fields,
        Http.json response = Ok (JObj fields) ->
        truthy (lookup "error" fields) = false ->
        snd (createPaymentIntent config fetch params)
        = Throw ("HTTP " ++ show_Z (Http.status response) ++ ": "
                   ++ Http.statusText response)).
Proof.
  intros F O. unfold createPaymentIntent, doFetch, iobind. rewrite F, O.
  cbn [negb]. unfold lift, throw, httpError, Http.json_catch.
  split; [|split; [|split]].
  - destruct (Http.json response) as [v|e]; [|eexists; reflexivity].
    destruct (get v "error"); eexists; reflexivity.
  - intros e ->. reflexivity.
  - intros fields s -> E ne. cbn. rewrite E. unfold or. cbn.
    apply String.eqb_neq in ne. now rewrite ne.
  - intros fields -> T. cbn. unfold or. now rewrite T.
Qed.


(** X6. In the result of a call that returns, [intentId], [status],
    [settlement], [fees] and [x402] are the [id], [status], [settlement],
    [fees] and [x402_context] of the response as they came; the receipt is
    absent when the response has no truthy [receipt], and otherwise gives
    [sha256_hash] as [hash] and [transaction_signature] as [signature]. *)
Theorem X6_result_fields (params : PaymentParams) t r :
  createPaymentIntent config fetch params = (t, Ok r) ->
  exists response intent,
    fetch (createRequest config params) = Ok response
    /\ Http.json response = Ok intent
    /\ intentId r = getOpt intent "id"
    /\ status r = getOpt intent "status"
    /\ settlement r = getOpt intent "settlement"
    /\ res_fees r = getOpt intent "fees"
    /\ x402 r = getOpt intent "x402_context"
    /\ (truthy (getOpt intent "receipt") = false -> receipt r = None)
    /\ (truthy (getOpt intent "receipt") = true ->
        receipt r
        = Some {| r_url := getOpt (getOpt intent "receipt") "url";
                  r_hash := getOpt (getOpt intent "receipt") "sha256_hash";
                  r_memo := getOpt (getOpt intent "receipt") "memo";
                  r_signature :=
                    getOpt (getOpt intent "receipt") "transaction_signature" |}).
Proof.
  intros E.
  destruct (createPaymentIntent_ok _ _ _ _ _ E)
    as (response & intent & F & _ & J & N & _).
  exists response, intent. split; [exact F|]. split; [exact J|].
  revert N. unfold normalize.
  destruct (get intent "id") as [id|] eqn:Eid; [|discriminate].
  assert (G : forall k, get intent k = Ok (getOpt intent k))
    by (destruct intent; simpl in *; try discriminate; reflexivity).
  rewrite G in Eid. injection Eid as <-. rewrite !G. cbn [bind].
  destruct (truthy (getOpt intent "receipt")) eqn:T.
  - rewrite !(get_truthy _ _ T). cbn [bind]. intros [= <-]. cbn.
    repeat split. discriminate.
  - cbn [bind]. intros [= <-]. cbn. repeat split. discriminate.
Qed.

(** X7. [getPaymentIntent] makes exactly one network call, a GET of
    [{apiBase}/api/v1/payment_intents/{id}] with [cache: 'no-store']; on a
    response in 200-299 it returns the parsed body as it is, on any other
    response it throws, and when [fetch] rejects it rejects alike. *)
Theorem X7_get_payment_intent (id : string) :
  let request := getRequest config id in
  fst (getPaymentIntent config fetch id) = [CallFetch request]
  /\ Http.method request = "GET"
  /\ Http.cache request = Some "no-store"
  /\ Http.url request = apiBase config ++ "/api/v1/payment_intents/" ++ id
  /\ (forall response,
        fetch request = Ok response -> Http.ok response = true ->
        snd (getPaymentIntent config fetch id) = Http.json response)
  /\ (forall response,
        fetch request = Ok response -> Http.ok response = false ->
        exists message,
          snd (getPaymentIntent config fetch id) = Throw message)
  /\ (forall message,
        fetch request = Throw message ->
        snd (getPaymentIntent config fetch id) = Throw message).
Proof.
  cbn zeta. unfold getPaymentIntent, doFetch, iobind, lift, throw.
  destruct (fetch (getRequest config id)) as [response|m].
  - destruct (Http.ok response) eqn:O; cbn [negb].
    + cbn. repeat (split; [reflexivity|]). split; [|split].
      * now intros response' [= <-] _.
      * intros response' [= <-] O'. congruence.
      * discriminate.
    + destruct (httpError response) as [msg|msg]; cbn;
        repeat (split; [reflexivity|]); (split; [|split]);
        try discriminate;
        try (intros response' [= <-] O'; congruence);
        intros response' _ _; eexists; reflexivity.
  - cbn. repeat (split; [reflexivity|]).
    split; [discriminate|]. split; [discriminate|]. now intros message [= <-].
Qed.

End ClientCalls.

Section ClientCallsExamples.

Import Client.

(** The caller's [sdk] is overwritten, its [invoice_number] kept. *)
Lemma X3_create_request_witness :
  exists body,
    Http.body (createRequest Sample.config Sample.taggedParams) = Some body
    /\ getOpt (getOpt body "metadata") "sdk" = JStr "invoice-generator"
    /\ getOpt (getOpt body "metadata") "invoice_number" = JStr "INV-1".
Proof.
  destruct (X3_create_request Sample.config
              (Sample.always jsval Sample.refusal) Sample.taggedParams)
    as (_ & _ & _ & _ & _ & body & B & _ & _ & _ & _ & S & K).
  exists body. split; [exact B|]. split; [exact S|].
  exact (K _ "invoice_number" eq_refl ltac:(discriminate)).
Defined.

(** A refusal with a message, and an outage without one. *)
Lemma X4_create_failure_witness :
  snd (createPaymentIntent Sample.config (Sample.always jsval Sample.refusal)
         Sample.params)
  = Throw "Amount too small"
  /\ snd (createPaymentIntent Sample.config (Sample.always jsval Sample.outage)
            Sample.params)
     = Throw "HTTP 503: Service Unavailable".
Proof.
  split.
  - destruct (X4_create_failure Sample.config
                (Sample.always jsval Sample.refusal) Sample.params
                Sample.refusal eq_refl eq_refl) as (_ & _ & S & _).
    exact (S _ "Amount too small" eq_refl eq_refl ltac:(discriminate)).
  - destruct (X4_create_failure Sample.config
                (Sample.always jsval Sample.outage) Sample.params
                Sample.outage eq_refl eq_refl) as (_ & _ & _ & H).
    exact (H _ eq_refl eq_refl).
Defined.


(** The receipt of a paid intent. *)
Lemma X6_result_fields_witness :
  exists t r,
    createPaymentIntent Sample.config
      (Sample.always jsval (Sample.okResponse Sample.paidIntent))
      Sample.params = (t, Ok r)
    /\ intentId r = JStr "pi_1"
    /\ receipt r
       = Some (mkReceipt (JStr "https://dev.solpay.cash/r/1") (JStr "ab12")
                 (JStr "invoice") (JStr "5sig")).
Proof.
  eexists. eexists. split; [reflexivity|].
  destruct (X6_result_fields Sample.config
              (Sample.always jsval (Sample.okResponse Sample.paidIntent))
              Sample.params _ _ eq_refl)
    as (response & intent & F & J & I & _ & _ & _ & _ & _ & R).
  injection F as <-. injection J as <-.
  split; [exact I | exact (R eq_refl)].
Defined.

(** Reading an intent back, and reading one that is not there. *)
Lemma X7_get_payment_intent_witness :
  snd (getPaymentIntent Sample.config
         (Sample.always jsval (Sample.okResponse (Sample.intent "pi_1" "pending")))
         "pi_1")
  = Ok (Sample.intent "pi_1" "pending")
  /\ exists message,
       snd (getPaymentIntent Sample.config
              (Sample.always jsval Sample.refusal) "pi_1")
       = Throw message.
Proof.
  split.
  - destruct (X7_get_payment_intent Sample.config
                (Sample.always jsval
                   (Sample.okResponse (Sample.intent "pi_1" "pending")))
                "pi_1") as (_ & _ & _ & _ & O & _).
    exact (O _ eq_refl eq_refl).
  - destruct (X7_get_payment_intent Sample.config
                (Sample.always jsval Sample.refusal) "pi_1")
      as (_ & _ & _ & _ & _ & N & _).
    exact (N _ eq_refl eq_refl).
Defined.

End ClientCallsExamples.

Section FallbackAgreement.

Import Client.

(** X8. For a client that is not the mainnet one, the payment URL that
    [createPaymentIntent] makes up for an intent without [payment_url] is
    the URL the display page makes up when it is opened for that intent's
    id and the body it fetches has no [payment_url] either. *)
Theorem X8_fallbacks_agree env network config params intent r id fields :
  getDefaultClient env network = Ok config ->
  Client.network config <> JStr "solana:mainnet" ->
  normalize config params intent = Ok r ->
  truthy (getOpt intent "payment_url") = false ->
  getOpt intent "id" = JStr id ->
  truthy (lookup "payment_url" fields) = false ->
  exists inv,
    InvoicePage.addFallback env id (JObj fields) = Ok inv
    /\ getOpt inv "payment_url" = paymentUrl r
    /\ paymentUrl r
       = JStr (strOr (NEXT_PUBLIC_SOLPAY_API_BASE env) "https://dev.solpay.cash"
                 ++ "/pay/" ++ id).
Proof.
  intros G ne N P I Q.
  destruct (normalize_ok _ _ _ _ N) as (_ & _ & U & _).
  rewrite U. unfold or.
  rewrite P, I, (getDefaultClient_devnet_base env network config G ne).
  cbn [toString].
  unfold InvoicePage.addFallback. cbn [get bind]. rewrite Q. cbn [negb assign].
  eexists. split; [reflexivity|]. split; [|reflexivity].
  cbn [getOpt]. rewrite lookup_setField_same. reflexivity.
Qed.

(** The default client and the page for the intent "pi_1". *)
Lemma X8_fallbacks_agree_witness :
  exists r inv,
    normalize Sample.config Sample.params (Sample.bareIntent "pi_1" "pending")
    = Ok r
    /\ InvoicePage.addFallback Sample.env "pi_1"
         (JObj [("id", JStr "pi_1"); ("status", JStr "pending")])
       = Ok inv
    /\ getOpt inv "payment_url" = paymentUrl r
    /\ paymentUrl r = JStr "https://dev.solpay.cash/pay/pi_1".
Proof.
  eexists.
  destruct (X8_fallbacks_agree Sample.env JUndefined Sample.config Sample.params
              (Sample.bareIntent "pi_1" "pending") _ "pi_1"
              [("id", JStr "pi_1"); ("status", JStr "pending")]
              eq_refl ltac:(discriminate) eq_refl eq_refl eq_refl eq_refl)
    as (inv & A & E & U).
  exists inv. split; [reflexivity|]. split; [exact A|].
  split; [exact E | exact U].
Defined.

End FallbackAgreement.

(** ** The proxy endpoint: every request *)

Lemma JS_null_or_not (v : jsval) :
  (v = JNull \/ v = JUndefined) \/ (v <> JNull /\ v <> JUndefined).
Proof. destruct v; (left; tauto) || (right; split; discriminate). Qed.

Section ProxyResponses.

Import Route.

Variable env : Env.
Variable fetch : Http.Fetch jsval.

(** The delegation of a request that has passed validation. *)
Lemma tryBlock_valid b :
  b <> JNull -> b <> JUndefined ->
  truthy (getOpt b "amount") = true ->
  truthy (getOpt b "asset") = true ->
  truthy (getOpt b "network") = false
  \/ arrayIncludes networks (getOpt b "network") = true ->
  tryBlock env fetch (Ok b) =
  iobind (lift (Client.getDefaultClient env (getOpt b "network"))) (fun client =>
  iobind (Client.createPaymentIntent client fetch
            (Client.mkParams (getOpt b "amount") (getOpt b "asset")
               (getOpt b "customerEmail") (getOpt b "metadata")))
         (fun result => ret (mkResponse 200 (ResultBody result)))).
Proof.
  intros nn nu A S N. rewrite (tryBlock_body env fetch b nn nu). cbn zeta.
  rewrite A, S. cbn [negb orb].
  destruct N as [N|N]; rewrite N; [reflexivity|].
  cbn [negb]. now rewrite andb_false_r.
Qed.

(** How the [try] block can end: without a network call, by throwing or
    with a 400 and an error; or after the one call of the client, by
    throwing or with a 200 and the client's result. *)
Lemma tryBlock_outcomes request_json :
  let (t, r) := tryBlock env fetch request_json in
  (t = []
   /\ ((exists message, r = Throw message)
       \/ exists error, r = Ok (mkResponse 400 (ErrorBody error))))
  \/ ((exists client params, t = [CallFetch (Client.createRequest client params)])
      /\ ((exists message, r = Throw message)
          \/ exists result, r = Ok (mkResponse 200 (ResultBody result)))).
Proof.
  destruct request_json as [b|m];
    [|left; split; [reflexivity | left; eexists; reflexivity]].
  destruct (JS_null_or_not b) as [[-> | ->]|[nn nu]];
    try (left; split; [reflexivity | left; eexists; reflexivity]).
  rewrite (tryBlock_body env fetch b nn nu). cbn zeta.
  destruct (negb (truthy (getOpt b "amount")) || negb (truthy (getOpt b "asset")));
    [left; split; [reflexivity | right; eexists; reflexivity]|].
  destruct (truthy (getOpt b "network")
            && negb (arrayIncludes networks (getOpt b "network")));
    [left; split; [reflexivity | right; eexists; reflexivity]|].
  destruct (Client.getDefaultClient env (getOpt b "network")) as [client|m].
  - rewrite iobind_lift_ok. unfold iobind, ret.
    pose proof (createPaymentIntent_trace fetch client
                  (Client.mkParams (getOpt b "amount") (getOpt b "asset")
                     (getOpt b "customerEmail") (getOpt b "metadata"))) as T.
    destruct (Client.createPaymentIntent client fetch _) as [t [r|m]];
      cbn in T; subst t; right; (split; [eexists; eexists; reflexivity|]).
    + right. eexists. reflexivity.
    + left. eexists. reflexivity.
  - left. split; [reflexivity | left; eexists; reflexivity].
Qed.

(** X9. Whatever the request, the endpoint answers 200, 400 or 500; the
    body is a payment result exactly when the status is 200 and an error
    otherwise; it makes no network call at all or the single call of the
    client, and none when it answers 400. *)
Theorem X9_proxy_response_shape request_json :
  let t := fst (POST env fetch request_json) in
  let response := snd (POST env fetch request_json) in
  (status response = 200%Z \/ status response = 400%Z
   \/ status response = 500%Z)
  /\ ((exists result, body response = ResultBody result) <->
      status response = 200%Z)
  /\ (t = []
      \/ exists client params,
           t = [CallFetch (Client.createRequest client params)])
  /\ (networkCalls t <= 1)%nat
  /\ (status response = 400%Z -> t = []).
Proof.
  cbn zeta. unfold POST. pose proof (tryBlock_outcomes request_json) as O.
  destruct (tryBlock env fetch request_json) as [t r].
  destruct O as [(-> & [[m ->]|[e ->]])|((client & params & ->) & [[m ->]|[x ->]])];
    cbn.
  - split; [tauto|]. split; [split; [intros [x E]|]; discriminate|].
    split; [now left|]. split; [lia | reflexivity].
  - split; [tauto|]. split; [split; [intros [x E]|]; discriminate|].
    split; [now left|]. split; [lia | reflexivity].
  - split; [tauto|]. split; [split; [intros [x E]|]; discriminate|].
    split; [right; eexists; eexists; reflexivity|]. split; [lia | discriminate].
  - split; [tauto|]. split; [split; [reflexivity | eexists; reflexivity]|].
    split; [right; eexists; eexists; reflexivity|]. split; [lia | discriminate].
Qed.

(** X10. A request that passes validation while the merchant wallet is not
    configured is answered 500 with the message that names the missing
    variable, and nothing is sent upstream. *)
Theorem X10_proxy_without_wallet b :
  b <> JNull -> b <> JUndefined ->
  truthy (getOpt b "amount") = true ->
  truthy (getOpt b "asset") = true ->
  truthy (getOpt b "network") = false
  \/ arrayIncludes networks (getOpt b "network") = true ->
  NEXT_PUBLIC_MERCHANT_WALLET env = None
  \/ NEXT_PUBLIC_MERCHANT_WALLET env = Some EmptyString ->
  POST env fetch (Ok b)
  = ([], mkResponse 500
           (ErrorBody "NEXT_PUBLIC_MERCHANT_WALLET environment variable is not set. Please add your Solana wallet address to .env.local")).
Proof.
  intros nn nu A S N W. unfold POST.
  rewrite (tryBlock_valid b nn nu A S N).
  rewrite (getDefaultClient_no_wallet env (getOpt b "network") W).
  reflexivity.
Qed.

(** X11. When a request passes validation and the upstream refuses it, the
    endpoint answers 500 and passes the upstream's words on: the [error] of
    a refusal whose body is an object with a non-empty [error] string, and
    the message of a [fetch] that rejects; an empty message becomes "Failed
    to create invoice". *)
Theorem X11_proxy_passes_errors_on b client :
  b <> JNull -> b <> JUndefined ->
  truthy (getOpt b "amount") = true ->
  truthy (getOpt b "asset") = true ->
  truthy (getOpt b "network") = false
  \/ arrayIncludes networks (getOpt b "network") = true ->
  Client.getDefaultClient env (getOpt b "network") = Ok client ->
  let request :=
    Client.createRequest client
      (Client.mkParams (getOpt b "amount") (getOpt b "asset")
         (getOpt b "customerEmail") (getOpt b "metadata")) in
  (forall response fields s,
     fetch request = Ok response -> Http.ok response = false ->
     Http.json response = Ok (JObj fields) ->
     lookup "error" fields = JStr s -> s <> EmptyString ->
     POST env fetch (Ok b)
     = ([CallFetch request], mkResponse 500 (ErrorBody s)))
  /\ (forall message,
        fetch request = Throw message ->
        POST env fetch (Ok b)
        = ([CallFetch request],
           mkResponse 500
             (ErrorBody (if message =? EmptyString
                         then "Failed to create invoice" else message)))).
Proof.
  intros nn nu A S N G request. unfold POST.
  rewrite (tryBlock_valid b nn nu A S N), G, iobind_lift_ok.
  set (params := Client.mkParams _ _ _ _) in *.
  pose proof (createPaymentIntent_trace fetch client params) as T.
  split.
  - intros response fields s F O J E ne.
    pose proof (createPaymentIntent_refused client fetch params response
                  fields s F O J E ne) as X.
    unfold iobind.
    destruct (Client.createPaymentIntent client fetch params) as [t r].
    cbn in T, X. subst t r. unfold catchBlock.
    apply String.eqb_neq in ne. now rewrite ne.
  - intros message F. unfold iobind.
    unfold Client.createPaymentIntent, doFetch, iobind. fold request.
    rewrite F. reflexivity.
Qed.


End ProxyResponses.

Section ProxyResponsesExamples.

Import Route.

(** A request that is refused at validation makes no call. *)
Lemma X9_proxy_response_shape_witness :
  fst (POST Sample.env (Sample.always jsval Sample.refusal)
         (Ok (JObj [("amount", JNum 0); ("asset", JStr "USDC")])))
  = [].
Proof.
  destruct (X9_proxy_response_shape Sample.env
              (Sample.always jsval Sample.refusal)
              (Ok (JObj [("amount", JNum 0); ("asset", JStr "USDC")])))
    as (_ & _ & _ & _ & V).
  exact (V eq_refl).
Defined.

Lemma X10_proxy_without_wallet_witness :
  POST (mkEnv None None None None None None)
    (Sample.always jsval (Sample.okResponse (Sample.intent "pi_1" "pending")))
    (Ok Sample.validBody)
  = ([], mkResponse 500
           (ErrorBody "NEXT_PUBLIC_MERCHANT_WALLET environment variable is not set. Please add your Solana wallet address to .env.local")).
Proof.
  apply X10_proxy_without_wallet; try discriminate; try reflexivity.
  - right. reflexivity.
  - left. reflexivity.
Defined.

Lemma X11_proxy_passes_errors_on_witness :
  snd (POST Sample.env (Sample.always jsval Sample.refusal) (Ok Sample.validBody))
  = mkResponse 500 (ErrorBody "Amount too small")
  /\ snd (POST Sample.env (fun _ => Throw "fetch failed") (Ok Sample.validBody))
     = mkResponse 500 (ErrorBody "fetch failed").
Proof.
  split.
  - destruct (X11_proxy_passes_errors_on Sample.env
                (Sample.always jsval Sample.refusal) Sample.validBody Sample.config
                ltac:(discriminate) ltac:(discriminate) eq_refl eq_refl
                (or_intror eq_refl) eq_refl) as [R _].
    rewrite (R Sample.refusal _ "Amount too small" eq_refl eq_refl eq_refl
               eq_refl ltac:(discriminate)).
    reflexivity.
  - destruct (X11_proxy_passes_errors_on Sample.env
                (fun _ => Throw "fetch failed") Sample.validBody Sample.config
                ltac:(discriminate) ltac:(discriminate) eq_refl eq_refl
                (or_intror eq_refl) eq_refl) as [_ T].
    rewrite (T "fetch failed" eq_refl). reflexivity.
Defined.


End ProxyResponsesExamples.

(** ** The invoice form: submission *)

Section FormSubmission.

Import Form.

Context {num : Type} `{JsNumber num}.

Variable now : Z.
Variable iso : string.
Variable fetch : Http.Fetch (InvoiceBody num).

(** The first check of a submission, in terms of the described items. *)
Lemma first_check (items : list (LineItem num)) :
  ((length items =? 0)%nat || forallb noDescription items)
  = negb (existsb (fun item => negb (noDescription item)) items).
Proof.
  induction items as [|item rest IH]; [reflexivity|]. cbn.
  destruct (noDescription item); cbn; [|reflexivity].
  rewrite <- IH. now destruct rest.
Qed.

(** A submission that has passed both checks, spelled out. *)
Lemma tryBlock_sent (st : State num) :
  existsb (fun item => negb (noDescription item)) (lineItems st) = true ->
  leb (calculateSubtotal (lineItems st)) (ofZ 0) = false ->
  let request :=
    submitRequest now iso st
      (round (mul (calculateSubtotal (lineItems st)) (ofZ 1000000))) in
  tryBlock now iso fetch st =
  match fetch request with
  | Throw message => ([CallFetch request], Throw message)
  | Ok response =>
      match Http.json response with
      | Throw message => ([CallFetch request], Throw message)
      | Ok data =>
          if Http.ok response then
            match get data "intentId" with
            | Ok intentId =>
                ([CallFetch request;
                  RouterPush ("/invoice/" ++ toString intentId)], Ok tt)
            | Throw message => ([CallFetch request], Throw message)
            end
          else
            match get data "error" with
            | Ok e =>
                ([CallFetch request],
                 Throw (toString (or e (JStr "Failed to create invoice"))))
            | Throw message => ([CallFetch request], Throw message)
            end
      end
  end.
Proof.
  intros D L request. unfold tryBlock. rewrite first_check, D, L. cbn [negb].
  fold request. unfold doFetch, iobind, lift, throw, push.
  destruct (fetch request) as [response|m]; [|reflexivity].
  destruct (Http.ok response); cbn [negb];
    destruct (Http.json response) as [data|m]; try reflexivity.
  - now destruct (get data "intentId").
  - now destruct (get data "error").
Qed.

Lemma setters_keep_form (st : State num) amount :
  submitRequest now iso (setLoading true (setError EmptyString st)) amount
  = submitRequest now iso st amount.
Proof. reflexivity. Qed.

(** X13. A submission makes a network call exactly when some line item has
    a description and the subtotal is not [<= 0], and then it makes one;
    so it also makes one when the subtotal is not a number. *)
Theorem X13_submission_calls (st : State num) :
  networkCalls (fst (handleSubmit now iso fetch st))
  = if existsb (fun item => negb (noDescription item)) (lineItems st)
       && negb (leb (calculateSubtotal (lineItems st)) (ofZ 0))
    then 1 else 0.
Proof.
  rewrite handleSubmit_trace.
  destruct (existsb (fun item => negb (noDescription item)) (lineItems st))
    eqn:D; cbn [andb].
  - destruct (leb (calculateSubtotal (lineItems st)) (ofZ 0)) eqn:L;
      cbn [negb].
    + unfold tryBlock. cbn [lineItems setLoading setError].
      now rewrite first_check, D, L.
    + rewrite (tryBlock_sent (setLoading true (setError EmptyString st)) D L).
      cbn zeta.
      destruct (fetch _) as [response|m]; [|reflexivity].
      destruct (Http.json response) as [data|m]; [|reflexivity].
      destruct (Http.ok response);
        [destruct (get data "intentId") | destruct (get data "error")];
        reflexivity.
  - unfold tryBlock. cbn [lineItems setLoading setError].
    now rewrite first_check, D.
Qed.

(** X14. When some line item has a description but the subtotal is [<= 0],
    the submission ends with the error "Invoice total must be greater than
    0", the form is enabled again, and nothing is sent. *)
Theorem X14_total_check (st : State num) :
  existsb (fun item => negb (noDescription item)) (lineItems st) = true ->
  leb (calculateSubtotal (lineItems st)) (ofZ 0) = true ->
  handleSubmit now iso fetch st
  = ([], setLoading false
           (setError "Invoice total must be greater than 0" st)).
Proof.
  intros D L. unfold handleSubmit, tryBlock.
  cbn [lineItems setLoading setError]. rewrite first_check, D, L.
  reflexivity.
Qed.

(** X15. In the request of a submission the amount is computed from every
    line item, described or not, while [line_items] lists only the items
    that have a description, in their order; the asset is "USDC", the
    network is the one selected, the invoice number is "INV-" followed by
    the time of submission, and an empty email or note is left out. *)
Theorem X15_request_content (st : State num) :
  existsb (fun item => negb (noDescription item)) (lineItems st) = true ->
  leb (calculateSubtotal (lineItems st)) (ofZ 0) = false ->
  exists request body rest,
    fst (handleSubmit now iso fetch st) = CallFetch request :: rest
    /\ Http.body request = Some body
    /\ amount body
       = round (mul (calculateSubtotal (lineItems st)) (ofZ 1000000))
    /\ line_items (metadata body)
       = filter (fun item => negb (noDescription item)) (lineItems st)
    /\ Forall (fun item => description item <> EmptyString)
         (line_items (metadata body))
    /\ asset body = "USDC"
    /\ b_network body = networkName (network st)
    /\ invoice_number (metadata body) = "INV-" ++ show_Z now
    /\ created_at (metadata body) = iso
    /\ (customerEmail st = EmptyString -> b_customerEmail body = None)
    /\ (customerEmail st <> EmptyString ->
        b_customerEmail body = Some (customerEmail st))
    /\ (notes st = EmptyString -> m_notes (metadata body) = None).
Proof.
  intros D L.
  destruct (iobind_doFetch fetch
              (submitRequest now iso st
                 (round (mul (calculateSubtotal (lineItems st)) (ofZ 1000000))))
              (fun response =>
                 if negb (Http.ok response) then
                   errorData <- lift (Http.json response) ;;
                   e <- lift (get errorData "error") ;;
                   throw (toString (or e (JStr "Failed to create invoice")))
                 else
                   data <- lift (Http.json response) ;;
                   intentId <- lift (get data "intentId") ;;
                   push ("/invoice/" ++ toString intentId))) as [rest E].
  eexists. eexists. exists rest. split.
  { rewrite handleSubmit_trace. unfold tryBlock.
    cbn [lineItems setLoading setError]. rewrite first_check, D, L.
    cbn [negb]. rewrite setters_keep_form. exact E. }
  split; [reflexivity|]. cbn.
  split; [reflexivity|]. split; [reflexivity|].
  split.
  { apply Forall_forall. intros item I. apply filter_In in I as [_ N].
    unfold noDescription in N. intros Z. rewrite Z in N. discriminate. }
  split; [reflexivity|]. split; [reflexivity|]. split; [reflexivity|].
  split; [reflexivity|]. unfold orUndefined. split; [|split].
  - now intros ->.
  - intros ne. apply String.eqb_neq in ne. now rewrite ne.
  - now intros ->.
Qed.

(** X16. After the request of a submission: a response in 200-299 whose
    body is JSON other than [null] is followed by the navigation to
    [/invoice/{intentId}], for the string [intentId] of the body (to
    [/invoice/undefined] when the body has none), with no error and the
    form still disabled; any other response with a JSON object as body ends
    with that body's [error] when it is a non-empty string, or with "Failed
    to create invoice" when the body has no [error] or a falsy one, and no
    navigation; a [fetch] that rejects ends with its message. *)
Theorem X16_after_the_request (st : State num) :
  existsb (fun item => negb (noDescription item)) (lineItems st) = true ->
  leb (calculateSubtotal (lineItems st)) (ofZ 0) = false ->
  let request :=
    submitRequest now iso st
      (round (mul (calculateSubtotal (lineItems st)) (ofZ 1000000))) in
  (forall response data,
     fetch request = Ok response -> Http.ok response = true ->
     Http.json response = Ok data -> data <> JNull -> data <> JUndefined ->
     (forall id,
        getOpt data "intentId" = JStr id ->
        handleSubmit now iso fetch st
        = ([CallFetch request; RouterPush ("/invoice/" ++ id)],
           setLoading true (setError EmptyString st)))
     /\ (getOpt data "intentId" = JUndefined ->
         handleSubmit now iso fetch st
         = ([CallFetch request; RouterPush "/invoice/undefined"],
            setLoading true (setError EmptyString st))))
  /\ (forall response fields,
        fetch request = Ok response -> Http.ok response = false ->
        Http.json response = Ok (JObj fields) ->
        (forall s,
           lookup "error" fields = JStr s -> s <> EmptyString ->
           handleSubmit now iso fetch st
           = ([CallFetch request], setLoading false (setError s st)))
        /\ (truthy (lookup "error" fields) = false ->
            handleSubmit now iso fetch st
            = ([CallFetch request],
               setLoading false (setError "Failed to create invoice" st))))
  /\ (forall message,
        fetch request = Throw message ->
        handleSubmit now iso fetch st
        = ([CallFetch request], setLoading false (setError message st))).
Proof.
  intros D L request. unfold handleSubmit.
  rewrite (tryBlock_sent (setLoading true (setError EmptyString st)) D L).
  cbn zeta. rewrite setters_keep_form. cbn [lineItems setLoading setError].
  fold request. split; [|split].
  - intros response data -> O -> nn nu. rewrite O.
    assert (G : get data "intentId" = Ok (getOpt data "intentId"))
      by (destruct data; try congruence; reflexivity).
    rewrite G. split.
    + intros id ->. reflexivity.
    + intros ->. reflexivity.
  - intros response fields -> O ->. rewrite O. cbn [get]. split.
    + intros s -> ne. unfold or. cbn [truthy].
      apply String.eqb_neq in ne. rewrite ne. reflexivity.
    + intros T. unfold or. rewrite T. reflexivity.
  - intros message ->. reflexivity.
Qed.

End FormSubmission.

Section FormSubmissionExamples.

Import Form Exact.

(** A described item of price 0: the total check refuses it. *)
Lemma X14_total_check_witness :
  handleSubmit 1700000000000 "2023-11-14T22:13:20.000Z"
    (Sample.always _ (Sample.okResponse (Sample.intent "pi_1" "pending")))
    (Sample.form [Sample.gift])
  = ([], Form.mkState [Sample.gift] EmptyString EmptyString Devnet false
           "Invoice total must be greater than 0").
Proof.
  exact (@X14_total_check _ Q_JsNumber 1700000000000 "2023-11-14T22:13:20.000Z"
           (Sample.always _ (Sample.okResponse (Sample.intent "pi_1" "pending")))
           (Sample.form [Sample.gift]) eq_refl eq_refl).
Defined.

(** Two widgets at 19.99 and an item of 5 without description: 44.98 is
    charged, and only the widgets are listed. *)
Lemma X15_request_content_witness :
  exists request body rest,
    fst (handleSubmit 1700000000000 "2023-11-14T22:13:20.000Z"
           (Sample.always _ (Sample.okResponse (Sample.intent "pi_1" "pending")))
           (Sample.form [Sample.widget; Sample.unnamed]))
    = CallFetch request :: rest
    /\ Http.body request = Some body
    /\ amount body = QArith_base.inject_Z 44980000
    /\ line_items (metadata body) = [Sample.widget].
Proof.
  destruct (@X15_request_content _ Q_JsNumber 1700000000000 "2023-11-14T22:13:20.000Z"
              (Sample.always _ (Sample.okResponse (Sample.intent "pi_1" "pending")))
              (Sample.form [Sample.widget; Sample.unnamed]) eq_refl eq_refl)
    as (request & body & rest & E & B & A & Li & _).
  exists request, body, rest. split; [exact E|]. split; [exact B|].
  split; [rewrite A; reflexivity | exact Li].
Defined.

(** The proxy's answer with an [intentId] leads to the invoice page; its
    refusal is shown. *)
Lemma X16_after_the_request_witness :
  handleSubmit 1700000000000 "2023-11-14T22:13:20.000Z"
    (Sample.always _ (Sample.okResponse (JObj [("intentId", JStr "pi_1")])))
    (Sample.form [Sample.widget])
  = ([CallFetch
        (submitRequest 1700000000000 "2023-11-14T22:13:20.000Z"
           (Sample.form [Sample.widget])
           (round (mul (calculateSubtotal [Sample.widget]) (ofZ 1000000))));
      RouterPush "/invoice/pi_1"],
     Form.mkState [Sample.widget] EmptyString EmptyString Devnet true
       EmptyString)
  /\ error (snd (handleSubmit 1700000000000 "2023-11-14T22:13:20.000Z"
                   (Sample.always _ Sample.refusal)
                   (Sample.form [Sample.widget])))
     = "Amount too small".
Proof.
  split.
  - destruct (@X16_after_the_request _ Q_JsNumber 1700000000000 "2023-11-14T22:13:20.000Z"
                (Sample.always _
                   (Sample.okResponse (JObj [("intentId", JStr "pi_1")])))
                (Sample.form [Sample.widget]) eq_refl eq_refl) as (O & _).
    destruct (O _ (JObj [("intentId", JStr "pi_1")]) eq_refl eq_refl eq_refl
                ltac:(discriminate) ltac:(discriminate)) as (S & _).
    exact (S "pi_1" eq_refl).
  - destruct (@X16_after_the_request _ Q_JsNumber 1700000000000 "2023-11-14T22:13:20.000Z"
                (Sample.always _ Sample.refusal)
                (Sample.form [Sample.widget]) eq_refl eq_refl) as (_ & N & _).
    destruct (N _ _ eq_refl eq_refl eq_refl) as (S & _).
    rewrite (S "Amount too small" eq_refl ltac:(discriminate)). reflexivity.
Defined.

End FormSubmissionExamples.

(** ** The invoice form: the list of line items *)

Section LineItems.

Import Form.

Context {num : Type} `{JsNumber num}.

Lemma setLineItems_same (st : State num) : setLineItems (lineItems st) st = st.
Proof. now destruct st. Qed.

Lemma filter_all {A : Type} (p : A -> bool) (l : list A) :
  Forall (fun x => p x = true) l -> filter p l = l.
Proof.
  induction 1 as [|x l P _ IH]; [reflexivity|]. cbn. now rewrite P, IH.
Qed.

Lemma other_id (i : string) (item : LineItem num) :
  negb (id item =? i) = true <-> id item <> i.
Proof. rewrite negb_true_iff. apply String.eqb_neq. Qed.

(** X17. [removeLineItem] removes every item that carries the id, also
    when several do, and keeps all the others; with an id that no item
    carries it changes nothing; and it touches nothing but the list. *)
Theorem X17_remove_line_item (i : string) (st : State num) :
  (forall item,
     In item (lineItems (removeLineItem i st)) <->
     In item (lineItems st) /\ id item <> i)
  /\ (Forall (fun item => id item <> i) (lineItems st) ->
      removeLineItem i st = st)
  /\ removeLineItem i (removeLineItem i st) = removeLineItem i st
  /\ (length (lineItems (removeLineItem i st)) <= length (lineItems st))%nat
  /\ customerEmail (removeLineItem i st) = customerEmail st
  /\ notes (removeLineItem i st) = notes st
  /\ network (removeLineItem i st) = network st
  /\ error (removeLineItem i st) = error st.
Proof.
  unfold removeLineItem. cbn [lineItems setLineItems].
  split; [|split; [|split; [|split]]].
  - intros item. rewrite filter_In, other_id. reflexivity.
  - intros A. rewrite filter_all; [apply setLineItems_same|].
    eapply Forall_impl; [|exact A]. intros item. apply other_id.
  - unfold setLineItems. cbn. f_equal.
    apply filter_all. apply Forall_forall. intros item I.
    now apply filter_In in I.
  - apply filter_length_le.
  - repeat split.
Qed.

(** X18. [addLineItem] puts one blank item (no description, quantity 1,
    price 0) at the end, with the time as its id, and keeps the items there
    were; as the new item has no description, a form that would be refused
    for want of a described item is still refused after it. *)
Theorem X18_add_line_item (t : Z) (st : State num) :
  lineItems (addLineItem t st)
  = (lineItems st
       ++ [mkLineItem (show_Z t) EmptyString (ofZ 1) (ofZ 0)])%list
  /\ length (lineItems (addLineItem t st)) = S (length (lineItems st))
  /\ existsb (fun item => negb (noDescription item))
       (lineItems (addLineItem t st))
     = existsb (fun item => negb (noDescription item)) (lineItems st)
  /\ forall now iso (fetch : Http.Fetch (InvoiceBody num)),
       existsb (fun item => negb (noDescription item)) (lineItems st) = false ->
       fst (handleSubmit now iso fetch (addLineItem t st)) = []
       /\ error (snd (handleSubmit now iso fetch (addLineItem t st)))
          = "Please add at least one line item".
Proof.
  split; [reflexivity|]. split.
  { cbn. rewrite length_app. cbn. lia. }
  assert (E : existsb (fun item => negb (noDescription item))
                (lineItems (addLineItem t st))
              = existsb (fun item => negb (noDescription item)) (lineItems st)).
  { cbn. rewrite existsb_app. cbn. now rewrite !orb_false_r. }
  split; [exact E|].
  intros now iso fetch D. unfold handleSubmit, tryBlock.
  cbn [lineItems setLoading setError]. rewrite first_check, E, D.
  split; reflexivity.
Qed.

(** X19. Removing the item that was just added gives the form back,
    provided no other item carries the id, which is the time of the
    addition; two items added at the same time carry the same id, and
    removing either removes both. *)
Theorem X19_add_then_remove (t : Z) (st : State num) :
  Forall (fun item => id item <> show_Z t) (lineItems st) ->
  removeLineItem (show_Z t) (addLineItem t st) = st
  /\ removeLineItem (show_Z t) (addLineItem t (addLineItem t st)) = st.
Proof.
  intros A.
  assert (F : filter (fun item : LineItem num => negb (id item =? show_Z t))
                (lineItems st) = lineItems st).
  { apply filter_all. eapply Forall_impl; [|exact A].
    intros item. apply other_id. }
  unfold removeLineItem, addLineItem, setLineItems. cbn.
  rewrite !filter_app, F. cbn. rewrite String.eqb_refl. cbn.
  rewrite !app_nil_r. split; now destruct st.
Qed.

(** X20. [updateLineItem] keeps the number and the order of the items;
    it leaves the items with another id as they are and, for a field other
    than the id, all ids; an id that no item carries changes nothing; and
    giving a non-empty description to an item that is there makes a form
    with a described item. *)
Theorem X20_update_line_item (i : string) (fv : FieldValue num)
    (st : State num) :
  length (lineItems (updateLineItem i fv st)) = length (lineItems st)
  /\ (forall n item,
        nth_error (lineItems st) n = Some item -> id item <> i ->
        nth_error (lineItems (updateLineItem i fv st)) n = Some item)
  /\ (forall n item,
        nth_error (lineItems st) n = Some item -> id item = i ->
        nth_error (lineItems (updateLineItem i fv st)) n
        = Some (withField item fv))
  /\ ((forall v, fv <> IdValue v) ->
      map id (lineItems (updateLineItem i fv st)) = map id (lineItems st))
  /\ (Forall (fun item => id item <> i) (lineItems st) ->
      updateLineItem i fv st = st)
  /\ (forall v,
        fv = DescriptionValue v -> v <> EmptyString ->
        Exists (fun item => id item = i) (lineItems st) ->
        existsb (fun item => negb (noDescription item))
          (lineItems (updateLineItem i fv st)) = true).
Proof.
  unfold updateLineItem. cbn [lineItems setLineItems].
  split; [apply length_map|]. split; [|split; [|split; [|split]]].
  - intros n item E ne. rewrite nth_error_map, E. cbn.
    apply String.eqb_neq in ne. now rewrite ne.
  - intros n item E e. rewrite nth_error_map, E. cbn.
    apply String.eqb_eq in e. now rewrite e.
  - intros N. rewrite map_map. apply map_ext. intros item.
    destruct (id item =? i); [|reflexivity].
    destruct fv; try reflexivity. now elim (N value).
  - intros A.
    assert (M : map (fun item : LineItem num =>
                       if id item =? i then withField item fv else item)
                  (lineItems st) = lineItems st).
    { rewrite <- (map_id (lineItems st)) at 2. apply map_ext_in.
      intros item I. rewrite Forall_forall in A.
      pose proof (A item I) as ne. apply String.eqb_neq in ne.
      now rewrite ne. }
    rewrite M. apply setLineItems_same.
  - intros v -> ne X. apply existsb_exists.
    apply Exists_exists in X as (item & I & e).
    exists (withField item (DescriptionValue v)). split.
    + apply in_map_iff. exists item. split; [|exact I].
      apply String.eqb_eq in e. now rewrite e.
    + unfold noDescription. cbn. apply String.eqb_neq in ne. now rewrite ne.
Qed.

End LineItems.

Section LineItemsExamples.

Import Form Exact.

(** Two items that share the id "1" go together; the id "7" is nobody's. *)
Lemma X17_remove_line_item_witness :
  removeLineItem "7" (Sample.form [Sample.widget; Sample.unnamed])
  = Sample.form [Sample.widget; Sample.unnamed]
  /\ lineItems (removeLineItem "1"
                  (Sample.form [Sample.widget; Sample.unnamed; Sample.gift]))
     = [Sample.unnamed].
Proof.
  split.
  - apply (proj1 (proj2 (X17_remove_line_item "7"
                           (Sample.form [Sample.widget; Sample.unnamed])))).
    repeat constructor; discriminate.
  - reflexivity.
Defined.

(** The form as first shown, with a second blank line: still refused. *)
Lemma X18_add_line_item_witness :
  fst (handleSubmit 1700000000000 "2023-11-14T22:13:20.000Z"
         (Sample.always _ (Sample.okResponse (Sample.intent "pi_1" "pending")))
         (addLineItem 1700000000000 (Sample.form [Sample.blank])))
  = []
  /\ error (snd (handleSubmit 1700000000000 "2023-11-14T22:13:20.000Z"
                   (Sample.always _
                      (Sample.okResponse (Sample.intent "pi_1" "pending")))
                   (addLineItem 1700000000000 (Sample.form [Sample.blank]))))
     = "Please add at least one line item".
Proof.
  exact (proj2 (proj2 (proj2
           (@X18_add_line_item _ Q_JsNumber 1700000000000
              (Sample.form [Sample.blank])))) _ _ _ eq_refl).
Defined.

Lemma X19_add_then_remove_witness :
  removeLineItem "1700000000000"
    (addLineItem 1700000000000 (Sample.form [Sample.widget]))
  = Sample.form [Sample.widget]
  /\ removeLineItem "1700000000000"
       (addLineItem 1700000000000
          (addLineItem 1700000000000 (Sample.form [Sample.widget])))
     = Sample.form [Sample.widget].
Proof.
  apply (@X19_add_then_remove _ Q_JsNumber 1700000000000
           (Sample.form [Sample.widget])).
  repeat constructor. discriminate.
Defined.

(** Naming the unnamed item makes it count as described. *)
Lemma X20_update_line_item_witness :
  existsb (fun item => negb (noDescription item))
    (lineItems (updateLineItem "2" (DescriptionValue "Shipping")
                  (Sample.form [Sample.unnamed])))
  = true
  /\ nth_error
       (lineItems (updateLineItem "2" (DescriptionValue "Shipping")
                     (Sample.form [Sample.widget; Sample.unnamed]))) 0
     = Some Sample.widget.
Proof.
  destruct (X20_update_line_item "2"
              (DescriptionValue "Shipping") (Sample.form [Sample.unnamed]))
    as (_ & _ & _ & _ & _ & D).
  destruct (X20_update_line_item "2"
              (DescriptionValue "Shipping")
              (Sample.form [Sample.widget; Sample.unnamed]))
    as (_ & K & _).
  split.
  - apply (D "Shipping" eq_refl); [discriminate|].
    constructor. reflexivity.
  - apply K; [reflexivity | discriminate].
Defined.

End LineItemsExamples.

(** ** Status lookup: the other outcomes *)

Section StatusLookupOutcomes.

Import StatusPage.

Variable env : Env.
Variable fetch : Http.Fetch jsval.

(** The three ways a lookup with the prefix can end. *)
Lemma handleSubmit_prefixed (st : State) :
  startsWith (intentId st) "pi_" = true ->
  let request := intentRequest env (intentId st) in
  handleSubmit env fetch st =
  match fetch request with
  | Throw message =>
      ([CallFetch request], mkState (intentId st) false message)
  | Ok response =>
      if Http.ok response
      then ([CallFetch request; RouterPush ("/invoice/" ++ intentId st)],
            mkState (intentId st) true EmptyString)
      else ([CallFetch request], mkState (intentId st) false notFound)
  end.
Proof.
  intros P. unfold handleSubmit, tryBlock.
  cbn [intentId setLoading setError]. rewrite P. cbn [negb].
  unfold iobind, doFetch, throw, push.
  destruct (fetch (intentRequest env (intentId st))) as [response|m];
    [|reflexivity].
  now destruct (Http.ok response).
Qed.

(** X21. When the identifier has the prefix and [fetch] rejects (the
    network is down), the lookup ends with the message of the rejection,
    after its one call and without navigating, and the form is enabled
    again. *)
Theorem X21_lookup_network_failure (st : State) (message : string) :
  startsWith (intentId st) "pi_" = true ->
  fetch (intentRequest env (intentId st)) = Throw message ->
  handleSubmit env fetch st
  = ([CallFetch (intentRequest env (intentId st))],
     mkState (intentId st) false message).
Proof.
  intros P F. rewrite (handleSubmit_prefixed st P). cbn zeta. now rewrite F.
Qed.

(** X22. A lookup makes at most one network call; it navigates only when
    the identifier has the prefix and the response is in 200-299, and then
    to [/invoice/{id}] for the identifier that was typed; the form stays
    disabled exactly when it navigates; and the identifier is never
    changed. *)
Theorem X22_lookup_navigation (st : State) :
  (networkCalls (fst (handleSubmit env fetch st)) <= 1)%nat
  /\ (forall path,
        In (RouterPush path) (fst (handleSubmit env fetch st)) ->
        path = "/invoice/" ++ intentId st
        /\ startsWith (intentId st) "pi_" = true
        /\ exists response,
             fetch (intentRequest env (intentId st)) = Ok response
             /\ Http.ok response = true)
  /\ (loading (snd (handleSubmit env fetch st)) = true <->
      In (RouterPush ("/invoice/" ++ intentId st))
        (fst (handleSubmit env fetch st)))
  /\ intentId (snd (handleSubmit env fetch st)) = intentId st.
Proof.
  destruct (startsWith (intentId st) "pi_") eqn:P.
  - rewrite (handleSubmit_prefixed st P). cbn zeta.
    destruct (fetch (intentRequest env (intentId st))) as [response|m] eqn:F;
      [destruct (Http.ok response) eqn:O|]; cbn.
    + split; [lia|]. split; [|split; [|reflexivity]].
      * intros path [D|[[= <-]|[]]]; [discriminate|].
        split; [reflexivity|]. split; [reflexivity|]. now exists response.
      * split; [intros _; right; now left | reflexivity].
    + split; [lia|]. split; [|split; [|reflexivity]].
      * intros path [D|[]]. discriminate.
      * split; [discriminate | intros [D|[]]; discriminate].
    + split; [lia|]. split; [|split; [|reflexivity]].
      * intros path [D|[]]. discriminate.
      * split; [discriminate | intros [D|[]]; discriminate].
  - unfold handleSubmit, tryBlock. cbn [intentId setLoading setError].
    rewrite P. cbn. split; [lia|]. split; [intros path []|].
    split; [split; [discriminate | intros []] | reflexivity].
Qed.

End StatusLookupOutcomes.

Section StatusLookupOutcomesExamples.

Import StatusPage.

Lemma X21_lookup_network_failure_witness :
  handleSubmit Sample.env (fun _ => Throw "Failed to fetch")
    (mkState "pi_123" false EmptyString)
  = ([CallFetch (intentRequest Sample.env "pi_123")],
     mkState "pi_123" false "Failed to fetch").
Proof.
  exact (X21_lookup_network_failure Sample.env (fun _ => Throw "Failed to fetch")
           (mkState "pi_123" false EmptyString) "Failed to fetch"
           eq_refl eq_refl).
Defined.

(** After a lookup that found the intent the form is still disabled. *)
Lemma X22_lookup_navigation_witness :
  loading (snd (handleSubmit Sample.env
                  (Sample.always jsval
                     (Sample.okResponse (Sample.intent "pi_123" "pending")))
                  (mkState "pi_123" false EmptyString)))
  = true.
Proof.
  destruct (X22_lookup_navigation Sample.env
              (Sample.always jsval
                 (Sample.okResponse (Sample.intent "pi_123" "pending")))
              (mkState "pi_123" false EmptyString)) as (_ & _ & L & _).
  apply L. right. left. reflexivity.
Defined.

End StatusLookupOutcomesExamples.

(** ** The display page: loading, errors and the QR code *)

Section DisplayStates.

Import InvoicePage.

Variable env : Env.

(** With no fetch in flight and no timer, the only thing that can still
    happen to a page is its teardown. *)
Lemma idle_runFrom intentId more : forall st t st',
  inflight st = 0 -> timers st = [] -> cleanup st = None ->
  runFrom env intentId st more = Some (t, st') ->
  t = []
  /\ invoice st' = invoice st /\ error st' = error st
  /\ loading st' = loading st /\ qrCodeUrl st' = qrCodeUrl st
  /\ timers st' = []
  /\ (more = [] \/ more = [Unmount]).
Proof.
  induction more as [|i rest IH]; intros st t st' I T C; cbn [runFrom].
  - intros [= <- <-]. repeat split; auto.
  - destruct (step env intentId st i) as [[t1 st1]|] eqn:S; [|discriminate].
    destruct (runFrom env intentId st1 rest) as [[t2 st2]|] eqn:R;
      [|discriminate].
    intros [= <- <-].
    destruct i as [h|r qr|]; cbn [step] in S.
    + rewrite T in S. discriminate.
    + rewrite I in S. discriminate.
    + destruct (mounted st) eqn:M; [|discriminate].
      unfold runCleanup in S. rewrite C in S. injection S as <- <-.
      destruct (IH (setMounted false st) _ _ I T C R)
        as (-> & Ei & Ee & El & Eq & Et & Em).
      cbn in Ei, Ee, El, Eq. repeat (split; [assumption || reflexivity|]).
      right. destruct Em as [-> | ->]; [reflexivity|].
      cbn in R. discriminate.
Qed.

(** X23. A page opened without an identifier never fetches anything and
    never leaves the loading screen, whatever happens to it. *)
Theorem X23_no_identifier inputs t st :
  run env EmptyString inputs = Some (t, st) ->
  t = [] /\ render st = LoadingView /\ invoice st = None /\ timers st = [].
Proof.
  unfold run, mount. cbn.
  destruct (runFrom env EmptyString _ inputs) as [[t1 st1]|] eqn:R;
    [|discriminate].
  intros [= <- <-].
  pose proof (fun I T C => idle_runFrom EmptyString inputs _ _ _ I T C R) as X.
  destruct (X eq_refl eq_refl eq_refl) as (-> & Ei & _ & El & _ & Et & _).
  cbn in Ei, El. unfold render. rewrite El. now rewrite Ei, Et.
Qed.

End DisplayStates.

Section DisplayFailures.

Import InvoicePage.

Variable env : Env.
Variable intentId : string.

Lemma afterFetch_loading r qr st :
  loading (afterFetch env intentId r qr st) = false.
Proof.
  unfold afterFetch. destruct (fetched env intentId r) as [data|m].
  - now destruct (truthy (getOpt data "payment_url")), qr.
  - reflexivity.
Qed.

Lemma afterFetch_qr r qr st :
  qrCodeUrl (afterFetch env intentId r qr st)
  = match fetched env intentId r, qr with
    | Ok data, Ok qrCode =>
        if truthy (getOpt data "payment_url") then qrCode else qrCodeUrl st
    | _, _ => qrCodeUrl st
    end.
Proof.
  unfold afterFetch. destruct (fetched env intentId r) as [data|m].
  - now destruct (truthy (getOpt data "payment_url")), qr.
  - now destruct qr.
Qed.

Lemma commit_qr previous st : qrCodeUrl (commit previous st) = qrCodeUrl st.
Proof.
  unfold commit, pollingEffect, runCleanup.
  destruct (sameValue previous (statusOf (invoice st))); [reflexivity|].
  destruct (cleanup st); cbn;
    destruct (strictEqStr (statusOf (invoice st)) "pending"); reflexivity.
Qed.

(** What a step does to the React state, input by input. *)
Lemma step_react st i t st' :
  step env intentId st i = Some (t, st') ->
  match i with
  | Settle r qr =>
      if mounted st then
        invoice st' = invoice (afterFetch env intentId r qr st)
        /\ error st' = error (afterFetch env intentId r qr st)
        /\ loading st' = false
        /\ qrCodeUrl st' = qrCodeUrl (afterFetch env intentId r qr st)
      else
        invoice st' = invoice st /\ error st' = error st
        /\ loading st' = loading st /\ qrCodeUrl st' = qrCodeUrl st
  | _ =>
      invoice st' = invoice st /\ error st' = error st
      /\ loading st' = loading st /\ qrCodeUrl st' = qrCodeUrl st
  end.
Proof.
  destruct i as [h|r qr|]; cbn [step].
  - destruct (existsb _ (timers st)); [|discriminate].
    intros [= _ <-]. repeat split.
  - destruct (inflight st) as [|n]; [discriminate|].
    destruct (mounted st).
    + destruct (commit_react (statusOf (invoice st))
                  (afterFetch env intentId r qr (setInflight n st)))
        as (Ci & Ce & Cl & _).
      pose proof (commit_qr (statusOf (invoice st))
                    (afterFetch env intentId r qr (setInflight n st))) as Cq.
      destruct (fetched env intentId r) as [data|m] eqn:F; intros [= _ <-].
      * rewrite Ci, Ce, Cl, Cq, afterFetch_loading,
          !afterFetch_invoice, !afterFetch_error, !afterFetch_qr.
        repeat split.
      * rewrite afterFetch_loading,
          !afterFetch_invoice, !afterFetch_error, !afterFetch_qr.
        repeat split.
    + intros [= _ <-]. repeat split.
  - destruct (mounted st); [|discriminate]. intros [= _ <-].
    unfold runCleanup. destruct (cleanup st); repeat split.
Qed.

(** The page right after its first render. *)
Lemma mount_with_identifier :
  intentId <> EmptyString ->
  mount env intentId
  = ([CallFetch (intentRequest env intentId)],
     mkState None EmptyString true EmptyString true [] 0 None 1).
Proof.
  intros ne. unfold mount. apply String.eqb_neq in ne. now rewrite ne.
Qed.

Lemma first_failure r qr message :
  fetched env intentId r = Throw message ->
  step env intentId
    (mkState None EmptyString true EmptyString true [] 0 None 1) (Settle r qr)
  = Some ([], mkState None EmptyString false message true [] 0 None 0).
Proof.
  intros F. cbn [step inflight mounted]. rewrite F.
  unfold afterFetch. now rewrite F.
Qed.

(** X24. When the first fetch of a page fails, the page shows the error
    view with the message of the failure, stores no invoice and starts no
    timer; and nothing can follow but its teardown: the fetch on mount is
    the only one there will ever be. *)
Theorem X24_first_fetch_failure r qr message more t st :
  intentId <> EmptyString ->
  fetched env intentId r = Throw message ->
  run env intentId (Settle r qr :: more) = Some (t, st) ->
  t = [CallFetch (intentRequest env intentId)]
  /\ error st = message
  /\ invoice st = None
  /\ timers st = []
  /\ render st = ErrorView message
  /\ (more = [] \/ more = [Unmount]).
Proof.
  intros ne F. unfold run. rewrite (mount_with_identifier ne).
  cbn [runFrom]. rewrite (first_failure r qr message F).
  destruct (runFrom env intentId _ more) as [[t1 st1]|] eqn:R; [|discriminate].
  intros [= <- <-].
  pose proof (fun I T C => idle_runFrom env intentId more _ _ _ I T C R) as X.
  destruct (X eq_refl eq_refl eq_refl) as (-> & Ei & Ee & El & _ & Et & Em).
  cbn in Ei, Ee, El. split; [reflexivity|]. split; [exact Ee|].
  split; [exact Ei|]. split; [exact Et|]. split; [|exact Em].
  unfold render. now rewrite El, Ei, Ee.
Qed.

(** X25. Nothing but a later failure changes the error of a page: ticks,
    teardown and responses that succeed leave it as it is, so that a page
    that shows an error goes on showing it while its polls succeed. *)
Theorem X25_error_stays more : forall st t st',
  runFrom env intentId st more = Some (t, st') ->
  Forall (fun i => forall r qr, i = Settle r qr ->
                   exists data, fetched env intentId r = Ok data) more ->
  error st' = error st
  /\ (loading st = false -> error st <> EmptyString ->
      render st' = ErrorView (error st)).
Proof.
  induction more as [|i rest IH]; intros st t st'; cbn [runFrom].
  - intros [= _ <-] _. split; [reflexivity|]. intros L ne. unfold render.
    rewrite L. apply String.eqb_neq in ne.
    destruct (invoice st); [now rewrite ne | reflexivity].
  - destruct (step env intentId st i) as [[t1 st1]|] eqn:S; [|discriminate].
    destruct (runFrom env intentId st1 rest) as [[t2 st2]|] eqn:R;
      [|discriminate].
    intros [= _ <-] A. inversion A as [|i' rest' Ai Ar]; subst.
    destruct (IH _ _ _ R Ar) as [E V].
    pose proof (step_react _ _ _ _ S) as X.
    assert (E1 : error st1 = error st /\ (loading st = false -> loading st1 = false)).
    { destruct i as [h|r qr|].
      - destruct X as (_ & Ee & El & _). split; [exact Ee | congruence].
      - destruct (mounted st).
        + destruct X as (_ & Ee & El & _). split; [|now intros _].
          rewrite Ee, afterFetch_error.
          destruct (Ai r qr eq_refl) as [data ->]. reflexivity.
        + destruct X as (_ & Ee & El & _). split; [exact Ee | congruence].
      - destruct X as (_ & Ee & El & _). split; [exact Ee | congruence]. }
    destruct E1 as [Ee El]. rewrite <- Ee. split; [exact E|].
    intros L ne. apply V; [now apply El | exact ne].
Qed.

Lemma loading_never_returns more : forall st t st',
  loading st = false ->
  runFrom env intentId st more = Some (t, st') ->
  loading st' = false.
Proof.
  induction more as [|i rest IH]; intros st t st' L; cbn [runFrom].
  - now intros [= _ <-].
  - destruct (step env intentId st i) as [[t1 st1]|] eqn:S; [|discriminate].
    destruct (runFrom env intentId st1 rest) as [[t2 st2]|] eqn:R;
      [|discriminate].
    intros [= _ <-]. apply (IH st1 t2 st2); [|exact R].
    pose proof (step_react _ _ _ _ S) as X.
    destruct i as [h|r qr|]; [|destruct (mounted st)|];
      destruct X as (_ & _ & El & _); congruence.
Qed.

(** X26. While a page shows the loading screen it has stored nothing: no
    invoice, no error, no QR code, no timer.  The first response a mounted
    page handles, good or bad, ends the loading screen, and it never comes
    back. *)
Theorem X26_loading_screen inputs t st :
  run env intentId inputs = Some (t, st) ->
  (loading st = true ->
   invoice st = None /\ error st = EmptyString
   /\ qrCodeUrl st = EmptyString /\ timers st = [])
  /\ (forall r qr t' st',
        mounted st = true ->
        step env intentId st (Settle r qr) = Some (t', st') ->
        loading st' = false)
  /\ (forall more t' st',
        loading st = false ->
        runFrom env intentId st more = Some (t', st') ->
        loading st' = false).
Proof.
  intros Rn. split; [|split].
  - assert (G : forall more st0 t0 st1,
               (loading st0 = true ->
                invoice st0 = None /\ error st0 = EmptyString
                /\ qrCodeUrl st0 = EmptyString /\ cleanup st0 = None) ->
               runFrom env intentId st0 more = Some (t0, st1) ->
               loading st1 = true ->
               invoice st1 = None /\ error st1 = EmptyString
               /\ qrCodeUrl st1 = EmptyString /\ cleanup st1 = None).
    { induction more as [|i rest IH]; intros st0 t0 st1 J; cbn [runFrom].
      - now intros [= _ <-].
      - destruct (step env intentId st0 i) as [[ta sta]|] eqn:S; [|discriminate].
        destruct (runFrom env intentId sta rest) as [[tb stb]|] eqn:R;
          [|discriminate].
        intros [= _ <-]. apply (IH sta tb stb); [|exact R].
        intros L. pose proof (step_react _ _ _ _ S) as X.
        assert (C : cleanup st0 = None -> loading st0 = true ->
                    cleanup sta = None).
        { intros C0 L0. destruct i as [h|r qr|]; cbn [step] in S.
          - destruct (existsb _ (timers st0)); [|discriminate].
            now injection S as _ <-.
          - destruct (inflight st0); [discriminate|].
            destruct (mounted st0).
            + destruct X as (_ & _ & Lf & _). congruence.
            + now injection S as _ <-.
          - destruct (mounted st0); [|discriminate]. injection S as _ <-.
            unfold runCleanup. now rewrite C0. }
        destruct i as [h|r qr|].
        + destruct X as (Ei & Ee & El & Eq). rewrite El in L.
          destruct (J L) as (A & B & Q & K).
          rewrite Ei, Ee, Eq. repeat (split; [assumption|]). now apply C.
        + destruct (mounted st0).
          * destruct X as (_ & _ & Lf & _). congruence.
          * destruct X as (Ei & Ee & El & Eq). rewrite El in L.
            destruct (J L) as (A & B & Q & K).
            rewrite Ei, Ee, Eq. repeat (split; [assumption|]). now apply C.
        + destruct X as (Ei & Ee & El & Eq). rewrite El in L.
          destruct (J L) as (A & B & Q & K).
          rewrite Ei, Ee, Eq. repeat (split; [assumption|]). now apply C. }
    assert (M0 : forall n t1 st1,
               runFrom env intentId
                 (mkState None EmptyString true EmptyString true [] 0 None n)
                 inputs = Some (t1, st1) ->
               loading st1 = true ->
               invoice st1 = None /\ error st1 = EmptyString
               /\ qrCodeUrl st1 = EmptyString /\ cleanup st1 = None).
    { intros n t1 st1 R L.
      apply (G inputs
               (mkState None EmptyString true EmptyString true [] 0 None n)
               t1 st1); [intros _; repeat split | exact R | exact L]. }
    intros L. pose proof (consistent_run _ _ _ _ _ Rn) as [T _].
    revert Rn. unfold run, mount.
    destruct (negb (intentId =? EmptyString));
      cbn [pollingEffect statusOf invoice setInflight strictEqStr];
      match goal with
      | |- context [runFrom env intentId ?s inputs] =>
          destruct (runFrom env intentId s inputs) as [[t1 st1]|] eqn:R
      end; try discriminate; intros [= _ <-];
      [destruct (M0 1 _ _ R L) as (A & B & Q & K)
      |destruct (M0 0 _ _ R L) as (A & B & Q & K)];
      rewrite K in T; auto.
  - intros r qr t' st' M S. pose proof (step_react _ _ _ _ S) as X.
    rewrite M in X. tauto.
  - intros more t' st' L R. exact (loading_never_returns more _ _ _ L R).
Qed.

End DisplayFailures.

Section DisplayResponses.

Import InvoicePage.

Variable env : Env.
Variable intentId : string.

Lemma fallbackUrl_truthy : truthy (JStr (fallbackUrl env intentId)) = true.
Proof.
  unfold fallbackUrl. cbn. now destruct (pageApiBase env).
Qed.

(** After [fetchInvoice] has stored an object, it has a [payment_url]. *)
Lemma stored_payment_url_truthy fields :
  truthy
    (getOpt (JObj (if truthy (lookup "payment_url" fields) then fields
                   else setField "payment_url"
                          (JStr (fallbackUrl env intentId)) fields))
       "payment_url") = true.
Proof.
  rewrite stored_payment_url.
  destruct (truthy (lookup "payment_url" fields)) eqn:T;
    [exact T | apply fallbackUrl_truthy].
Qed.

(** X27. The QR code is made after every response that stores an intent,
    paid or not.  When making it succeeds the new image replaces the old
    one; when it fails the page keeps the image it had and shows no error:
    the invoice is stored and the loading screen ends all the same. *)
Theorem X27_qr_code st response fields :
  mounted st = true -> inflight st <> 0 ->
  Http.ok response = true ->
  Http.json response = Ok (JObj fields) ->
  (forall qrCode,
     exists st',
       step env intentId st (Settle (Ok response) (Ok qrCode)) = Some ([], st')
       /\ qrCodeUrl st' = qrCode)
  /\ (forall e,
        exists st',
          step env intentId st (Settle (Ok response) (Throw e))
          = Some ([], st')
          /\ qrCodeUrl st' = qrCodeUrl st
          /\ error st' = error st
          /\ invoice st' <> None
          /\ loading st' = false).
Proof.
  intros M I O B. split.
  - intros qrCode.
    destruct (settle_stores env intentId st response fields (Ok qrCode) M I O B)
      as (st' & inv & St & _).
    exists st'. split; [exact St|].
    pose proof (step_react _ _ _ _ _ _ St) as X. rewrite M in X.
    destruct X as (_ & _ & _ & Q). rewrite Q, afterFetch_qr.
    rewrite (fetched_object _ _ _ _ O B).
    now rewrite stored_payment_url_truthy.
  - intros e.
    destruct (settle_stores env intentId st response fields (Throw e) M I O B)
      as (st' & inv & St & Inv & _ & _ & _ & L & E).
    exists st'. split; [exact St|].
    pose proof (step_react _ _ _ _ _ _ St) as X. rewrite M in X.
    destruct X as (_ & _ & _ & Q). rewrite Q, afterFetch_qr.
    rewrite (fetched_object _ _ _ _ O B).
    split; [reflexivity|]. split; [exact E|]. split; [congruence | exact L].
Qed.

(** X28. What the page shows when loading the intent fails: the message of
    a [fetch] that rejects; for a response outside 200-299, the [error] of
    its body when that is an object with a non-empty [error] string, and
    "Failed to load invoice ({status})" when the body is not JSON or is an
    object without a truthy [error]; for a response in 200-299 whose body
    is not JSON, the error of the parser.  In each case the invoice and the
    QR code that were there stay, and nothing is fetched. *)
Theorem X28_load_errors :
  (forall message, fetched env intentId (Throw message) = Throw message)
  /\ (forall response,
        Http.ok response = false ->
        (forall fields s,
           Http.json response = Ok (JObj fields) ->
           lookup "error" fields = JStr s -> s <> EmptyString ->
           fetched env intentId (Ok response) = Throw s)
        /\ (forall e,
              Http.json response = Throw e ->
              fetched env intentId (Ok response)
              = Throw ("Failed to load invoice ("
                         ++ show_Z (Http.status response) ++ ")"))
        /\ (forall fields,
              Http.json response = Ok (JObj fields) ->
              truthy (lookup "error" fields) = false ->
              fetched env intentId (Ok response)
              = Throw ("Failed to load invoice ("
                         ++ show_Z (Http.status response) ++ ")")))
  /\ (forall response e,
        Http.ok response = true -> Http.json response = Throw e ->
        fetched env intentId (Ok response) = Throw e)
  /\ (forall st r qr message t' st',
        mounted st = true ->
        fetched env intentId r = Throw message ->
        step env intentId st (Settle r qr) = Some (t', st') ->
        t' = [] /\ error st' = message /\ invoice st' = invoice st
        /\ qrCodeUrl st' = qrCodeUrl st).
Proof.
  split; [reflexivity|]. split; [|split].
  - intros response O. unfold fetched. cbn [bind]. rewrite O. cbn [negb].
    unfold Http.json_catch. split; [|split].
    + intros fields s -> E ne. cbn. rewrite E. unfold or. cbn.
      apply String.eqb_neq in ne. now rewrite ne.
    + intros e ->. reflexivity.
    + intros fields -> T. cbn. unfold or. now rewrite T.
  - intros response e O J. unfold fetched. cbn [bind]. rewrite O. cbn [negb].
    now rewrite J.
  - intros st r qr message t' st' M F St.
    pose proof (step_react _ _ _ _ _ _ St) as X. rewrite M in X.
    destruct X as (Ei & Ee & _ & Eq).
    rewrite Ei, Ee, Eq, afterFetch_invoice, afterFetch_error, afterFetch_qr, F.
    split; [|repeat split; now destruct qr].
    cbn [step] in St. destruct (inflight st); [discriminate|].
    rewrite M, F in St. now injection St as <- _.
Qed.

End DisplayResponses.

Section LinkAndBadge.

Import InvoicePage.

(** X29. For an intent whose network is a string, the explorer link
    selects the cluster devnet exactly when the string contains "devnet",
    and mainnet-beta otherwise; so for a network that names exactly one of
    the two, as "solana:devnet" and "solana:mainnet" do, the link and the
    network badge agree. *)
Theorem X29_link_and_badge inv n :
  networkOf inv = JStr n ->
  (explorerCluster inv = Ok "devnet" <->
   exists pre post, n = pre ++ "devnet" ++ post)
  /\ (explorerCluster inv = Ok "mainnet-beta" <->
      ~ exists pre post, n = pre ++ "devnet" ++ post)
  /\ (includes n "devnet" = negb (includes n "mainnet") ->
      (explorerCluster inv = Ok "devnet" /\ networkBadge inv = Ok "Devnet")
      \/ (explorerCluster inv = Ok "mainnet-beta"
          /\ networkBadge inv = Ok "Mainnet")).
Proof.
  intros N. rewrite (explorerCluster_string inv n N),
              (networkBadge_string inv n N).
  pose proof (includes_app n "devnet") as IA.
  destruct (includes n "devnet") eqn:D.
  - split; [split; [intros _; now apply IA | reflexivity]|].
    split; [split; [discriminate | intros X; elim X; now apply IA]|].
    intros E. left. destruct (includes n "mainnet"); [discriminate|].
    split; reflexivity.
  - split; [split; [discriminate | intros X; apply IA in X; discriminate]|].
    split; [split; [intros _ X; apply IA in X; discriminate | reflexivity]|].
    intros E. right. destruct (includes n "mainnet"); [|discriminate].
    split; reflexivity.
Qed.

Lemma X29_link_and_badge_witness :
  let inv := Some (Sample.intent "pi_1" "succeeded") in
  explorerCluster inv = Ok "devnet" /\ networkBadge inv = Ok "Devnet".
Proof.
  intros inv.
  destruct (X29_link_and_badge inv "solana:devnet" eq_refl) as (_ & _ & A).
  destruct (A eq_refl) as [D|[D _]]; [exact D | discriminate D].
Defined.

End LinkAndBadge.

Section DisplayExamples.

Import InvoicePage.

(** A page without identifier that is torn down. *)
Lemma X23_no_identifier_witness :
  exists st,
    run Sample.env EmptyString [Unmount] = Some ([], st)
    /\ render st = LoadingView.
Proof.
  eexists. split; [reflexivity|].
  exact (proj1 (proj2 (X23_no_identifier Sample.env [Unmount] _ _ eq_refl))).
Defined.

(** A page opened for an intent the upstream does not have. *)
Lemma X24_first_fetch_failure_witness :
  exists t st,
    run Sample.env "pi_404" [Settle (Ok Sample.missing) Sample.qr; Unmount]
    = Some (t, st)
    /\ t = [CallFetch (intentRequest Sample.env "pi_404")]
    /\ render st = ErrorView "Payment intent not found".
Proof.
  eexists. eexists. split; [reflexivity|].
  destruct (X24_first_fetch_failure Sample.env "pi_404" (Ok Sample.missing)
              Sample.qr "Payment intent not found" [Unmount] _ _
              ltac:(discriminate) eq_refl eq_refl)
    as (T & _ & _ & _ & V & _).
  split; [exact T | exact V].
Defined.

(** A page whose poll failed once goes on showing the error while the next
    poll succeeds. *)
Lemma X25_error_stays_witness :
  let pending := Ok (Sample.okResponse (Sample.intent "pi_1" "pending")) in
  let failed :=
    mkState (Some (Sample.intent "pi_1" "pending")) "data:image/png;base64,AAAA"
      false "Failed to fetch" true [(0, 5000%Z)] 1 (Some 0) 0 in
  exists t st,
    runFrom Sample.env "pi_1" failed [Tick 0; Settle pending Sample.qr]
    = Some (t, st)
    /\ invoice st <> None
    /\ render st = ErrorView "Failed to fetch".
Proof.
  intros pending failed.
  match eval vm_compute in
        (runFrom Sample.env "pi_1" failed [Tick 0; Settle pending Sample.qr])
  with
  | Some (?t, ?st) => exists t, st
  end.
  assert (R : runFrom Sample.env "pi_1" failed
                [Tick 0; Settle pending Sample.qr] = Some _)
    by (vm_compute; reflexivity).
  split; [exact R|]. split; [discriminate|].
  refine (proj2 (X25_error_stays Sample.env "pi_1" _ failed _ _ R _)
            eq_refl ltac:(discriminate)).
  repeat constructor; try discriminate.
  intros r qr [= <- _]. eexists. vm_compute. reflexivity.
Defined.

(** A page that has just been opened. *)
Lemma X26_loading_screen_witness :
  exists t st,
    run Sample.env "pi_1" [] = Some (t, st)
    /\ render st = LoadingView
    /\ invoice st = None /\ timers st = [].
Proof.
  eexists. eexists. split; [reflexivity|]. split; [reflexivity|].
  destruct (proj1 (X26_loading_screen Sample.env "pi_1" [] _ _ eq_refl) eq_refl)
    as (I & _ & _ & T).
  split; [exact I | exact T].
Defined.

(** The first response arrives and the QR code cannot be made. *)
Lemma X27_qr_code_witness :
  exists st',
    step Sample.env "pi_1" (snd (mount Sample.env "pi_1"))
      (Settle (Ok (Sample.okResponse (Sample.intent "pi_1" "pending")))
         (Throw "canvas"))
    = Some ([], st')
    /\ qrCodeUrl st' = EmptyString
    /\ error st' = EmptyString
    /\ loading st' = false.
Proof.
  destruct (proj2 (X27_qr_code Sample.env "pi_1" (snd (mount Sample.env "pi_1"))
                     (Sample.okResponse (Sample.intent "pi_1" "pending")) _
                     eq_refl ltac:(discriminate) eq_refl eq_refl) "canvas")
    as (st' & St & Q & E & _ & L).
  exists st'. split; [exact St|]. split; [exact Q|]. split; [exact E | exact L].
Defined.

Lemma X28_load_errors_witness :
  fetched Sample.env "pi_404" (Ok Sample.missing)
  = Throw "Payment intent not found"
  /\ fetched Sample.env "pi_1" (Ok Sample.gatewayError)
     = Throw "Failed to load invoice (502)".
Proof.
  destruct (X28_load_errors Sample.env "pi_404") as (_ & N4 & _).
  destruct (X28_load_errors Sample.env "pi_1") as (_ & N1 & _).
  split.
  - exact (proj1 (N4 Sample.missing eq_refl) _ "Payment intent not found"
             eq_refl eq_refl ltac:(discriminate)).
  - exact (proj1 (proj2 (N1 Sample.gatewayError eq_refl)) _ eq_refl).
Defined.

End DisplayExamples.
